(** * Kasa smart-home controller (switch.py): model and properties

    A shallow embedding of the logic of [KasaDeviceGUI] in [switch.py]:
    the [.env] credential loader, the device mapping, the Treeview used
    as device list, the statistics counters, the search filter and the
    coroutines that the worker event loop runs (discovery, manual add,
    batch control).

    Conventions.
    - Python [str] is modelled by [string], a text being held as its
      UTF-8 bytes (the icon literals too).  [str.strip] and [str.lower]
      are modelled on the ASCII range: Python also strips Unicode white
      space and lowers letters outside ASCII, so a statement that
      depends on either is made for text on which the two agree, and
      says so in a hypothesis.
    - A Python [dict] is an association list in insertion order with
      unique keys.
    - A Python exception is a value of [exn]; code that can raise
      returns a [result].
    - The external [kasa] library is a parameter of the model: what a
      network call does is given by the caller as an outcome. *)

From Stdlib Require Import Strings.String Strings.Ascii Lists.List Arith.Arith
  Arith.PeanoNat Bool.Bool micromega.Lia Numbers.DecimalString
  Sorting.Permutation.
Import ListNotations.
Local Open Scope list_scope.
Local Open Scope string_scope.

(** ** Python string primitives *)

Module PyStr.

(** [str.isspace] on the ASCII range: TAB, LF, VT, FF, CR, FS, GS, RS,
    US and space.  The white space outside ASCII (NEL, the no-break
    space, the spaces of the general punctuation block and the like)
    is not recognised: a text that starts or ends with such a character
    is outside the domain of [strip] below. *)
Definition is_space (c : ascii) : bool :=
  let n := nat_of_ascii c in
  (((9 <=? n) && (n <=? 13)) || ((28 <=? n) && (n <=? 32)))%nat.

Fixpoint lstrip_by (p : ascii -> bool) (s : string) : string :=
  match s with
  | EmptyString => EmptyString
  | String c r => if p c then lstrip_by p r else s
  end.

Fixpoint rstrip_by (p : ascii -> bool) (s : string) : string :=
  match s with
  | EmptyString => EmptyString
  | String c r =>
      match rstrip_by p r with
      | EmptyString => if p c then EmptyString else String c EmptyString
      | r' => String c r'
      end
  end.

Definition strip_by (p : ascii -> bool) (s : string) : string :=
  rstrip_by p (lstrip_by p s).

(** [s.strip()] *)
Definition strip (s : string) : string := strip_by is_space s.

(** [s.strip(ch)] for a one-character argument. *)
Definition strip_char (ch : ascii) (s : string) : string :=
  strip_by (Ascii.eqb ch) s.

(** [s.startswith(ch)] *)
Definition startswith_char (ch : ascii) (s : string) : bool :=
  match s with
  | EmptyString => false
  | String c _ => Ascii.eqb c ch
  end.

(** [ch in s] *)
Fixpoint contains_char (ch : ascii) (s : string) : bool :=
  match s with
  | EmptyString => false
  | String c r => Ascii.eqb c ch || contains_char ch r
  end.

(** [s.split(ch, 1)] when [ch in s]: the text before the first [ch] and
    the text after it. *)
Fixpoint split_first (ch : ascii) (s : string) : string * string :=
  match s with
  | EmptyString => (EmptyString, EmptyString)
  | String c r =>
      if Ascii.eqb c ch then (EmptyString, r)
      else let (k, v) := split_first ch r in (String c k, v)
  end.

(** [sub in s] *)
Fixpoint contains (sub s : string) : bool :=
  if String.prefix sub s then true
  else match s with
       | EmptyString => false
       | String _ r => contains sub r
       end.

(** [str.lower] on the ASCII range: the letters A to Z.  A byte of a
    character outside ASCII is left as it is, which is what Python does
    for an uncased character such as an icon, and not for a cased
    letter outside ASCII. *)
Definition lower_char (c : ascii) : ascii :=
  let n := nat_of_ascii c in
  if ((65 <=? n) && (n <=? 90))%nat then ascii_of_nat (n + 32) else c.

(** [s.lower()] *)
Fixpoint lower (s : string) : string :=
  match s with
  | EmptyString => EmptyString
  | String c r => String (lower_char c) (lower r)
  end.

(** [sep.join(l)] *)
Fixpoint join (sep : string) (l : list string) : string :=
  match l with
  | [] => EmptyString
  | [x] => x
  | x :: r => x ++ sep ++ join sep r
  end.

(** [str(n)] for a non-negative [int]. *)
Definition of_nat (n : nat) : string :=
  NilEmpty.string_of_uint (Nat.to_uint n).

(** [ch * n] *)
Fixpoint repeat_char (ch : ascii) (n : nat) : string :=
  match n with
  | O => EmptyString
  | S k => String ch (repeat_char ch k)
  end.

(** Truth value of a [str]. *)
Definition truthy (s : string) : bool :=
  match s with EmptyString => false | _ => true end.

(** A byte that continues a character started by an earlier byte of
    the UTF-8 text. *)
Definition is_continuation (c : ascii) : bool :=
  let n := nat_of_ascii c in
  ((128 <=? n) && (n <=? 191))%nat.

(** [len(s)]: the number of characters of the text, one for every byte
    that starts a character. *)
Fixpoint len (s : string) : nat :=
  match s with
  | EmptyString => 0
  | String c r => if is_continuation c then len r else S (len r)
  end.

Definition LF : ascii := ascii_of_nat 10.
Definition CR : ascii := ascii_of_nat 13.

(** Text-mode reading translates CR LF and a lone CR to LF. *)
Fixpoint universal_newlines (s : string) : string :=
  match s with
  | EmptyString => EmptyString
  | String c r =>
      if Ascii.eqb c CR then
        match r with
        | String c' r' =>
            if Ascii.eqb c' LF then String LF (universal_newlines r')
            else String LF (universal_newlines r)
        | EmptyString => String LF EmptyString
        end
      else String c (universal_newlines r)
  end.

(** The lines a file iterator yields for a text: each line keeps its
    terminating LF; a last line without LF is yielded as it is. *)
Fixpoint lines_keepends (s : string) : list string :=
  match s with
  | EmptyString => []
  | String c r =>
      if Ascii.eqb c LF then String c EmptyString :: lines_keepends r
      else match lines_keepends r with
           | [] => [String c EmptyString]
           | l :: ls => String c l :: ls
           end
  end.

Definition TAB : ascii := ascii_of_nat 9.
Definition BACKSLASH : ascii := ascii_of_nat 92.
Definition QUOTE2 : ascii := ascii_of_nat 34.

Definition hex_digit (n : nat) : ascii :=
  if (n <? 10)%nat then ascii_of_nat (48 + n) else ascii_of_nat (87 + n).

(** How [repr] writes one character between the quotes [q]: the quote
    and the backslash are escaped, TAB, LF and CR have their letter,
    any other control character of the ASCII range its two hexadecimal
    digits.  A character outside ASCII is written as it is, which is
    what Python does when the character is printable. *)
Definition repr_char (q c : ascii) : string :=
  let n := nat_of_ascii c in
  if Ascii.eqb c q || Ascii.eqb c BACKSLASH then String BACKSLASH (String c EmptyString)
  else if Ascii.eqb c TAB then String BACKSLASH "t"
  else if Ascii.eqb c LF then String BACKSLASH "n"
  else if Ascii.eqb c CR then String BACKSLASH "r"
  else if ((n <? 32) || (n =? 127))%nat then
    String BACKSLASH
      (String "x" (String (hex_digit (n / 16)) (String (hex_digit (n mod 16)) EmptyString)))
  else String c EmptyString.

Fixpoint repr_body (q : ascii) (s : string) : string :=
  match s with
  | EmptyString => EmptyString
  | String c r => repr_char q c ++ repr_body q r
  end.

(** [repr(s)]: apostrophes around the text, double quotes when the
    text holds an apostrophe and no double quote. *)
Definition repr (s : string) : string :=
  let q := if contains_char "'" s && negb (contains_char QUOTE2 s)
           then QUOTE2 else "'"%char in
  String q (repr_body q s ++ String q EmptyString).

End PyStr.

(** ** Python values, exceptions and attribute access *)

(** An exception object: [type(e).__name__] and [str(e)]. *)
Record exn := { ename : string; emsg : string }.

(** The result of an expression that may raise. *)
Inductive result (A : Type) : Type :=
| Ok (a : A)
| Raise (e : exn).
Arguments Ok {A} a.
Arguments Raise {A} e.

(** The values the device attributes read by the program can hold. *)
Inductive pyval :=
| PyNone
| PyBool (b : bool)
| PyInt (n : nat)
| PyStr (s : string).

(** Truth value testing, as [if v:] does. *)
Definition truth (v : pyval) : bool :=
  match v with
  | PyNone => false
  | PyBool b => b
  | PyInt n => negb (n =? 0)%nat
  | PyStr s => PyStr.truthy s
  end.

(** [str(v)], which is also what an f-string field renders. *)
Definition py_str (v : pyval) : string :=
  match v with
  | PyNone => "None"
  | PyBool true => "True"
  | PyBool false => "False"
  | PyInt n => PyStr.of_nat n
  | PyStr s => s
  end.

(** What reading [obj.name] does: the attribute is absent
    ([AttributeError]), it has a value, or the property raises an
    exception that is not an [AttributeError]. *)
Inductive attr (A : Type) : Type :=
| Missing
| Has (v : A)
| Fails (e : exn).
Arguments Missing {A}.
Arguments Has {A} v.
Arguments Fails {A} e.

Definition AttributeError (name : string) : exn :=
  {| ename := "AttributeError"; emsg := "object has no attribute '" ++ name ++ "'" |}.

(** [obj.name] *)
Definition get {A} (name : string) (a : attr A) : result A :=
  match a with
  | Missing => Raise (AttributeError name)
  | Has v => Ok v
  | Fails e => Raise e
  end.

(** [hasattr(obj, name)]: only [AttributeError] is turned into
    [False]; any other exception propagates. *)
Definition hasattr {A} (a : attr A) : result bool :=
  match a with
  | Missing => Ok false
  | Has _ => Ok true
  | Fails e => Raise e
  end.

(** [getattr(obj, name, default)] *)
Definition getattr {A} (a : attr A) (default : A) : result A :=
  match a with
  | Missing => Ok default
  | Has v => Ok v
  | Fails e => Raise e
  end.

(** The state attribute cannot be read: it is absent or raises. *)
Definition unreadable {A} (a : attr A) : Prop :=
  match a with
  | Has _ => False
  | _ => True
  end.

(** A device handle of the [kasa] library, as far as the program reads
    it. *)
Record device := {
  alias : attr pyval;
  is_on : attr pyval;
  is_available : attr pyval;
  available : attr pyval;
  device_type : attr pyval
}.

(** ** Ordered dictionaries *)

Module Dict.
Section Dict.
Context {V : Type}.

Definition t := list (string * V).

(** [d[k] = v]: replaces the value in place when [k] is present,
    appends a new entry otherwise. *)
Fixpoint set (k : string) (v : V) (d : list (string * V)) : list (string * V) :=
  match d with
  | [] => [(k, v)]
  | (k', v') :: r =>
      if String.eqb k' k then (k, v) :: r else (k', v') :: set k v r
  end.

(** [d.get(k)] *)
Fixpoint lookup (k : string) (d : list (string * V)) : option V :=
  match d with
  | [] => None
  | (k', v') :: r => if String.eqb k' k then Some v' else lookup k r
  end.

Definition keys (d : list (string * V)) : list string := map fst d.

Definition vals (d : list (string * V)) : list V := map snd d.

(** [k in d] *)
Definition mem (k : string) (d : list (string * V)) : bool :=
  match lookup k d with Some _ => true | None => false end.

End Dict.
End Dict.

(** ** The credential loader *)

Record credential_pair := { username : string; password : string }.

(** What the program finds at [.env]. *)
Inductive env_file :=
| NoFile                                 (* [os.path.exists] is false *)
| OpenError (e : exn)                    (* [open] raises *)
| Text (content : string)                (* the file is read to its end *)
| TextThenError (content : string) (e : exn).
                                         (* reading raises after [content] *)

Definition DQUOTE : ascii := ascii_of_nat 34.

(** The body of the [for line in f] loop. *)
Definition load_line (credentials : credential_pair) (line : string) : credential_pair :=
  let line := PyStr.strip line in
  if PyStr.truthy line && negb (PyStr.startswith_char "#" line) then
    if PyStr.contains_char "=" line then
      let (key, value) := PyStr.split_first "=" line in
      let key := PyStr.strip key in
      let value := PyStr.strip_char "'" (PyStr.strip_char DQUOTE (PyStr.strip value)) in
      if String.eqb key "KASA_USERNAME" then
        {| username := value; password := password credentials |}
      else if String.eqb key "KASA_PASSWORD" then
        {| username := username credentials; password := value |}
      else credentials
    else credentials
  else credentials.

Definition load_lines (content : string) (credentials : credential_pair) : credential_pair :=
  fold_left load_line (PyStr.lines_keepends (PyStr.universal_newlines content)) credentials.

Definition env_file_name : string := ".env".

Definition loaded_message (c : credential_pair) : string :=
  "Loaded credentials from " ++ env_file_name ++ ": username=" ++
  (if PyStr.truthy (username c)
   then PyStr.repeat_char "*" (PyStr.len (username c))
   else "not set").

(** [_load_credentials_from_env]: the credentials returned and the
    line printed. *)
Definition _load_credentials_from_env (f : env_file) : credential_pair * string :=
  let credentials := {| username := EmptyString; password := EmptyString |} in
  match f with
  | NoFile =>
      (credentials,
       "No " ++ env_file_name ++
       " file found. Create one with KASA_USERNAME and KASA_PASSWORD if needed.")
  | OpenError e =>
      (credentials, "Error reading " ++ env_file_name ++ ": " ++ emsg e)
  | Text content =>
      let credentials := load_lines content credentials in
      (credentials, loaded_message credentials)
  | TextThenError content e =>
      (load_lines content credentials,
       "Error reading " ++ env_file_name ++ ": " ++ emsg e)
  end.

Definition example_env : string :=
  "KASA_USERNAME=foo" ++ String PyStr.LF
    ("KASA_PASSWORD=" ++ String DQUOTE ("bar baz" ++ String DQUOTE (String PyStr.LF EmptyString))).

(** ** Control flow with exceptions *)

Definition bind {A B} (r : result A) (k : A -> result B) : result B :=
  match r with
  | Ok a => k a
  | Raise e => Raise e
  end.

Notation "x <- e ;; k" := (bind e (fun x => k))
  (at level 100, e at next level, right associativity).

(** A statement run on a state [S]: it ends normally, or it raises and
    leaves the state reached at that point. *)
Inductive outcome (S : Type) : Type :=
| Normal (s : S)
| Raised (e : exn) (s : S).
Arguments Normal {S} s.
Arguments Raised {S} e s.

Definition final {S} (o : outcome S) : S :=
  match o with
  | Normal s => s
  | Raised _ s => s
  end.

(** [for x in l: body], where an exception of the body leaves the loop. *)
Fixpoint for_each {S X} (body : S -> X -> outcome S) (l : list X) (s : S) : outcome S :=
  match l with
  | [] => Normal s
  | x :: r =>
      match body s x with
      | Normal s' => for_each body r s'
      | Raised e s' => Raised e s'
      end
  end.

(** ** The Treeview widget

    A flat [ttk.Treeview]: every item has an identifier, its column
    values and its tags.  The widget keeps the items linked under the
    root, in display order, and the items that were detached: those
    stay in the widget but are not displayed and are not children of
    the root. *)

Record item := { iid : string; values : list string; tags : list string }.

Record treeview := { children : list item; detached : list item }.

Definition TclError (msg : string) : exn := {| ename := "TclError"; emsg := msg |}.

Definition not_found (i : string) : exn := TclError ("Item " ++ i ++ " not found").

Definition has_iid (i : string) (it : item) : bool := String.eqb (iid it) i.

Definition remove_iid (i : string) (l : list item) : list item :=
  filter (fun it => negb (has_iid i it)) l.

Definition tree_exists (t : treeview) (i : string) : bool :=
  existsb (has_iid i) (children t) || existsb (has_iid i) (detached t).

Definition tree_find (t : treeview) (i : string) : option item :=
  find (has_iid i) (children t ++ detached t)%list.

Definition empty_tree : treeview := {| children := []; detached := [] |}.

(** [tree.get_children()]: the identifiers of the displayed items. *)
Definition get_children (t : treeview) : list string := map iid (children t).

(** [tree.item(i)['values']] *)
Definition item_values (t : treeview) (i : string) : result (list string) :=
  match tree_find t i with
  | Some it => Ok (values it)
  | None => Raise (not_found i)
  end.

(** [tree.delete(i)] *)
Definition tree_delete (t : treeview) (i : string) : result treeview :=
  if tree_exists t i then
    Ok {| children := remove_iid i (children t); detached := remove_iid i (detached t) |}
  else Raise (not_found i).

(** [tree.insert('', 'end', iid=..., values=..., tags=...)]: an
    identifier that is already in the widget, displayed or detached, is
    refused. *)
Definition tree_insert_end (t : treeview) (it : item) : result treeview :=
  if tree_exists t (iid it) then
    Raise (TclError ("Item " ++ iid it ++ " already exists"))
  else Ok {| children := (children t ++ [it])%list; detached := detached t |}.

(** [tree.detach(i)] *)
Definition tree_detach (t : treeview) (i : string) : result treeview :=
  match find (has_iid i) (children t) with
  | Some it =>
      Ok {| children := remove_iid i (children t); detached := it :: detached t |}
  | None =>
      if existsb (has_iid i) (detached t) then Ok t else Raise (not_found i)
  end.

(** [tree.reattach(i, '', 'end')]: the item becomes the last child of
    the root. *)
Definition tree_reattach_end (t : treeview) (i : string) : result treeview :=
  match tree_find t i with
  | Some it =>
      Ok {| children := (remove_iid i (children t) ++ [it])%list;
            detached := remove_iid i (detached t) |}
  | None => Raise (not_found i)
  end.

(** Identifiers are unique in a widget. *)
Definition tree_ok (t : treeview) : Prop :=
  NoDup (map iid (children t ++ detached t)%list).

(** ** The application state *)

(** The coroutines the program submits to the worker loop. *)
Inductive coroutine :=
| CoManualAdd (ip : string)
| CoDiscover
| CoToggle (ip : string)
| CoTurnAll (turn_on : bool)
| CoRefresh.

(** The worker's event loop: [is_closed()], whether [stop] was
    requested, and the callbacks handed to it. *)
Record event_loop := {
  closed : bool;
  stop_requested : bool;
  ready : list coroutine
}.

(** Calls into the [kasa] library and [asyncio.sleep], with the
    time bound (in seconds) each call is wrapped in; [Sleep] is in
    milliseconds. *)
Inductive lib_call :=
| CallDiscover (auth : option (string * string)) (timeout discovery_timeout : nat)
| CallDiscoverSingle (ip : string) (auth : option (string * string)) (timeout : nat)
| CallUpdate (ip : string) (timeout : nat)
| CallTurn (turn_on : bool) (ip : string) (timeout : nat)
| Sleep (ms : nat).

(** The texts of the four statistics labels. *)
Record stats_texts := {
  total_text : string;
  online_text : string;
  offline_text : string;
  active_text : string
}.

Record gui := {
  devices : list (string * device);
  credentials : credential_pair;
  loop : option event_loop;
  tree : option treeview;               (* [None]: no attribute [tree] yet *)
  stats_labels : option stats_texts;    (* [None]: no attribute [stats_labels] yet *)
  search_var : string;
  status_var : string;
  stdout : list string;                 (* lines printed *)
  dialogs : list (string * string);     (* message boxes shown: title, text *)
  calls : list lib_call                 (* library calls issued, oldest first *)
}.

Definition set_devices (g : gui) (d : list (string * device)) : gui :=
  {| devices := d; credentials := credentials g; loop := loop g; tree := tree g;
     stats_labels := stats_labels g; search_var := search_var g;
     status_var := status_var g; stdout := stdout g; dialogs := dialogs g;
     calls := calls g |}.

Definition set_loop (g : gui) (l : option event_loop) : gui :=
  {| devices := devices g; credentials := credentials g; loop := l; tree := tree g;
     stats_labels := stats_labels g; search_var := search_var g;
     status_var := status_var g; stdout := stdout g; dialogs := dialogs g;
     calls := calls g |}.

Definition set_tree (g : gui) (t : treeview) : gui :=
  {| devices := devices g; credentials := credentials g; loop := loop g; tree := Some t;
     stats_labels := stats_labels g; search_var := search_var g;
     status_var := status_var g; stdout := stdout g; dialogs := dialogs g;
     calls := calls g |}.

Definition set_stats (g : gui) (s : stats_texts) : gui :=
  {| devices := devices g; credentials := credentials g; loop := loop g; tree := tree g;
     stats_labels := Some s; search_var := search_var g;
     status_var := status_var g; stdout := stdout g; dialogs := dialogs g;
     calls := calls g |}.

Definition set_search (g : gui) (s : string) : gui :=
  {| devices := devices g; credentials := credentials g; loop := loop g; tree := tree g;
     stats_labels := stats_labels g; search_var := s;
     status_var := status_var g; stdout := stdout g; dialogs := dialogs g;
     calls := calls g |}.

Definition set_status (g : gui) (s : string) : gui :=
  {| devices := devices g; credentials := credentials g; loop := loop g; tree := tree g;
     stats_labels := stats_labels g; search_var := search_var g;
     status_var := s; stdout := stdout g; dialogs := dialogs g;
     calls := calls g |}.

Definition print (g : gui) (lines : list string) : gui :=
  {| devices := devices g; credentials := credentials g; loop := loop g; tree := tree g;
     stats_labels := stats_labels g; search_var := search_var g;
     status_var := status_var g; stdout := (stdout g ++ lines)%list; dialogs := dialogs g;
     calls := calls g |}.

Definition showerror (g : gui) (title text : string) : gui :=
  {| devices := devices g; credentials := credentials g; loop := loop g; tree := tree g;
     stats_labels := stats_labels g; search_var := search_var g;
     status_var := status_var g; stdout := stdout g;
     dialogs := (dialogs g ++ [(title, text)])%list;
     calls := calls g |}.

Definition issue (g : gui) (cs : list lib_call) : gui :=
  {| devices := devices g; credentials := credentials g; loop := loop g; tree := tree g;
     stats_labels := stats_labels g; search_var := search_var g;
     status_var := status_var g; stdout := stdout g; dialogs := dialogs g;
     calls := (calls g ++ cs)%list |}.

(** ** Statistics *)

Record counters := { total : nat; online : nat; offline : nat; active : nat }.

(** The availability read by [update_statistics]: [is_available] when
    the device has it, else [available] when it has that, else
    [True]. *)
Definition read_available (d : device) : result pyval :=
  b <- hasattr (is_available d) ;;
  if b : bool then get "is_available" (is_available d)
  else
    b' <- hasattr (available d) ;;
    if b' : bool then get "available" (available d)
    else Ok (PyBool true).

(** [hasattr(device, 'is_on') and device.is_on] *)
Definition read_active (d : device) : result bool :=
  b <- hasattr (is_on d) ;;
  if b : bool then v <- get "is_on" (is_on d) ;; Ok (truth v)
  else Ok false.

Definition status_error (e : exn) : string :=
  "Error checking device status: " ++ emsg e.

(** One iteration of the loop over [self.devices.values()]; the second
    component collects the lines printed. *)
Definition count_device (st : counters * list string) (d : device)
  : counters * list string :=
  let (c, out) := st in
  match read_available d with
  | Raise e =>
      ({| total := total c; online := online c; offline := S (offline c);
          active := active c |}, (out ++ [status_error e])%list)
  | Ok is_available =>
      let c1 :=
        if truth is_available
        then {| total := total c; online := S (online c); offline := offline c;
                active := active c |}
        else {| total := total c; online := online c; offline := S (offline c);
                active := active c |} in
      match read_active d with
      | Raise e =>
          ({| total := total c1; online := online c1; offline := S (offline c1);
              active := active c1 |}, (out ++ [status_error e])%list)
      | Ok true =>
          ({| total := total c1; online := online c1; offline := offline c1;
              active := S (active c1) |}, out)
      | Ok false => (c1, out)
      end
  end.

(** The counters [update_statistics] computes. *)
Definition count_statistics (devices : list (string * device)) : counters * list string :=
  let total := List.length devices in
  let (c, out) :=
    fold_left count_device (Dict.vals devices)
      ({| total := total; online := 0; offline := 0; active := 0 |}, []) in
  if ((online c =? 0) && (offline c =? 0) && (0 <? total))%nat
  then ({| total := total; online := total; offline := offline c; active := active c |}, out)
  else (c, out).

Definition update_statistics (g : gui) : gui :=
  match stats_labels g with
  | None => g
  | Some _ =>
      let (c, out) := count_statistics (devices g) in
      set_stats (print g out)
        {| total_text := PyStr.of_nat (total c);
           online_text := PyStr.of_nat (online c);
           offline_text := PyStr.of_nat (offline c);
           active_text := PyStr.of_nat (active c) |}
  end.

(** ** Rendering the device list *)

Definition icon_plug : string := "🔌".
Definition icon_bulb : string := "💡".
Definition icon_switch : string := "⚡".
Definition icon_strip : string := "🔗".
Definition icon_device : string := "📱".
Definition status_on : string := "🟢 ON".
Definition status_off : string := "⚫ OFF".
Definition status_unknown : string := "⚪ Unknown".

Definition get_device_icon (d : device) : result string :=
  b <- hasattr (device_type d) ;;
  if b : bool then
    v <- get "device_type" (device_type d) ;;
    let device_type := PyStr.lower (py_str v) in
    if PyStr.contains "plug" device_type then Ok icon_plug
    else if PyStr.contains "bulb" device_type || PyStr.contains "light" device_type
    then Ok icon_bulb
    else if PyStr.contains "switch" device_type then Ok icon_switch
    else if PyStr.contains "strip" device_type then Ok icon_strip
    else Ok icon_device
  else Ok icon_device.

Definition get_status_display (d : device) : string :=
  match get "is_on" (is_on d) with
  | Ok v => if truth v then status_on else status_off
  | Raise _ => status_unknown
  end.

(** The colour tag chosen by the inner [try] of [update_device_list]. *)
Definition row_tag (d : device) : string :=
  match get "is_on" (is_on d) with
  | Ok v => if truth v then "online" else "offline"
  | Raise _ => "unknown"
  end.

(** The row built in the [try] block, up to the [insert]. *)
Definition row_values (ip : string) (d : device) : result item :=
  name <- getattr (alias d) (PyStr ("Device at " ++ ip)) ;;
  let status := get_status_display d in
  device_icon <- get_device_icon d ;;
  let tag := row_tag d in
  Ok {| iid := ip;
        values := [device_icon ++ " " ++ py_str name; status; "Toggle"];
        tags := [tag] |}.

(** The row inserted by the [except] block. *)
Definition fallback_row (ip : string) : item :=
  {| iid := ip;
     values := [icon_device ++ " Device " ++ ip; status_unknown; "Toggle"];
     tags := ["unknown"] |}.

(** The row the loop body means to show for a device. *)
Definition row_for (entry : string * device) : item :=
  match row_values (fst entry) (snd entry) with
  | Ok it => it
  | Raise _ => fallback_row (fst entry)
  end.

Definition add_error (ip : string) (e : exn) : string :=
  "Error adding device " ++ ip ++ ": " ++ emsg e.

(** The body of the loop over [self.devices.items()]. *)
Definition add_row (st : treeview * list string) (entry : string * device)
  : outcome (treeview * list string) :=
  let (t, out) := st in
  let (ip, d) := entry in
  match (it <- row_values ip d ;; tree_insert_end t it) with
  | Ok t' => Normal (t', out)
  | Raise e =>
      let out' := (out ++ [add_error ip e])%list in
      match tree_insert_end t (fallback_row ip) with
      | Ok t' => Normal (t', out')
      | Raise e' => Raised e' (t, out')
      end
  end.

(** The body of the loop that clears the list. *)
Definition delete_row (t : treeview) (i : string) : outcome treeview :=
  match tree_delete t i with
  | Ok t' => Normal t'
  | Raise e => Raised e t
  end.

Definition update_device_list (g : gui) : outcome gui :=
  match tree g with
  | None => Raised (AttributeError "tree") g
  | Some t =>
      match for_each delete_row (get_children t) t with
      | Raised e t1 => Raised e (set_tree g t1)
      | Normal t1 =>
          match for_each add_row (devices g) (t1, []) with
          | Raised e (t2, out) => Raised e (print (set_tree g t2) out)
          | Normal (t2, out) => Normal (update_statistics (print (set_tree g t2) out))
          end
      end
  end.

(** ** The search filter *)

Definition search_placeholder : string := "search devices...".

(** The body of the loop over [self.tree.get_children()].  The values
    the widget returns are the strings that were inserted: every row
    of the program starts with an icon, so none of them reads as a
    number that [tkinter] would hand back converted. *)
Definition filter_row (search_term : string) (t : treeview) (i : string)
  : outcome treeview :=
  match item_values t i with
  | Raise e => Raised e t
  | Ok values =>
      match values with
      | [] => Normal t
      | _ =>
          let device_text := PyStr.join " " (map PyStr.lower values) in
          match (if PyStr.contains search_term device_text
                 then tree_reattach_end t i else tree_detach t i) with
          | Ok t' => Normal t'
          | Raise e => Raised e t
          end
      end
  end.

Definition search_term_of (text : string) : string :=
  let search_term := PyStr.lower text in
  if String.eqb search_term search_placeholder then EmptyString else search_term.

Definition on_search_changed (g : gui) : outcome gui :=
  match tree g with
  | None => Normal g
  | Some t =>
      match for_each (filter_row (search_term_of (search_var g))) (get_children t) t with
      | Normal t' => Normal (set_tree g t')
      | Raised e t' => Raised e (set_tree g t')
      end
  end.

(** Typing [text] in the search box: the variable is written and its
    trace calls [on_search_changed]. *)
Definition type_search (text : string) (g : gui) : outcome gui :=
  on_search_changed (set_search g text).

(** ** The async bridge *)

Definition run_async (coro : coroutine) (g : gui) : gui :=
  match loop g with
  | Some l =>
      if negb (closed l) then
        set_loop g (Some {| closed := closed l; stop_requested := stop_requested l;
                            ready := (ready l ++ [coro])%list |})
      else print g ["Event loop not available"]
  | None => print g ["Event loop not available"]
  end.

Definition cleanup (g : gui) : gui :=
  match loop g with
  | Some l =>
      if negb (closed l) then
        set_loop g (Some {| closed := closed l; stop_requested := true; ready := ready l |})
      else g
  | None => g
  end.

(** ** The device library

    The [kasa] library and the network behind it are a parameter: each
    awaited call either returns or raises (a timeout of [wait_for]
    included).  A call on a device handle returns the handle as the
    call leaves it; a call that raises leaves the handle as it was. *)

Inductive call (A : Type) : Type :=
| Returned (a : A)
| Failed (e : exn).
Arguments Returned {A} a.
Arguments Failed {A} e.

Record kasa := {
  discover : option (string * string) -> call (list (string * device));
  discover_single : string -> option (string * string) -> call (option device);
  update : string -> device -> call device;
  turn : bool -> string -> device -> call device
}.

(** The handle after an awaited call on it. *)
Definition settle (c : call device) (d : device) : device :=
  match c with
  | Returned d' => d'
  | Failed _ => d
  end.

Definition nl : string := String PyStr.LF EmptyString.

Definition describe (e : exn) : string := ename e ++ " - " ++ emsg e.

(** [username and password] of the credentials, as the keyword
    arguments of the discovery calls. *)
Definition auth_of (c : credential_pair) : option (string * string) :=
  if PyStr.truthy (username c) && PyStr.truthy (password c)
  then Some (username c, password c) else None.

(** *** Manual add *)

Definition add_failed (ip : string) (e : exn) (g : gui) : gui :=
  let error_msg := "Failed to add device at " ++ ip ++ ": " ++ describe e in
  showerror (print (set_status g error_msg) [error_msg])
    "Add Device Error" ("Failed to add device at " ++ ip ++ ":" ++ nl ++ emsg e).

Definition _manual_add_device (k : kasa) (ip : string) (g : gui) : gui :=
  let g := set_status g ("Connecting to device at " ++ ip ++ "...") in
  let auth := auth_of (credentials g) in
  let g := issue g [CallDiscoverSingle ip auth 10] in
  match discover_single k ip auth with
  | Failed e => add_failed ip e g
  | Returned None => set_status g ("No device found at " ++ ip)
  | Returned (Some device) =>
      let g := issue g [CallUpdate ip 10] in
      match update k ip device with
      | Failed e => add_failed ip e g
      | Returned device =>
          let g := set_devices g (Dict.set ip device (devices g)) in
          match update_device_list g with
          | Raised e g => add_failed ip e g
          | Normal g =>
              match getattr (alias device) (PyStr ip) with
              | Ok name => set_status g ("Successfully added device: " ++ py_str name)
              | Raise e => add_failed ip e g
              end
          end
      end
  end.

(** *** Discovery

    [self.root.update()] only lets the toolkit process pending events
    and is not modelled. *)

Definition discovery_failed (e : exn) (g : gui) : gui :=
  showerror
    (print (set_status g ("Discovery failed: " ++ emsg e))
       ["Discovery error: " ++ describe e])
    "Discovery Error" ("Failed to discover devices:" ++ nl ++ emsg e).

Definition connected_message (ip : string) (name : pyval) : string :=
  "Successfully connected to device at " ++ ip ++ ": " ++ py_str name.

Definition skipping_message (ip : string) (e : exn) : string :=
  "Skipping problematic device at " ++ ip ++ ": " ++ describe e.

(** The body of the loop over the discovered devices: the working
    devices so far and the lines printed. *)
Definition probe (k : kasa) (st : list (string * device) * list string)
  (entry : string * device) : list (string * device) * list string :=
  let (working_devices, out) := st in
  let (ip, device) := entry in
  match update k ip device with
  | Returned device =>
      let working_devices := Dict.set ip device working_devices in
      match getattr (alias device) (PyStr "Unknown") with
      | Ok name => (working_devices, (out ++ [connected_message ip name])%list)
      | Raise e => (working_devices, (out ++ [skipping_message ip e])%list)
      end
  | Failed e => (working_devices, (out ++ [skipping_message ip e])%list)
  end.

Definition found_message (n : nat) : string :=
  "Found " ++ PyStr.of_nat n ++ " working device(s)".

Definition _discover_devices (k : kasa) (g : gui) : gui :=
  let g := set_status g "Discovering devices..." in
  let auth := auth_of (credentials g) in
  let g := issue g [CallDiscover auth 10 5] in
  match discover k auth with
  | Failed e => discovery_failed e g
  | Returned devices =>
      let (working_devices, out) := fold_left (probe k) devices ([], []) in
      let g := issue g (map (fun entry => CallUpdate (fst entry) 15) devices) in
      let g := set_devices (print g out) working_devices in
      match update_device_list g with
      | Raised e g => discovery_failed e g
      | Normal g =>
          match working_devices with
          | _ :: _ => set_status g (found_message (List.length working_devices))
          | [] =>
              set_status g
                "No working devices found. Check network connection or try setting credentials."
          end
      end
  end.

(** *** Batch control *)

Definition control_failed (e : exn) (g : gui) : gui :=
  let error_msg := "Failed to control all devices: " ++ describe e in
  showerror (print (set_status g error_msg) [error_msg])
    "Control Error" ("Failed to control all devices:" ++ nl ++ emsg e).

Definition control_error (ip : string) (e : exn) : string :=
  "Failed to control device " ++ ip ++ ": " ++ describe e.

(** The body of the loop awaiting the control tasks: the counters
    [successful] and [failed] and the lines printed. *)
Definition tally (st : nat * nat * list string) (task : string * call device)
  : nat * nat * list string :=
  let '(successful, failed, out) := st in
  let (ip, c) := task in
  match c with
  | Returned _ => (S successful, failed, out)
  | Failed e => (successful, S failed, (out ++ [control_error ip e])%list)
  end.

Definition action_of (turn_on : bool) : string := if turn_on then "on" else "off".

Definition all_message (successful : nat) (action : string) : string :=
  "All " ++ PyStr.of_nat successful ++ " devices turned " ++ action.

Definition some_message (successful failed : nat) (action : string) : string :=
  PyStr.of_nat successful ++ " devices turned " ++ action ++ ", " ++
  PyStr.of_nat failed ++ " failed".

Definition _turn_all_devices (k : kasa) (turn_on : bool) (g : gui) : gui :=
  let action := action_of turn_on in
  let g := set_status g ("Turning all devices " ++ action ++ "...") in
  (* one control task per device *)
  let tasks := map (fun entry => (fst entry, turn k turn_on (fst entry) (snd entry)))
                   (devices g) in
  let g := issue g (map (fun entry => CallTurn turn_on (fst entry) 10) (devices g)) in
  let '(successful, failed, out) := fold_left tally tasks (0, 0, []) in
  let g := set_devices (print g out)
             (map (fun entry => (fst entry,
                                 settle (turn k turn_on (fst entry) (snd entry)) (snd entry)))
                  (devices g)) in
  (* pause, then one update task per device, exceptions dropped *)
  let g := issue g [Sleep 1000] in
  let g := issue g (map (fun entry => CallUpdate (fst entry) 10) (devices g)) in
  let g := set_devices g
             (map (fun entry => (fst entry,
                                 settle (update k (fst entry) (snd entry)) (snd entry)))
                  (devices g)) in
  match update_device_list g with
  | Raised e g => control_failed e g
  | Normal g =>
      if (failed =? 0)%nat then set_status g (all_message successful action)
      else set_status g (some_message successful failed action)
  end.

(** ** Start-up *)

Definition ready_message : string := "Ready - Click 'Discover' to find your devices".

(** The state [__init__] leaves: no device, the credentials read from
    [.env], a running worker loop, an empty list, the four counters at
    zero, the placeholder in the search box. *)
Definition init (f : env_file) : gui :=
  {| devices := [];
     credentials := fst (_load_credentials_from_env f);
     loop := Some {| closed := false; stop_requested := false; ready := [] |};
     tree := Some empty_tree;
     stats_labels := Some {| total_text := "0"; online_text := "0";
                             offline_text := "0"; active_text := "0" |};
     search_var := "Search devices...";
     status_var := ready_message;
     stdout := [snd (_load_credentials_from_env f)];
     dialogs := [];
     calls := [] |}.

(** ** Vocabulary of the statements *)

(** A line made of white space only. *)
Fixpoint blank (s : string) : bool :=
  match s with
  | EmptyString => true
  | String c r => PyStr.is_space c && blank r
  end.

Definition first_is (p : ascii -> bool) (s : string) : bool :=
  match s with
  | EmptyString => false
  | String c _ => p c
  end.

Fixpoint last_is (p : ascii -> bool) (s : string) : bool :=
  match s with
  | EmptyString => false
  | String c EmptyString => p c
  | String _ r => last_is p r
  end.

Definition is_quote (c : ascii) : bool := Ascii.eqb DQUOTE c || Ascii.eqb "'" c.

(** Neither end of the text is a quote character or white space. *)
Definition plain_ends (s : string) : Prop :=
  first_is is_quote s = false /\ last_is is_quote s = false /\
  first_is PyStr.is_space s = false /\ last_is PyStr.is_space s = false.

(** Neither end of the text is a quote character. *)
Definition unquoted_ends (s : string) : Prop :=
  first_is is_quote s = false /\ last_is is_quote s = false.

(** [value.strip().strip(DQUOTE).strip("'")] *)
Definition unquote (value : string) : string :=
  PyStr.strip_char "'" (PyStr.strip_char DQUOTE (PyStr.strip value)).

Definition no_credentials : credential_pair :=
  {| username := EmptyString; password := EmptyString |}.

Definition dquoted (s : string) : string := String DQUOTE (s ++ String DQUOTE EmptyString).
Definition squoted (s : string) : string := String "'" (s ++ String "'" EmptyString).

(** The reachability attribute of a device: [is_available] when the
    device has it, [available] otherwise. *)
Definition reachability (d : device) : attr pyval :=
  match is_available d with
  | Missing => available d
  | a => a
  end.

(** The on flag is unknown: the attribute is absent, holds [None], or
    raises when it is read. *)
Definition unknown_flag (a : attr pyval) : Prop :=
  a = Missing \/ a = Has PyNone \/ exists e, a = Fails e.

(** What one device adds to each counter. *)
Definition online_inc (d : device) : nat :=
  match reachability d with
  | Missing => 1
  | Has v => if truth v then 1 else 0
  | Fails _ => 0
  end.

Definition flag_raises (d : device) : nat :=
  match is_on d with
  | Fails _ => 1
  | _ => 0
  end.

Definition offline_inc (d : device) : nat :=
  match reachability d with
  | Missing => flag_raises d
  | Has v => (if truth v then 0 else 1) + flag_raises d
  | Fails _ => 1
  end.

Definition active_inc (d : device) : nat :=
  match reachability d, is_on d with
  | Fails _, _ => 0
  | _, Has v => if truth v then 1 else 0
  | _, _ => 0
  end.

Definition sum_over (f : device -> nat) (ds : list (string * device)) : nat :=
  fold_right (fun entry n => f (snd entry) + n) 0 ds.

(** The device counts as reachable: its reachability attribute is
    true, or it carries none. *)
Definition reads_reachable (entry : string * device) : bool :=
  match reachability (snd entry) with
  | Missing => true
  | Has v => truth v
  | Fails _ => false
  end.

(** The reachability attribute of the device is false. *)
Definition reads_unreachable (entry : string * device) : bool :=
  match reachability (snd entry) with
  | Has v => negb (truth v)
  | _ => false
  end.

(** The device carries no reachability signal. *)
Definition no_signal (d : device) : Prop :=
  is_available d = Missing /\ available d = Missing.

(** A sample device handle with the given on flag and reachability. *)
Definition sample (name : string) (on reach : attr pyval) : device :=
  {| alias := Has (PyStr name); is_on := on; is_available := reach;
     available := Missing; device_type := Has (PyStr "DeviceType.Plug") |}.

Definition boom : exn := {| ename := "KasaException"; emsg := "connection lost" |}.

Definition devA : device := sample "A" (Has (PyBool true)) (Has (PyBool true)).
Definition devB : device := sample "B" (Has (PyBool false)) (Has (PyBool false)).
Definition devC : device := sample "C" Missing Missing.
Definition devX : device := sample "X" (Fails boom) (Has (PyBool true)).

Definition three_devices : list (string * device) :=
  [("10.0.0.1", devA); ("10.0.0.2", devB); ("10.0.0.3", devC)].

(** The loop handle is null or the loop is closed. *)
Definition loop_unavailable (g : gui) : Prop :=
  match loop g with
  | None => True
  | Some l => closed l = true
  end.

(** The coroutines handed to the worker loop. *)
Definition scheduled (g : gui) : list coroutine :=
  match loop g with
  | None => []
  | Some l => ready l
  end.

(** The library calls of a manual add both return: the device is
    found and its first update succeeds, leaving the handle [d']. *)
Definition add_succeeds (k : kasa) (ip : string) (g : gui) (d' : device) : Prop :=
  exists d, discover_single k ip (auth_of (credentials g)) = Returned (Some d) /\
            update k ip d = Returned d'.

(** The manual add fails: no device is found, or a library call
    raises. *)
Definition add_fails (k : kasa) (ip : string) (g : gui) : Prop :=
  match discover_single k ip (auth_of (credentials g)) with
  | Failed _ => True
  | Returned None => True
  | Returned (Some d) =>
      match update k ip d with
      | Failed _ => True
      | Returned _ => False
      end
  end.

(** A library that finds [d] at every address and whose calls all
    return, leaving the handle as it is. *)
Definition steady (d : device) : kasa :=
  {| discover := fun _ => Returned [];
     discover_single := fun _ _ => Returned (Some d);
     update := fun _ d => Returned d;
     turn := fun _ _ d => Returned d |}.

Definition timeout_error : exn := {| ename := "TimeoutError"; emsg := EmptyString |}.

(** The devices of a discovery pass that pass their first update, as
    the update leaves them, in the order of the pass. *)
Definition working_of (k : kasa) (found : list (string * device)) : list (string * device) :=
  flat_map (fun entry =>
              match update k (fst entry) (snd entry) with
              | Returned d' => [(fst entry, d')]
              | Failed _ => []
              end) found.

(** The outcome of the control call of each device of a batch. *)
Definition returns {A} (c : call A) : bool :=
  match c with
  | Returned _ => true
  | Failed _ => false
  end.

Definition control_ok (k : kasa) (turn_on : bool) (entry : string * device) : bool :=
  returns (turn k turn_on (fst entry) (snd entry)).

Definition control_ko (k : kasa) (turn_on : bool) (entry : string * device) : bool :=
  negb (control_ok k turn_on entry).

(** The number of control calls of a batch that return, and that
    raise. *)
Definition successes (k : kasa) (turn_on : bool) (ds : list (string * device)) : nat :=
  List.length (filter (control_ok k turn_on) ds).

Definition failures (k : kasa) (turn_on : bool) (ds : list (string * device)) : nat :=
  List.length (filter (control_ko k turn_on) ds).

(** The handles after the control round and after the refresh round. *)
Definition after_control (k : kasa) (turn_on : bool) (ds : list (string * device))
  : list (string * device) :=
  map (fun entry => (fst entry, settle (turn k turn_on (fst entry) (snd entry)) (snd entry))) ds.

Definition after_refresh (k : kasa) (ds : list (string * device)) : list (string * device) :=
  map (fun entry => (fst entry, settle (update k (fst entry) (snd entry)) (snd entry))) ds.

(** No device of the mapping has its row hidden by the search
    filter. *)
Definition no_device_hidden (g : gui) (t : treeview) : Prop :=
  forall i, In i (Dict.keys (devices g)) -> ~ In i (map iid (detached t)).

(** The handle with its on flag set. *)
Definition switched (on : bool) (d : device) : device :=
  {| alias := alias d; is_on := Has (PyBool on); is_available := is_available d;
     available := available d; device_type := device_type d |}.

(** A library that discovers the three sample devices, finds [devC]
    at any address, and controls every device but the one at
    [10.0.0.1], whose control call times out. *)
Definition lab : kasa :=
  {| discover := fun _ => Returned three_devices;
     discover_single := fun _ _ => Returned (Some devC);
     update := fun _ d => Returned d;
     turn := fun on ip d =>
       if String.eqb ip "10.0.0.1" then Failed timeout_error
       else Returned (switched on d) |}.

(** The state after start-up and one discovery pass. *)
Definition discovered : gui := _discover_devices lab (init NoFile).

(** The state in which [_turn_all_devices] redraws the list. *)
Definition before_redraw (k : kasa) (turn_on : bool) (g : gui) (out : list string) : gui :=
  set_devices
    (issue
       (issue
          (print
             (issue (set_status g ("Turning all devices " ++ action_of turn_on ++ "..."))
                (map (fun entry => CallTurn turn_on (fst entry) 10) (devices g)))
             out)
          [Sleep 1000])
       (map (fun entry => CallUpdate (fst entry) 10) (devices g)))
    (after_refresh k (after_control k turn_on (devices g))).

(** The second column of a row: the state label. *)
Definition state_label (it : item) : string := nth 1 (values it) EmptyString.

(** The two errors the Treeview raises. *)
Definition widget_error (e : exn) : Prop :=
  exists i, e = not_found i \/ e = TclError ("Item " ++ i ++ " already exists").

(** A device whose name cannot be read. *)
Definition devY : device :=
  {| alias := Fails boom; is_on := Has (PyBool true); is_available := Missing;
     available := Missing; device_type := Has (PyStr "DeviceType.Bulb") |}.

(** The state after discovery, with two more devices in the mapping
    whose attributes raise. *)
Definition with_broken : gui :=
  set_devices discovered
    (three_devices ++ [("10.0.0.9", devX); ("10.0.0.8", devY)])%list.

(** The text of a row that the filter searches. *)
Definition row_text (it : item) : string :=
  PyStr.join " " (map PyStr.lower (values it)).

(** The query matches no displayed row. *)
Definition matches_no_row (query : string) (t : treeview) : Prop :=
  forall it, In it (children t) ->
             values it <> [] /\ PyStr.contains (search_term_of query) (row_text it) = false.

Definition is_normal {S} (o : outcome S) : bool :=
  match o with
  | Normal _ => true
  | Raised _ _ => false
  end.

(** The identifiers displayed and the identifiers hidden. *)
Definition shown (g : gui) : list string :=
  match tree g with
  | Some t => get_children t
  | None => []
  end.

Definition hidden (g : gui) : list string :=
  match tree g with
  | Some t => map iid (detached t)
  | None => []
  end.

(** Two widgets hold the same identifiers, displayed and detached. *)
Definition same_ids (t t' : treeview) : Prop :=
  map iid (children t) = map iid (children t') /\
  map iid (detached t) = map iid (detached t').

(** The widget of a state, when there is one, has unique
    identifiers. *)
Definition widget_ok (g : gui) : Prop :=
  match tree g with
  | Some t => tree_ok t
  | None => True
  end.

(** ** Further operations of the program *)

(** *** Toggling one device *)

(** [self.devices[ip]] on a missing key raises [KeyError(ip)], whose
    text is [repr(ip)]. *)
Definition KeyError (key : string) : exn :=
  {| ename := "KeyError"; emsg := PyStr.repr key |}.

Definition toggle_failed (e : exn) (g : gui) : gui :=
  let error_msg := "Failed to toggle device: " ++ describe e in
  showerror (print (set_status g error_msg) [error_msg])
    "Toggle Error" ("Failed to toggle device:" ++ nl ++ emsg e).

(** The handle stored under [ip] is the object the coroutine works
    on: what a call does to the object shows in the mapping. *)
Definition store (ip : string) (d : device) (g : gui) : gui :=
  set_devices g (Dict.set ip d (devices g)).

Definition toggled_text (turn_on : bool) : string :=
  if turn_on then "Turned ON" else "Turned OFF".

Definition _toggle_device (k : kasa) (ip : string) (g : gui) : gui :=
  match Dict.lookup ip (devices g) with
  | None => toggle_failed (KeyError ip) g
  | Some device =>
      let g := issue g [CallUpdate ip 15] in
      match update k ip device with
      | Failed e => set_status g ("Device " ++ ip ++ " communication error: " ++ ename e)
      | Returned device =>
          let g := store ip device g in
          match get "is_on" (is_on device) with
          | Raise e => set_status g ("Failed to toggle device: " ++ ename e)
          | Ok on =>
              let turn_on := negb (truth on) in
              let g := issue g [CallTurn turn_on ip 15] in
              match turn k turn_on ip device with
              | Failed e => set_status g ("Failed to toggle device: " ++ ename e)
              | Returned device =>
                  let g := store ip device g in
                  match getattr (alias device) (PyStr ip) with
                  | Raise e => toggle_failed e g
                  | Ok name =>
                      let g := set_status g
                                 ("Device " ++ py_str name ++ " " ++ toggled_text turn_on) in
                      let g := issue g [Sleep 500; CallUpdate ip 15] in
                      let g := store ip (settle (update k ip device) device) g in
                      match update_device_list g with
                      | Raised e g => toggle_failed e g
                      | Normal g => g
                      end
                  end
              end
          end
      end
  end.

(** [on_device_double_click], for the selection of the list at the
    time of the click. *)
Definition on_device_double_click (selection : list string) (g : gui) : gui :=
  match selection with
  | [] => g
  | ip :: _ => if Dict.mem ip (devices g) then run_async (CoToggle ip) g else g
  end.

(** *** Refreshing all devices *)

Definition refresh_failed (e : exn) (g : gui) : gui :=
  let error_msg := "Failed to refresh status: " ++ describe e in
  print (set_status g error_msg) [error_msg].

Definition update_error (ip : string) (e : exn) : string :=
  "Failed to update device " ++ ip ++ ": " ++ describe e.

(** The body of the loop awaiting the update tasks. *)
Definition tally_update (st : nat * nat * list string) (task : string * call device)
  : nat * nat * list string :=
  let '(successful, failed, out) := st in
  let (ip, c) := task in
  match c with
  | Returned _ => (S successful, failed, out)
  | Failed e => (successful, S failed, (out ++ [update_error ip e])%list)
  end.

Definition refreshed_all (successful : nat) : string :=
  "Status refreshed for all " ++ PyStr.of_nat successful ++ " devices".

Definition refreshed_some (successful failed : nat) : string :=
  "Status refreshed for " ++ PyStr.of_nat successful ++ " devices, " ++
  PyStr.of_nat failed ++ " failed".

Definition _refresh_status (k : kasa) (g : gui) : gui :=
  let g := set_status g "Refreshing device status..." in
  let update_tasks := map (fun entry => (fst entry, update k (fst entry) (snd entry)))
                          (devices g) in
  let g := issue g (map (fun entry => CallUpdate (fst entry) 10) (devices g)) in
  let '(successful, failed, out) := fold_left tally_update update_tasks (0, 0, []) in
  let g := set_devices (print g out)
             (map (fun entry => (fst entry,
                                 settle (update k (fst entry) (snd entry)) (snd entry)))
                  (devices g)) in
  match update_device_list g with
  | Raised e g => refresh_failed e g
  | Normal g =>
      if (failed =? 0)%nat then set_status g (refreshed_all successful)
      else set_status g (refreshed_some successful failed)
  end.

(** *** The buttons *)

Definition showwarning (g : gui) (title text : string) : gui := showerror g title text.

Definition no_devices_warning (g : gui) : gui :=
  showwarning g "No Devices" "No devices found. Please discover devices first.".

Definition turn_all_on (g : gui) : gui :=
  match devices g with
  | [] => no_devices_warning g
  | _ => run_async (CoTurnAll true) g
  end.

Definition turn_all_off (g : gui) : gui :=
  match devices g with
  | [] => no_devices_warning g
  | _ => run_async (CoTurnAll false) g
  end.

Definition refresh_status (g : gui) : gui :=
  match devices g with
  | [] => no_devices_warning g
  | _ => run_async CoRefresh g
  end.

Definition discover_devices (g : gui) : gui := run_async CoDiscover g.

(** [manual_add_device], for the answer of the dialog: [None] when it
    is cancelled. *)
Definition manual_add_device (answer : option string) (g : gui) : gui :=
  match answer with
  | Some ip => if PyStr.truthy ip then run_async (CoManualAdd ip) g else g
  | None => g
  end.

(** The function a coroutine object runs. *)
Definition run_coroutine (k : kasa) (c : coroutine) (g : gui) : gui :=
  match c with
  | CoManualAdd ip => _manual_add_device k ip g
  | CoDiscover => _discover_devices k g
  | CoToggle ip => _toggle_device k ip g
  | CoTurnAll turn_on => _turn_all_devices k turn_on g
  | CoRefresh => _refresh_status k g
  end.

(** *** Vocabulary of the further statements *)

(** The assignment a [KEY=VALUE] line makes, for the key and the value
    it holds. *)
Definition assign (key value : string) (c : credential_pair) : credential_pair :=
  if String.eqb key "KASA_USERNAME" then
    {| username := value; password := password c |}
  else if String.eqb key "KASA_PASSWORD" then
    {| username := username c; password := value |}
  else c.

(** The text holds no line break. *)
Fixpoint no_newline (s : string) : bool :=
  match s with
  | EmptyString => true
  | String c r => negb (Ascii.eqb c PyStr.LF) && negb (Ascii.eqb c PyStr.CR) && no_newline r
  end.

(** The lines, each followed by the line end [eol]. *)
Definition unlines (eol : string) (ls : list string) : string :=
  fold_right (fun l r => l ++ eol ++ r) EmptyString ls.

Definition eol_unix : string := String PyStr.LF EmptyString.
Definition eol_dos : string := String PyStr.CR (String PyStr.LF EmptyString).
Definition eol_mac : string := String PyStr.CR EmptyString.

(** A line end of one of the three conventions. *)
Definition line_end (eol : string) : Prop :=
  eol = eol_unix \/ eol = eol_dos \/ eol = eol_mac.

(** Neither end of the text is a single quote. *)
Definition no_apostrophe_ends (s : string) : Prop :=
  first_is (Ascii.eqb "'") s = false /\ last_is (Ascii.eqb "'") s = false.

(** The row matches the search term. *)
Definition row_matches (term : string) (it : item) : bool :=
  PyStr.contains term (row_text it).

Definition row_misses (term : string) (it : item) : bool :=
  negb (row_matches term it).

(** Unique identifiers, and every row has column values, as the rows
    the program inserts have. *)
Definition rows_ok (t : treeview) : Prop :=
  tree_ok t /\
  forall it, In it (children t ++ detached t)%list -> values it <> [].

(** Typing one query after the other in the search box. *)
Definition type_all (queries : list string) (g : gui) : gui :=
  fold_left (fun g query => final (type_search query g)) queries g.

(** The label texts for the counters. *)
Definition texts_of (c : counters) : stats_texts :=
  {| total_text := PyStr.of_nat (total c);
     online_text := PyStr.of_nat (online c);
     offline_text := PyStr.of_nat (offline c);
     active_text := PyStr.of_nat (active c) |}.

(** The labels a redraw of the mapping [ds] leaves, when there are
    labels. *)
Definition labels_for (ds : list (string * device)) (old : option stats_texts)
  : option stats_texts :=
  match old with
  | None => None
  | Some _ => Some (texts_of (fst (count_statistics ds)))
  end.

Definition already_exists (i : string) : exn :=
  TclError ("Item " ++ i ++ " already exists").

(** The state in which [_discover_devices] redraws the list. *)
Definition discovery_redraw_state (k : kasa) (g : gui) (found : list (string * device))
  (out : list string) : gui :=
  set_devices
    (print
       (issue
          (issue (set_status g "Discovering devices...")
             [CallDiscover (auth_of (credentials g)) 10 5])
          (map (fun entry => CallUpdate (fst entry) 15) found))
       out)
    (working_of k found).

Definition no_working_devices : string :=
  "No working devices found. Check network connection or try setting credentials.".

(** The update call of a device of a refresh returns. *)
Definition refresh_ok (k : kasa) (entry : string * device) : bool :=
  returns (update k (fst entry) (snd entry)).

Definition refresh_ko (k : kasa) (entry : string * device) : bool :=
  negb (refresh_ok k entry).

Definition refreshes (k : kasa) (ds : list (string * device)) : nat :=
  List.length (filter (refresh_ok k) ds).

Definition refresh_failures (k : kasa) (ds : list (string * device)) : nat :=
  List.length (filter (refresh_ko k) ds).

(** The state in which [_refresh_status] redraws the list. *)
Definition refresh_redraw_state (k : kasa) (g : gui) (out : list string) : gui :=
  set_devices
    (print
       (issue (set_status g "Refreshing device status...")
          (map (fun entry => CallUpdate (fst entry) 10) (devices g)))
       out)
    (after_refresh k (devices g)).

(** Submitting coroutines one after the other. *)
Definition submit_all (cs : list coroutine) (g : gui) : gui :=
  fold_left (fun g c => run_async c g) cs g.

(** The worker loop takes submissions. *)
Definition loop_available (g : gui) : Prop :=
  exists l, loop g = Some l /\ closed l = false.

(** The list shows exactly the devices of the mapping, in its order,
    and no row is hidden. *)
Definition in_sync (g : gui) : Prop :=
  exists t, tree g = Some t /\ detached t = [] /\
            get_children t = Dict.keys (devices g) /\
            NoDup (Dict.keys (devices g)).

(** The discovery call returns dictionaries: no address twice. *)
Definition discovers_dicts (k : kasa) : Prop :=
  forall auth found, discover k auth = Returned found -> NoDup (Dict.keys found).

(** Running coroutines to their end, one after the other. *)
Definition run_all (k : kasa) (cs : list coroutine) (g : gui) : gui :=
  fold_left (fun g c => run_coroutine k c g) cs g.

(** ** Text on which the model and Python agree *)

Definition ascii_char (c : ascii) : bool := (nat_of_ascii c <? 128)%nat.

(** Every character of the text is in the ASCII range. *)
Fixpoint ascii_text (s : string) : bool :=
  match s with
  | EmptyString => true
  | String c r => ascii_char c && ascii_text r
  end.

Definition non_ascii (c : ascii) : bool := negb (ascii_char c).

(** The text neither starts nor ends with a character outside ASCII,
    so that no Unicode white space stands at either end. *)
Definition ascii_ends (s : string) : Prop :=
  first_is non_ascii s = false /\ last_is non_ascii s = false.

(** A printable ASCII character other than the apostrophe and the
    backslash: [repr] writes it as it is. *)
Definition plain_char (c : ascii) : bool :=
  let n := nat_of_ascii c in
  ((32 <=? n) && (n <=? 126))%nat &&
  negb (Ascii.eqb c "'") && negb (Ascii.eqb c PyStr.BACKSLASH).

Fixpoint plain_key (s : string) : bool :=
  match s with
  | EmptyString => true
  | String c r => plain_char c && plain_key r
  end.

Definition icons : list string :=
  [icon_plug; icon_bulb; icon_switch; icon_strip; icon_device].

Definition status_texts : list string := [status_on; status_off; status_unknown].

(** A row as [update_device_list] writes it for a device with an ASCII
    name: an icon, a space and the name; a status text; the label of
    the toggle column.  The icons are uncased, so that [str.lower]
    leaves them as they are, and no column reads as a number. *)
Definition program_row (it : item) : Prop :=
  exists icon name status,
    In icon icons /\ ascii_text name = true /\ In status status_texts /\
    values it = [icon ++ " " ++ name; status; "Toggle"].

(** An input/output error raised by a read of the file. *)
Definition read_error : exn :=
  {| ename := "OSError"; emsg := "[Errno 5] Input/output error" |}.

(** Three devices with on flags true, false and unknown, the first of
    which raises when its reachability is read. *)
Definition reachability_raises : list (string * device) :=
  [("10.0.0.1", sample "A" (Has (PyBool true)) (Fails boom));
   ("10.0.0.2", devB); ("10.0.0.3", devC)].

(** Three devices without reachability signal with on flags true,
    false and unknown, the unknown flag raising when it is read. *)
Definition unknown_flag_raises : list (string * device) :=
  [("10.0.0.1", sample "A" (Has (PyBool true)) Missing);
   ("10.0.0.2", sample "B" (Has (PyBool false)) Missing);
   ("10.0.0.3", sample "C" (Fails boom) Missing)].

(** The state after discovery in which the filter shows the devices
    that are on or off: the row of the third device, whose state
    cannot be read, is hidden. *)
Definition unknown_hidden : gui := final (type_search " o" discovered).

(** * Properties *)

(** ** Stripping *)

Section Strip.
Variable p : ascii -> bool.

Lemma rstrip_by_cons_keep c r :
  p c = false -> PyStr.rstrip_by p (String c r) = String c (PyStr.rstrip_by p r).
Proof.
  intros Hc. simpl. rewrite Hc. destruct (PyStr.rstrip_by p r); reflexivity.
Qed.

Lemma rstrip_by_cons c r :
  PyStr.rstrip_by p (String c r) =
  match PyStr.rstrip_by p r with
  | EmptyString => if p c then EmptyString else String c EmptyString
  | r' => String c r'
  end.
Proof. reflexivity. Qed.

Lemma rstrip_by_idem s : PyStr.rstrip_by p (PyStr.rstrip_by p s) = PyStr.rstrip_by p s.
Proof.
  induction s as [|c r IH]; [reflexivity|].
  rewrite rstrip_by_cons. destruct (PyStr.rstrip_by p r) as [|c' r'] eqn:E.
  - destruct (p c) eqn:Hc; [reflexivity|]. simpl. rewrite Hc. reflexivity.
  - rewrite rstrip_by_cons, IH. reflexivity.
Qed.

Lemma lstrip_rstrip_comm s :
  PyStr.lstrip_by p (PyStr.rstrip_by p s) = PyStr.rstrip_by p (PyStr.lstrip_by p s).
Proof.
  induction s as [|c r IH]; [reflexivity|].
  destruct (p c) eqn:Hc.
  - simpl PyStr.lstrip_by at 2. rewrite Hc, <- IH.
    simpl. rewrite Hc. destruct (PyStr.rstrip_by p r) eqn:E; [reflexivity|].
    simpl. rewrite Hc. reflexivity.
  - rewrite rstrip_by_cons_keep by assumption. simpl. rewrite Hc.
    rewrite rstrip_by_cons_keep by assumption. reflexivity.
Qed.

Lemma strip_by_rstrip s : PyStr.strip_by p (PyStr.rstrip_by p s) = PyStr.strip_by p s.
Proof.
  unfold PyStr.strip_by. rewrite lstrip_rstrip_comm. apply rstrip_by_idem.
Qed.

Lemma lstrip_by_keep s : first_is p s = false -> PyStr.lstrip_by p s = s.
Proof. destruct s; simpl; [reflexivity|]. intros ->. reflexivity. Qed.

Lemma rstrip_by_keep s : last_is p s = false -> PyStr.rstrip_by p s = s.
Proof.
  induction s as [|c r IH]; [reflexivity|].
  destruct r as [|c' r'].
  - simpl. intros ->. reflexivity.
  - intros H. change (last_is p (String c' r') = false) in H.
    rewrite rstrip_by_cons, (IH H). reflexivity.
Qed.

Lemma strip_by_keep s :
  first_is p s = false -> last_is p s = false -> PyStr.strip_by p s = s.
Proof.
  intros Hf Hl. unfold PyStr.strip_by. rewrite lstrip_by_keep by assumption.
  apply rstrip_by_keep; assumption.
Qed.

Lemma rstrip_by_snoc_drop s c :
  p c = true -> PyStr.rstrip_by p (s ++ String c EmptyString) = PyStr.rstrip_by p s.
Proof.
  intros Hc. induction s as [|a r IH]; simpl.
  - rewrite Hc. reflexivity.
  - rewrite IH. reflexivity.
Qed.

(** A text wrapped in one stripped character on each side. *)
Lemma strip_by_wrapped q s :
  p q = true -> first_is p s = false -> last_is p s = false ->
  PyStr.strip_by p (String q (s ++ String q EmptyString)) = s.
Proof.
  intros Hq Hf Hl. unfold PyStr.strip_by. simpl. rewrite Hq.
  destruct s as [|c r].
  - simpl. rewrite Hq. reflexivity.
  - simpl in Hf. simpl. rewrite Hf.
    change (PyStr.rstrip_by p (String c r ++ String q EmptyString) = String c r).
    rewrite rstrip_by_snoc_drop by assumption. apply rstrip_by_keep; assumption.
Qed.

End Strip.

Lemma lstrip_blank s : blank s = true -> PyStr.lstrip_by PyStr.is_space s = EmptyString.
Proof.
  induction s as [|c r IH]; simpl; [reflexivity|].
  intros H. apply andb_prop in H as [Hc Hr]. rewrite Hc. auto.
Qed.

Lemma strip_blank s : blank s = true -> PyStr.strip s = EmptyString.
Proof.
  intros H. unfold PyStr.strip, PyStr.strip_by. rewrite lstrip_blank by assumption.
  reflexivity.
Qed.

(** ** The credential loader *)

Lemma strip_cons_keep c r :
  PyStr.is_space c = false ->
  PyStr.strip (String c r) = String c (PyStr.rstrip_by PyStr.is_space r).
Proof.
  intros Hc. unfold PyStr.strip, PyStr.strip_by. cbn [PyStr.lstrip_by]. rewrite Hc.
  apply rstrip_by_cons_keep; assumption.
Qed.

Ltac keep_prefix :=
  repeat (rewrite rstrip_by_cons_keep by reflexivity).

Lemma strip_after_rstrip w :
  PyStr.strip (PyStr.rstrip_by PyStr.is_space w) = PyStr.strip w.
Proof. apply strip_by_rstrip. Qed.

Lemma load_line_username c w :
  load_line c ("KASA_USERNAME=" ++ w) =
  {| username := unquote w; password := password c |}.
Proof.
  unfold load_line, unquote. cbn [String.append].
  rewrite strip_cons_keep by reflexivity. keep_prefix.
  cbn -[PyStr.strip PyStr.strip_char PyStr.rstrip_by].
  rewrite strip_after_rstrip. reflexivity.
Qed.

Lemma load_line_password c w :
  load_line c ("KASA_PASSWORD=" ++ w) =
  {| username := username c; password := unquote w |}.
Proof.
  unfold load_line, unquote. cbn [String.append].
  rewrite strip_cons_keep by reflexivity. keep_prefix.
  cbn -[PyStr.strip PyStr.strip_char PyStr.rstrip_by].
  rewrite strip_after_rstrip. reflexivity.
Qed.

Lemma rstrip_blank s : blank s = true -> PyStr.rstrip_by PyStr.is_space s = EmptyString.
Proof.
  induction s as [|c r IH]; [reflexivity|]. simpl blank.
  intros H. apply andb_prop in H as [Hc Hr].
  rewrite rstrip_by_cons, (IH Hr), Hc. reflexivity.
Qed.

Lemma rstrip_blank_tail s tail :
  blank tail = true ->
  PyStr.rstrip_by PyStr.is_space (s ++ tail) = PyStr.rstrip_by PyStr.is_space s.
Proof.
  intros Ht. induction s as [|a r IH].
  - simpl. apply rstrip_blank; assumption.
  - cbn [String.append]. rewrite !rstrip_by_cons, IH. reflexivity.
Qed.

Lemma strip_blank_tail s tail :
  blank tail = true -> PyStr.strip (s ++ tail) = PyStr.strip s.
Proof.
  intros Ht. unfold PyStr.strip, PyStr.strip_by.
  rewrite <- !lstrip_rstrip_comm, rstrip_blank_tail by assumption. reflexivity.
Qed.

Lemma last_is_snoc p s c : last_is p (s ++ String c EmptyString) = p c.
Proof.
  induction s as [|a r IH]; [reflexivity|].
  cbn [String.append]. destruct r; [reflexivity|]. exact IH.
Qed.

Lemma is_quote_split c :
  is_quote c = false -> Ascii.eqb DQUOTE c = false /\ Ascii.eqb "'" c = false.
Proof. unfold is_quote. intros H. apply orb_false_elim in H. exact H. Qed.

Lemma first_is_quote_split s :
  first_is is_quote s = false ->
  first_is (Ascii.eqb DQUOTE) s = false /\ first_is (Ascii.eqb "'") s = false.
Proof. destruct s; simpl; [auto|]. apply is_quote_split. Qed.

Lemma last_is_quote_split s :
  last_is is_quote s = false ->
  last_is (Ascii.eqb DQUOTE) s = false /\ last_is (Ascii.eqb "'") s = false.
Proof.
  induction s as [|a r IH]; [auto|].
  destruct r; [simpl; apply is_quote_split|]. exact IH.
Qed.

Lemma unquote_plain v : plain_ends v -> unquote v = v.
Proof.
  intros (Hf & Hl & Hsf & Hsl). unfold unquote, PyStr.strip, PyStr.strip_char.
  apply first_is_quote_split in Hf as [Hf1 Hf2].
  apply last_is_quote_split in Hl as [Hl1 Hl2].
  rewrite (strip_by_keep PyStr.is_space v) by assumption.
  rewrite (strip_by_keep (Ascii.eqb DQUOTE) v) by assumption.
  apply strip_by_keep; assumption.
Qed.

Lemma unquote_dquoted v : unquoted_ends v -> unquote (dquoted v) = v.
Proof.
  intros (Hf & Hl). unfold unquote, PyStr.strip, PyStr.strip_char, dquoted.
  apply first_is_quote_split in Hf as [Hf1 Hf2].
  apply last_is_quote_split in Hl as [Hl1 Hl2].
  rewrite (strip_by_keep PyStr.is_space).
  - rewrite strip_by_wrapped; auto. apply strip_by_keep; assumption.
  - reflexivity.
  - change (last_is PyStr.is_space ((String DQUOTE v) ++ String DQUOTE EmptyString) = false).
    rewrite last_is_snoc. reflexivity.
Qed.

Lemma unquote_squoted v : unquoted_ends v -> unquote (squoted v) = v.
Proof.
  intros (Hf & Hl). unfold unquote, PyStr.strip, PyStr.strip_char, squoted.
  apply first_is_quote_split in Hf as [Hf1 Hf2].
  apply last_is_quote_split in Hl as [Hl1 Hl2].
  rewrite (strip_by_keep PyStr.is_space).
  - rewrite (strip_by_keep (Ascii.eqb DQUOTE)).
    + apply strip_by_wrapped; auto.
    + reflexivity.
    + change (last_is (Ascii.eqb DQUOTE) ((String "'" v) ++ String "'" EmptyString) = false).
      rewrite last_is_snoc. reflexivity.
  - reflexivity.
  - change (last_is PyStr.is_space ((String "'" v) ++ String "'" EmptyString) = false).
    rewrite last_is_snoc. reflexivity.
Qed.

Lemma unquote_blank_tail w tail : blank tail = true -> unquote (w ++ tail) = unquote w.
Proof. intros H. unfold unquote. rewrite strip_blank_tail by assumption. reflexivity. Qed.

Lemma load_line_blank c line : blank line = true -> load_line c line = c.
Proof. intros H. unfold load_line. rewrite strip_blank by assumption. reflexivity. Qed.

Lemma load_line_comment c line :
  PyStr.startswith_char "#" line = true -> load_line c line = c.
Proof.
  destruct line as [|a r]; [discriminate|]. simpl. intros Ha.
  apply Ascii.eqb_eq in Ha. subst a. unfold load_line.
  rewrite strip_cons_keep by reflexivity. reflexivity.
Qed.

Lemma load_line_no_equals c line :
  PyStr.contains_char "=" (PyStr.strip line) = false -> load_line c line = c.
Proof.
  intros H. unfold load_line. rewrite H.
  destruct (PyStr.truthy _ && negb _); reflexivity.
Qed.

(** C1 (amended). The credential loader returns the empty pair when
    [.env] is absent or cannot be opened; when a read fails after
    some lines were read, it returns what those lines assigned, which
    is what it returns for a file that ends there.  For the file with
    the lines [KASA_USERNAME=foo] and [KASA_PASSWORD=] followed by the
    quoted text [bar baz] it returns username [foo] and password
    [bar baz]; a readable file is processed line by line, where a
    blank line and a line starting with [#] change nothing, a line is
    split at its first [=] (the value may itself contain [=]), and
    quotes around the value are stripped.  An unquoted value is taken
    as it is when neither of its ends is white space, a quote or a
    character outside ASCII. *)
Theorem credentials_loader_contract :
  fst (_load_credentials_from_env NoFile) = no_credentials /\
  (forall e, fst (_load_credentials_from_env (OpenError e)) = no_credentials) /\
  (forall content e,
     fst (_load_credentials_from_env (TextThenError content e)) =
     fst (_load_credentials_from_env (Text content))) /\
  fst (_load_credentials_from_env (Text example_env)) =
    {| username := "foo"; password := "bar baz" |} /\
  (forall content,
     fst (_load_credentials_from_env (Text content)) =
     fold_left load_line (PyStr.lines_keepends (PyStr.universal_newlines content))
       no_credentials) /\
  (forall c line,
     blank line = true \/ PyStr.startswith_char "#" line = true ->
     load_line c line = c) /\
  (forall c v tail,
     blank tail = true ->
     (plain_ends v -> ascii_ends v ->
      load_line c ("KASA_USERNAME=" ++ v ++ tail) =
        {| username := v; password := password c |} /\
      load_line c ("KASA_PASSWORD=" ++ v ++ tail) =
        {| username := username c; password := v |}) /\
     (unquoted_ends v ->
      load_line c ("KASA_USERNAME=" ++ dquoted v ++ tail) =
        {| username := v; password := password c |} /\
      load_line c ("KASA_PASSWORD=" ++ dquoted v ++ tail) =
        {| username := username c; password := v |} /\
      load_line c ("KASA_USERNAME=" ++ squoted v ++ tail) =
        {| username := v; password := password c |} /\
      load_line c ("KASA_PASSWORD=" ++ squoted v ++ tail) =
        {| username := username c; password := v |})).
Proof.
  split; [reflexivity|]. split; [reflexivity|]. split; [reflexivity|].
  split; [vm_compute; reflexivity|]. split; [reflexivity|].
  split.
  - intros c line [H|H]; [apply load_line_blank | apply load_line_comment]; assumption.
  - intros c v tail Ht. split.
    + intros Hv _.
      rewrite load_line_username, load_line_password, unquote_blank_tail by assumption.
      rewrite unquote_plain by assumption. split; reflexivity.
    + intros Hv.
      rewrite !load_line_username, !load_line_password, !unquote_blank_tail by assumption.
      rewrite unquote_dquoted, unquote_squoted by assumption. repeat split; reflexivity.
Qed.

Lemma credentials_loader_witness :
  load_line no_credentials ("KASA_PASSWORD=" ++ dquoted "a=b c" ++ nl) =
  {| username := EmptyString; password := "a=b c" |}.
Proof.
  destruct credentials_loader_contract as (_ & _ & _ & _ & _ & _ & H).
  destruct (H no_credentials "a=b c" nl eq_refl) as [_ Hq].
  destruct Hq as (_ & Hp & _).
  - split; reflexivity.
  - exact Hp.
Defined.

(** C1, counterexample. A file whose first line assigns the user name
    and whose reading then fails is an unreadable file for which the
    loader does not return the empty pair: the user name read before
    the failure is kept, and the failure is only printed. *)
Lemma read_error_keeps_credentials :
  _load_credentials_from_env (TextThenError ("KASA_USERNAME=foo" ++ nl) read_error) =
  ({| username := "foo"; password := EmptyString |},
   "Error reading .env: [Errno 5] Input/output error").
Proof. vm_compute. reflexivity. Qed.

(** ** Statistics *)

Lemma read_available_spec d :
  read_available d =
  match reachability d with
  | Missing => Ok (PyBool true)
  | Has v => Ok v
  | Fails e => Raise e
  end.
Proof.
  unfold read_available, reachability.
  destruct (is_available d); simpl; try reflexivity.
  destruct (available d); reflexivity.
Qed.

Lemma read_active_spec d :
  read_active d =
  match is_on d with
  | Missing => Ok false
  | Has v => Ok (truth v)
  | Fails e => Raise e
  end.
Proof. unfold read_active. destruct (is_on d); reflexivity. Qed.

(** One loop iteration adds the device's increments to the counters. *)
Lemma count_device_counters c out d :
  fst (count_device (c, out) d) =
  {| total := total c;
     online := online c + online_inc d;
     offline := offline c + offline_inc d;
     active := active c + active_inc d |}.
Proof.
  unfold count_device, online_inc, offline_inc, active_inc, flag_raises.
  rewrite read_available_spec, read_active_spec.
  destruct (reachability d) as [|v|e]; simpl;
    [ | destruct (truth v); simpl | ];
    destruct (is_on d) as [|w|e']; simpl; try destruct (truth w); simpl;
    f_equal; lia.
Qed.

Lemma fold_count_device ds c out :
  fst (fold_left count_device (Dict.vals ds) (c, out)) =
  {| total := total c;
     online := online c + sum_over online_inc ds;
     offline := offline c + sum_over offline_inc ds;
     active := active c + sum_over active_inc ds |}.
Proof.
  unfold Dict.vals.
  revert c out. induction ds as [|[ip d] r IH]; intros c out.
  - simpl. destruct c; simpl. f_equal; lia.
  - cbn [map fold_left snd]. destruct (count_device (c, out) d) as [c1 out1] eqn:E.
    rewrite IH. pose proof (count_device_counters c out d) as H.
    rewrite E in H. simpl in H. subst c1. simpl. f_equal; lia.
Qed.

Lemma every_device_counted d : 1 <= online_inc d + offline_inc d.
Proof.
  unfold online_inc, offline_inc.
  destruct (reachability d) as [|v|e]; simpl; try destruct (truth v); simpl; lia.
Qed.

Lemma counted_at_least_total ds :
  List.length ds <= sum_over online_inc ds + sum_over offline_inc ds.
Proof.
  induction ds as [|[ip d] r IH]; simpl; [lia|].
  pose proof (every_device_counted d). lia.
Qed.

(** The counters of [update_statistics] are the sums of the
    increments of the devices; the final fall-back to [online = total]
    never changes them. *)
Lemma count_statistics_sums ds :
  fst (count_statistics ds) =
  {| total := List.length ds;
     online := sum_over online_inc ds;
     offline := sum_over offline_inc ds;
     active := sum_over active_inc ds |}.
Proof.
  unfold count_statistics.
  pose proof (fold_count_device ds
    {| total := List.length ds; online := 0; offline := 0; active := 0 |} []) as H.
  destruct (fold_left count_device (Dict.vals ds) _) as [c out].
  simpl in H. subst c. simpl.
  pose proof (counted_at_least_total ds) as Hc.
  destruct (sum_over online_inc ds =? 0)%nat eqn:E1; simpl; [|reflexivity].
  destruct (sum_over offline_inc ds =? 0)%nat eqn:E2; simpl; [|reflexivity].
  destruct (0 <? List.length ds)%nat eqn:E3; simpl; [|reflexivity].
  apply Nat.eqb_eq in E1, E2. apply Nat.ltb_lt in E3. lia.
Qed.

Lemma sum_online_reachable ds :
  sum_over online_inc ds = List.length (filter reads_reachable ds).
Proof.
  induction ds as [|[ip d] r IH]; [reflexivity|].
  simpl. rewrite IH.
  unfold online_inc, reads_reachable. simpl.
  destruct (reachability d) as [|v|e]; simpl; try destruct (truth v); reflexivity.
Qed.

Lemma sum_offline_unreachable ds :
  (forall entry e, In entry ds -> reachability (snd entry) <> Fails e) ->
  sum_over offline_inc ds =
  List.length (filter reads_unreachable ds) + sum_over flag_raises ds.
Proof.
  induction ds as [|[ip d] r IH]; intros H; [reflexivity|].
  simpl. rewrite IH by (intros; apply H; right; assumption).
  unfold offline_inc, reads_unreachable. simpl.
  destruct (reachability d) as [|v|e] eqn:E; simpl; try destruct (truth v); simpl;
    try lia.
  exfalso. apply (H (ip, d) e); [left; reflexivity | exact E].
Qed.

Lemma sum_online_no_signal ds :
  (forall entry, In entry ds -> no_signal (snd entry)) ->
  sum_over online_inc ds = List.length ds.
Proof.
  induction ds as [|[ip d] r IH]; intros H; [reflexivity|].
  simpl. rewrite IH by (intros; apply H; right; assumption).
  destruct (H (ip, d)) as [H1 H2]; [left; reflexivity|]. simpl in H1, H2.
  unfold online_inc, reachability. rewrite H1, H2. reflexivity.
Qed.

(** C4 (amended). For three devices whose on flags are true, false and
    unknown (absent, [None] or raising), whose reachability attributes
    can be read, the statistics give total 3 and active 1; online is the
    number of devices whose reachability attribute is true or absent
    and offline the number of those whose reachability attribute is
    false (plus one when reading the unknown flag raises, see C8); and
    for any mapping in which no device carries a reachability signal,
    online equals total. *)
Theorem statistics_three_devices :
  forall a b c dA dB dC,
    is_on dA = Has (PyBool true) ->
    is_on dB = Has (PyBool false) ->
    unknown_flag (is_on dC) ->
    (forall entry e, In entry [(a, dA); (b, dB); (c, dC)] ->
                     reachability (snd entry) <> Fails e) ->
    total (fst (count_statistics [(a, dA); (b, dB); (c, dC)])) = 3 /\
    active (fst (count_statistics [(a, dA); (b, dB); (c, dC)])) = 1 /\
    online (fst (count_statistics [(a, dA); (b, dB); (c, dC)])) =
      List.length (filter reads_reachable [(a, dA); (b, dB); (c, dC)]) /\
    offline (fst (count_statistics [(a, dA); (b, dB); (c, dC)])) =
      List.length (filter reads_unreachable [(a, dA); (b, dB); (c, dC)]) + flag_raises dC /\
    (is_on dC = Missing \/ is_on dC = Has PyNone ->
     offline (fst (count_statistics [(a, dA); (b, dB); (c, dC)])) =
       List.length (filter reads_unreachable [(a, dA); (b, dB); (c, dC)]) /\
     online (fst (count_statistics [(a, dA); (b, dB); (c, dC)])) +
     offline (fst (count_statistics [(a, dA); (b, dB); (c, dC)])) = 3) /\
    (forall ds, (forall entry, In entry ds -> no_signal (snd entry)) ->
                online (fst (count_statistics ds)) = total (fst (count_statistics ds))).
Proof.
  intros a b c dA dB dC HA HB HC Hr.
  rewrite count_statistics_sums. cbn [total active online offline].
  pose proof (sum_online_reachable [(a, dA); (b, dB); (c, dC)]) as Hon.
  pose proof (sum_offline_unreachable _ Hr) as Hoff.
  assert (Hfl : sum_over flag_raises [(a, dA); (b, dB); (c, dC)] = flag_raises dC).
  { unfold sum_over, flag_raises. simpl. rewrite HA, HB. lia. }
  assert (Hact : sum_over active_inc [(a, dA); (b, dB); (c, dC)] = 1).
  { unfold sum_over, active_inc. simpl. rewrite HA, HB.
    assert (RA : forall e, reachability dA <> Fails e)
      by (intros e; apply (Hr (a, dA)); simpl; auto).
    assert (RB : forall e, reachability dB <> Fails e)
      by (intros e; apply (Hr (b, dB)); simpl; auto).
    destruct (reachability dA) as [| |e]; [| |destruct (RA e); reflexivity];
      (destruct (reachability dB) as [| |e]; [| |destruct (RB e); reflexivity]);
      destruct (reachability dC);
      destruct HC as [H | [H | [e' H]]]; rewrite ?H; reflexivity. }
  rewrite Hoff, Hfl.
  split; [reflexivity|]. split; [exact Hact|]. split; [exact Hon|]. split; [reflexivity|].
  split.
  - intros Hq.
    assert (F : flag_raises dC = 0)
      by (unfold flag_raises; destruct Hq as [-> | ->]; reflexivity).
    rewrite F, Nat.add_0_r. split; [reflexivity|].
    rewrite Hon. clear - Hr.
    assert (G : forall entry, In entry [(a, dA); (b, dB); (c, dC)] ->
                (if reads_reachable entry then 1 else 0) +
                (if reads_unreachable entry then 1 else 0) = 1).
    { intros entry Hin. specialize (Hr entry). unfold reads_reachable, reads_unreachable.
      destruct (reachability (snd entry)) as [|v|e]; [reflexivity| |].
      - destruct (truth v); reflexivity.
      - destruct (Hr e Hin). reflexivity. }
    pose proof (G (a, dA) (or_introl eq_refl)) as GA.
    pose proof (G (b, dB) (or_intror (or_introl eq_refl))) as GB.
    pose proof (G (c, dC) (or_intror (or_intror (or_introl eq_refl)))) as GC.
    cbn [filter].
    destruct (reads_reachable (a, dA)), (reads_unreachable (a, dA)),
             (reads_reachable (b, dB)), (reads_unreachable (b, dB)),
             (reads_reachable (c, dC)), (reads_unreachable (c, dC));
      simpl in *; lia.
  - intros ds Hds. rewrite count_statistics_sums. cbn [total online].
    apply sum_online_no_signal; assumption.
Qed.

Lemma statistics_three_devices_witness :
  total (fst (count_statistics three_devices)) = 3.
Proof.
  refine (proj1 (statistics_three_devices "10.0.0.1" "10.0.0.2" "10.0.0.3"
                   devA devB devC eq_refl eq_refl (or_introl eq_refl) _)).
  intros entry e [<- | [<- | [<- | []]]]; discriminate.
Defined.

(** C4, counterexample. With on flags true, false and unknown the
    statistics need not give active 1, nor split the devices into
    online and offline.  When the reachability of the device that is
    on raises, its on flag is never read: active is 0.  When the
    unknown flag raises on devices without reachability signal, online
    equals total and the device is counted as offline too: online 3
    and offline 1 for a total of 3. *)
Lemma statistics_raising_attributes :
  fst (count_statistics reachability_raises) =
    {| total := 3; online := 1; offline := 2; active := 0 |} /\
  fst (count_statistics unknown_flag_raises) =
    {| total := 3; online := 3; offline := 1; active := 1 |}.
Proof. vm_compute. split; reflexivity. Qed.

(** C8. A device whose availability reads as true and whose on flag
    raises an exception other than [AttributeError] is counted by one
    loop iteration both as online and as offline, so every mapping
    that holds such a device gets online + offline greater than
    total. *)
Theorem statistics_double_count :
  forall ds ip d v e,
    In (ip, d) ds ->
    reachability d = Has v -> truth v = true -> is_on d = Fails e ->
    (forall c out,
       online (fst (count_device (c, out) d)) = S (online c) /\
       offline (fst (count_device (c, out) d)) = S (offline c) /\
       snd (count_device (c, out) d) = (out ++ [status_error e])%list) /\
    total (fst (count_statistics ds)) <
    online (fst (count_statistics ds)) + offline (fst (count_statistics ds)).
Proof.
  intros ds ip d v e Hin Hr Hv Hon. split.
  - intros c out. unfold count_device.
    rewrite read_available_spec, read_active_spec, Hr, Hon, Hv. simpl.
    repeat split; reflexivity.
  - rewrite count_statistics_sums. cbn [total online offline].
    assert (H2 : online_inc d + offline_inc d = 2).
    { unfold online_inc, offline_inc, flag_raises. rewrite Hr, Hon, Hv. reflexivity. }
    clear Hr Hv Hon. induction ds as [|[ip' d'] r IH]; [destruct Hin|].
    destruct Hin as [Heq | Hin].
    + inversion Heq; subst. pose proof (counted_at_least_total r). simpl. lia.
    + specialize (IH Hin). pose proof (every_device_counted d'). simpl. lia.
Qed.

Lemma statistics_double_count_witness :
  total (fst (count_statistics [("10.0.0.9", devX)])) <
  online (fst (count_statistics [("10.0.0.9", devX)])) +
  offline (fst (count_statistics [("10.0.0.9", devX)])).
Proof.
  refine (proj2 (statistics_double_count [("10.0.0.9", devX)] "10.0.0.9" devX
                   (PyBool true) boom (or_introl eq_refl) eq_refl eq_refl eq_refl)).
Defined.

(** ** The async bridge *)

(** C9 (amended). When the loop handle is null or the loop is closed,
    [run_async] hands nothing to the loop and raises nothing: it only
    prints the diagnostic line, and every other part of the state is
    as before.  [cleanup] does not lead to such a state: it requests
    the stop and leaves the handle set and the loop not closed, so a
    coroutine submitted afterwards is still handed to the loop. *)
Theorem run_async_unavailable :
  forall g coro,
    (loop_unavailable g ->
     run_async coro g = print g ["Event loop not available"] /\
     scheduled (run_async coro g) = scheduled g /\
     loop (run_async coro g) = loop g /\
     devices (run_async coro g) = devices g /\
     status_var (run_async coro g) = status_var g /\
     tree (run_async coro g) = tree g /\
     stats_labels (run_async coro g) = stats_labels g /\
     dialogs (run_async coro g) = dialogs g /\
     calls (run_async coro g) = calls g /\
     stdout (run_async coro g) = (stdout g ++ ["Event loop not available"])%list) /\
    (forall l, loop g = Some l -> closed l = false ->
     ~ loop_unavailable (cleanup g) /\
     scheduled (run_async coro (cleanup g)) = (ready l ++ [coro])%list /\
     stdout (run_async coro (cleanup g)) = stdout g).
Proof.
  intros g coro. split.
  - unfold loop_unavailable, run_async, scheduled. intros H.
    destruct (loop g) as [l|] eqn:E.
    + rewrite H. simpl. rewrite E. repeat split; reflexivity.
    + simpl. rewrite E. repeat split; reflexivity.
  - intros l E Hc. unfold loop_unavailable, cleanup, run_async, scheduled.
    rewrite E, Hc. simpl. repeat split. intros H. discriminate H.
Qed.

Lemma run_async_unavailable_witness :
  scheduled (run_async CoDiscover (set_loop (init NoFile) None)) = [].
Proof.
  destruct (run_async_unavailable (set_loop (init NoFile) None) CoDiscover) as [H _].
  destruct (H I) as (_ & Hs & _). exact Hs.
Defined.

(** After [cleanup], a submitted coroutine is handed to the loop and
    no diagnostic is printed, although the stop was requested. *)
Lemma run_async_after_cleanup :
  scheduled (run_async CoDiscover (cleanup (init NoFile))) = [CoDiscover] /\
  stdout (run_async CoDiscover (cleanup (init NoFile))) = stdout (init NoFile) /\
  option_map stop_requested (loop (cleanup (init NoFile))) = Some true /\
  option_map closed (loop (cleanup (init NoFile))) = Some false.
Proof. repeat split; reflexivity. Qed.

(** ** The Treeview *)

Lemma has_iid_true i it : has_iid i it = true <-> iid it = i.
Proof. unfold has_iid. apply String.eqb_eq. Qed.

Lemma has_iid_false i it : has_iid i it = false <-> iid it <> i.
Proof. unfold has_iid. apply String.eqb_neq. Qed.

Lemma existsb_has_iid i l : existsb (has_iid i) l = true <-> In i (map iid l).
Proof.
  rewrite existsb_exists, in_map_iff. split.
  - intros (it & Hin & H). exists it. split; [apply has_iid_true|]; assumption.
  - intros (it & H & Hin). exists it. split; [|apply has_iid_true]; assumption.
Qed.

Lemma existsb_has_iid_false i l : existsb (has_iid i) l = false <-> ~ In i (map iid l).
Proof.
  rewrite <- existsb_has_iid. destruct (existsb (has_iid i) l); split; intros H;
    try reflexivity; try discriminate; try (intros H'; discriminate).
  exfalso. apply H. reflexivity.
Qed.

Lemma remove_iid_absent i l : ~ In i (map iid l) -> remove_iid i l = l.
Proof.
  induction l as [|it r IH]; intros H; [reflexivity|].
  simpl in H. unfold remove_iid. simpl.
  assert (Hne : has_iid i it = false) by (apply has_iid_false; intros E; apply H; auto).
  rewrite Hne. simpl. f_equal. apply IH. intros Hin. apply H. auto.
Qed.

Lemma remove_iid_head it r :
  ~ In (iid it) (map iid r) -> remove_iid (iid it) (it :: r) = r.
Proof.
  intros H. unfold remove_iid. simpl.
  assert (E : has_iid (iid it) it = true) by (apply has_iid_true; reflexivity).
  rewrite E. simpl. apply remove_iid_absent. assumption.
Qed.

Lemma tree_exists_iff t i :
  tree_exists t i = true <-> In i (map iid (children t ++ detached t)%list).
Proof.
  unfold tree_exists. rewrite orb_true_iff, !existsb_has_iid, map_app, in_app_iff.
  reflexivity.
Qed.

Lemma tree_exists_false t i :
  tree_exists t i = false <-> ~ In i (map iid (children t ++ detached t)%list).
Proof.
  rewrite <- tree_exists_iff. destruct (tree_exists t i); split; intros H;
    try reflexivity; try discriminate; try (intros H'; discriminate).
  exfalso. apply H. reflexivity.
Qed.

(** Clearing the list deletes every displayed row and leaves the
    detached ones in the widget. *)
Lemma clear_rows l det :
  NoDup (map iid (l ++ det)%list) ->
  for_each delete_row (map iid l) {| children := l; detached := det |} =
  Normal {| children := []; detached := det |}.
Proof.
  induction l as [|it r IH]; intros Hnd; [reflexivity|].
  simpl in Hnd. apply NoDup_cons_iff in Hnd as [Hnotin Hnd].
  rewrite map_app, in_app_iff in Hnotin.
  cbn [map for_each]. unfold delete_row at 1, tree_delete.
  assert (Hex : tree_exists {| children := it :: r; detached := det |} (iid it) = true).
  { apply tree_exists_iff. simpl. left. reflexivity. }
  rewrite Hex. cbn [children detached].
  rewrite remove_iid_head by tauto. rewrite remove_iid_absent by tauto.
  apply IH. assumption.
Qed.

Lemma clear_tree t :
  tree_ok t ->
  for_each delete_row (get_children t) t = Normal {| children := []; detached := detached t |}.
Proof.
  intros H. destruct t as [l det]. apply clear_rows. exact H.
Qed.

Lemma iid_row_for entry : iid (row_for entry) = fst entry.
Proof.
  unfold row_for, row_values, bind. destruct entry as [ip d]. simpl.
  destruct (getattr (alias d) _); [|reflexivity].
  destruct (get_device_icon d); reflexivity.
Qed.

(** One iteration of the rendering loop on a free identifier shows
    the row of the device, whatever its attributes do. *)
Lemma add_row_free t out entry :
  tree_exists t (fst entry) = false ->
  exists out',
    add_row (t, out) entry =
    Normal ({| children := (children t ++ [row_for entry])%list; detached := detached t |},
            out').
Proof.
  intros Hfree. destruct entry as [ip d]. simpl in Hfree.
  unfold add_row, row_for. cbn [fst snd].
  destruct (row_values ip d) as [it|e] eqn:E; cbn [bind].
  - assert (Hi : iid it = ip).
    { pose proof (iid_row_for (ip, d)) as H. unfold row_for in H. simpl in H.
      rewrite E in H. exact H. }
    unfold tree_insert_end. rewrite Hi, Hfree. eexists. reflexivity.
  - unfold tree_insert_end. cbn [fallback_row iid]. rewrite Hfree. eexists. reflexivity.
Qed.

(** One iteration on an identifier that is already in the widget
    raises from the [except] block and shows nothing new. *)
Lemma add_row_taken t out entry :
  tree_exists t (fst entry) = true ->
  exists out',
    add_row (t, out) entry =
    Raised (TclError ("Item " ++ fst entry ++ " already exists")) (t, out').
Proof.
  intros Htaken. destruct entry as [ip d]. simpl in Htaken.
  unfold add_row. cbn [fst snd].
  destruct (row_values ip d) as [it|e] eqn:E; cbn [bind].
  - assert (Hi : iid it = ip).
    { pose proof (iid_row_for (ip, d)) as H. unfold row_for in H. simpl in H.
      rewrite E in H. exact H. }
    unfold tree_insert_end. rewrite Hi, Htaken. cbn [fallback_row iid]. rewrite Htaken.
    eexists. reflexivity.
  - unfold tree_insert_end. cbn [fallback_row iid]. rewrite Htaken. eexists. reflexivity.
Qed.

Lemma add_rows_free ds :
  forall c0 det out,
    NoDup (Dict.keys ds) ->
    (forall i, In i (Dict.keys ds) -> ~ In i (map iid (c0 ++ det)%list)) ->
    exists out',
      for_each add_row ds ({| children := c0; detached := det |}, out) =
      Normal ({| children := (c0 ++ map row_for ds)%list; detached := det |}, out').
Proof.
  induction ds as [|entry r IH]; intros c0 det out Hnd Hfree.
  - exists out. simpl. rewrite app_nil_r. reflexivity.
  - simpl in Hnd. apply NoDup_cons_iff in Hnd as [Hhead Hnd].
    cbn [for_each].
    destruct (add_row_free {| children := c0; detached := det |} out entry) as [out1 E].
    { apply tree_exists_false. apply Hfree. left. reflexivity. }
    rewrite E. cbn [children detached].
    destruct (IH (c0 ++ [row_for entry])%list det out1 Hnd) as [out2 E2].
    { intros i Hi Hin. rewrite !map_app, !in_app_iff in Hin. simpl in Hin.
      rewrite iid_row_for in Hin.
      destruct Hin as [[Hin | [Hin | []]] | Hin].
      - apply (Hfree i); [right; exact Hi|]. rewrite map_app, in_app_iff. auto.
      - subst i. apply Hhead. exact Hi.
      - apply (Hfree i); [right; exact Hi|]. rewrite map_app, in_app_iff. auto. }
    exists out2. rewrite E2. cbn [map]. rewrite <- app_assoc. reflexivity.
Qed.

(** However the rendering loop ends, it shows rows of devices of the
    mapping only, and it leaves the detached rows alone. *)
Lemma add_rows_visible ds :
  forall t out,
    detached (fst (final (for_each add_row ds (t, out)))) = detached t /\
    forall i, In i (get_children (fst (final (for_each add_row ds (t, out))))) ->
              In i (get_children t) \/ In i (Dict.keys ds).
Proof.
  induction ds as [|entry r IH]; intros t out.
  - simpl. auto.
  - cbn [for_each]. destruct (tree_exists t (fst entry)) eqn:Ex.
    + destruct (add_row_taken t out entry Ex) as [out1 E]. rewrite E.
      simpl. auto.
    + destruct (add_row_free t out entry Ex) as [out1 E]. rewrite E.
      destruct (IH {| children := (children t ++ [row_for entry])%list;
                      detached := detached t |} out1) as [Hd Hv].
      split; [exact Hd|].
      intros i Hi. apply Hv in Hi. unfold get_children in Hi. cbn [children] in Hi.
      rewrite map_app, in_app_iff in Hi. simpl in Hi. rewrite iid_row_for in Hi.
      simpl. unfold get_children. tauto.
Qed.

(** ** Frame lemmas of the state updates *)

Lemma update_statistics_frame g :
  devices (update_statistics g) = devices g /\
  tree (update_statistics g) = tree g /\
  status_var (update_statistics g) = status_var g /\
  loop (update_statistics g) = loop g /\
  calls (update_statistics g) = calls g /\
  credentials (update_statistics g) = credentials g.
Proof.
  unfold update_statistics. destruct (stats_labels g); [|repeat split; reflexivity].
  destruct (count_statistics (devices g)). repeat split; reflexivity.
Qed.

(** Redrawing the list never changes the device mapping, the library
    calls issued or the credentials, whether it ends normally or
    raises. *)
Lemma update_device_list_frame g :
  devices (final (update_device_list g)) = devices g /\
  calls (final (update_device_list g)) = calls g /\
  credentials (final (update_device_list g)) = credentials g.
Proof.
  unfold update_device_list. destruct (tree g) as [t|]; [|repeat split; reflexivity].
  destruct (for_each delete_row (get_children t) t) as [t1|e t1];
    [|repeat split; reflexivity].
  destruct (for_each add_row (devices g) (t1, [])) as [[t2 out]|e [t2 out]]; cbn [final].
  - destruct (update_statistics_frame (print (set_tree g t2) out)) as (H1 & _ & _ & _ & H2 & H3).
    rewrite H1, H2, H3. repeat split; reflexivity.
  - repeat split; reflexivity.
Qed.

(** With unique identifiers in the widget, unique keys in the mapping
    and no device of the mapping hidden by the filter, the redraw ends
    normally and shows one row per device, in the order of the
    mapping. *)
Lemma update_device_list_normal g t :
  tree g = Some t -> tree_ok t -> NoDup (Dict.keys (devices g)) ->
  (forall i, In i (Dict.keys (devices g)) -> ~ In i (map iid (detached t))) ->
  exists out,
    update_device_list g =
    Normal (update_statistics
              (print (set_tree g {| children := map row_for (devices g);
                                    detached := detached t |}) out)).
Proof.
  intros Ht Hok Hnd Hfree. unfold update_device_list. rewrite Ht.
  rewrite clear_tree by assumption.
  destruct (add_rows_free (devices g) [] (detached t) [] Hnd) as [out E].
  { intros i Hi. simpl. apply Hfree. exact Hi. }
  rewrite E. exists out. reflexivity.
Qed.

(** After a redraw, however it ends, every displayed row belongs to a
    device of the mapping. *)
Lemma update_device_list_visible g t :
  tree g = Some t -> tree_ok t ->
  exists t',
    tree (final (update_device_list g)) = Some t' /\
    detached t' = detached t /\
    forall i, In i (get_children t') -> In i (Dict.keys (devices g)).
Proof.
  intros Ht Hok. unfold update_device_list. rewrite Ht.
  rewrite clear_tree by assumption.
  destruct (add_rows_visible (devices g) {| children := []; detached := detached t |} [])
    as [Hd Hv].
  destruct (for_each add_row (devices g) ({| children := []; detached := detached t |}, []))
    as [[t2 out]|e [t2 out]]; cbn [final fst] in *.
  - exists t2. destruct (update_statistics_frame (print (set_tree g t2) out)) as (_ & H & _).
    rewrite H. simpl. split; [reflexivity|]. split; [exact Hd|].
    intros i Hi. destruct (Hv i Hi) as [[]|H']. exact H'.
  - exists t2. simpl. split; [reflexivity|]. split; [exact Hd|].
    intros i Hi. destruct (Hv i Hi) as [[]|H']. exact H'.
Qed.

(** ** Dictionaries *)

Section DictFacts.
Context {V : Type}.
Implicit Types (d : list (string * V)) (k : string) (v : V).

Lemma lookup_set_eq k v d : Dict.lookup k (Dict.set k v d) = Some v.
Proof.
  induction d as [|[k' v'] r IH]; simpl.
  - rewrite String.eqb_refl. reflexivity.
  - destruct (String.eqb k' k) eqn:E; simpl.
    + rewrite String.eqb_refl. reflexivity.
    + rewrite E. exact IH.
Qed.

Lemma lookup_set_ne k k' v d :
  k' <> k -> Dict.lookup k' (Dict.set k v d) = Dict.lookup k' d.
Proof.
  intros Hne. induction d as [|[k0 v0] r IH]; simpl.
  - apply String.eqb_neq in Hne. rewrite String.eqb_sym, Hne. reflexivity.
  - destruct (String.eqb k0 k) eqn:E; simpl.
    + apply String.eqb_eq in E. subst k0.
      assert (E' : String.eqb k k' = false) by (apply String.eqb_neq; congruence).
      rewrite E'. reflexivity.
    + destruct (String.eqb k0 k'); [reflexivity | exact IH].
Qed.

Lemma set_absent k v d : ~ In k (Dict.keys d) -> Dict.set k v d = (d ++ [(k, v)])%list.
Proof.
  induction d as [|[k0 v0] r IH]; intros H; [reflexivity|].
  simpl in *. assert (E : String.eqb k0 k = false) by (apply String.eqb_neq; tauto).
  rewrite E. f_equal. apply IH. tauto.
Qed.

Lemma keys_set_present k v d :
  In k (Dict.keys d) -> Dict.keys (Dict.set k v d) = Dict.keys d.
Proof.
  induction d as [|[k0 v0] r IH]; intros H; [destruct H|].
  simpl in *. destruct (String.eqb k0 k) eqn:E.
  - apply String.eqb_eq in E. subst. reflexivity.
  - simpl. f_equal. apply IH. destruct H as [H|H]; [|exact H].
    apply String.eqb_neq in E. congruence.
Qed.

Lemma keys_set k v d :
  Dict.keys (Dict.set k v d) =
  if Dict.mem k d then Dict.keys d else (Dict.keys d ++ [k])%list.
Proof.
  unfold Dict.mem. induction d as [|[k0 v0] r IH]; [reflexivity|].
  simpl. destruct (String.eqb k0 k) eqn:E.
  - apply String.eqb_eq in E. subst. reflexivity.
  - simpl. rewrite IH. destruct (Dict.lookup k r); reflexivity.
Qed.

Lemma set_keeps_unique k v d : NoDup (Dict.keys d) -> NoDup (Dict.keys (Dict.set k v d)).
Proof.
  intros H. destruct (in_dec string_dec k (Dict.keys d)) as [Hin|Hout].
  - rewrite keys_set_present; assumption.
  - rewrite set_absent by assumption. unfold Dict.keys. rewrite map_app. simpl.
    apply NoDup_app; [exact H | repeat constructor; intros [] |].
    intros x Hx [Hy|[]]. subst. exact (Hout Hx).
Qed.

End DictFacts.

(** ** Rendering and filtering leave the devices alone *)

Lemma on_search_changed_frame g :
  devices (final (on_search_changed g)) = devices g /\
  status_var (final (on_search_changed g)) = status_var g /\
  loop (final (on_search_changed g)) = loop g.
Proof.
  unfold on_search_changed. destruct (tree g) as [t|]; [|repeat split; reflexivity].
  destruct (for_each _ _ t); repeat split; reflexivity.
Qed.

(** C7. Redrawing the device list and running the search filter
    leave the device mapping as it was, keys and stored records alike,
    whether they end normally or raise. *)
Theorem rendering_keeps_devices :
  forall g,
    devices (final (update_device_list g)) = devices g /\
    devices (final (on_search_changed g)) = devices g /\
    (forall text, devices (final (type_search text g)) = devices g).
Proof.
  intros g. split; [apply update_device_list_frame|].
  split; [apply on_search_changed_frame|].
  intros text. unfold type_search.
  destruct (on_search_changed_frame (set_search g text)) as [H _]. exact H.
Qed.

(** ** Manual add *)

Lemma manual_add_success_devices k ip g d d' :
  discover_single k ip (auth_of (credentials g)) = Returned (Some d) ->
  update k ip d = Returned d' ->
  devices (_manual_add_device k ip g) = Dict.set ip d' (devices g).
Proof.
  intros Hd Hu. unfold _manual_add_device.
  cbn [credentials set_status issue]. rewrite Hd, Hu.
  match goal with
  | |- context [update_device_list ?x] =>
      pose proof (update_device_list_frame x) as (F & _); destruct (update_device_list x) as [g1|e g1]
  end; cbn [final] in F.
  - destruct (getattr (alias d') (PyStr ip)); simpl; exact F.
  - simpl. exact F.
Qed.

Lemma manual_add_failure_devices k ip g :
  add_fails k ip g -> devices (_manual_add_device k ip g) = devices g.
Proof.
  unfold add_fails, _manual_add_device. cbn [credentials set_status issue].
  destruct (discover_single k ip (auth_of (credentials g))) as [[d|]|e];
    try (intros _; reflexivity).
  destruct (update k ip d) as [d'|e]; [intros []|intros _; reflexivity].
Qed.

Lemma manual_add_outcomes k ip g :
  add_fails k ip g \/ exists d', add_succeeds k ip g d'.
Proof.
  unfold add_fails, add_succeeds.
  destruct (discover_single k ip (auth_of (credentials g))) as [[d|]|e]; auto.
  destruct (update k ip d) as [d'|e] eqn:E; auto.
  right. exists d', d. auto.
Qed.

(** C10 (amended). A manual add touches the entry of the entered
    address only: every other address reads as before, whatever
    happens.  When the device is found and its update returns, the
    mapping afterwards is the former one with that entry set (the
    keys are the former keys, with the address appended when it is
    new), also when the redraw or the status line raises afterwards
    and the add is reported as failed.  When no device is found or a
    library call raises, the mapping is as before. *)
Theorem manual_add_frame :
  forall k ip g,
    (forall ip', ip' <> ip ->
       Dict.lookup ip' (devices (_manual_add_device k ip g)) =
       Dict.lookup ip' (devices g)) /\
    (forall d', add_succeeds k ip g d' ->
       devices (_manual_add_device k ip g) = Dict.set ip d' (devices g) /\
       Dict.lookup ip (devices (_manual_add_device k ip g)) = Some d' /\
       Dict.keys (devices (_manual_add_device k ip g)) =
         if Dict.mem ip (devices g) then Dict.keys (devices g)
         else (Dict.keys (devices g) ++ [ip])%list) /\
    (add_fails k ip g -> devices (_manual_add_device k ip g) = devices g).
Proof.
  intros k ip g.
  assert (S : forall d', add_succeeds k ip g d' ->
                devices (_manual_add_device k ip g) = Dict.set ip d' (devices g)).
  { intros d' (d & Hd & Hu). exact (manual_add_success_devices k ip g d d' Hd Hu). }
  split; [|split].
  - intros ip' Hne. destruct (manual_add_outcomes k ip g) as [F | [d' H]].
    + rewrite manual_add_failure_devices by assumption. reflexivity.
    + rewrite (S d' H). apply lookup_set_ne. assumption.
  - intros d' H. rewrite (S d' H).
    split; [reflexivity|]. split; [apply lookup_set_eq | apply keys_set].
  - apply manual_add_failure_devices.
Qed.

(** ** Discovery *)

Lemma keys_working_of k found ip :
  In ip (Dict.keys (working_of k found)) -> In ip (Dict.keys found).
Proof.
  unfold Dict.keys, working_of. induction found as [|[ip0 d0] r IH]; [auto|].
  cbn [flat_map fst snd map]. rewrite map_app, in_app_iff. intros [H|H].
  - destruct (update k ip0 d0); simpl in H; [|destruct H].
    destruct H as [H|[]]. left. exact H.
  - right. apply IH. exact H.
Qed.

Lemma probe_fold k found :
  forall working out,
    (forall ip, In ip (Dict.keys found) -> ~ In ip (Dict.keys working)) ->
    NoDup (Dict.keys found) ->
    fst (fold_left (probe k) found (working, out)) = (working ++ working_of k found)%list.
Proof.
  induction found as [|[ip d] r IH]; intros working out Hfresh Hnd.
  - simpl. rewrite app_nil_r. reflexivity.
  - simpl in Hnd. apply NoDup_cons_iff in Hnd as [Hhead Hnd].
    cbn [fold_left]. unfold probe at 2.
    unfold working_of. cbn [flat_map fst snd]. fold (working_of k r).
    destruct (update k ip d) as [d'|e].
    + rewrite set_absent by (apply Hfresh; left; reflexivity).
      assert (Hnext : forall ip0, In ip0 (Dict.keys r) ->
                                  ~ In ip0 (Dict.keys (working ++ [(ip, d')])%list)).
      { intros ip0 Hin. unfold Dict.keys. rewrite map_app, in_app_iff. simpl.
        intros [H|[H|[]]].
        - apply (Hfresh ip0); [right; exact Hin | exact H].
        - subst. exact (Hhead Hin). }
      destruct (getattr (alias d') (PyStr "Unknown"));
        rewrite IH by assumption; rewrite <- app_assoc; reflexivity.
    + rewrite IH; [reflexivity | | assumption].
      intros ip0 Hin. apply Hfresh. right. exact Hin.
Qed.

Lemma discover_result k g found :
  discover k (auth_of (credentials g)) = Returned found ->
  devices (_discover_devices k g) = fst (fold_left (probe k) found ([], [])) /\
  tree (_discover_devices k g) =
  tree (final (update_device_list
                 (set_devices
                    (print (issue (issue (set_status g "Discovering devices...")
                                     [CallDiscover (auth_of (credentials g)) 10 5])
                              (map (fun entry => CallUpdate (fst entry) 15) found))
                       (snd (fold_left (probe k) found ([], []))))
                    (fst (fold_left (probe k) found ([], [])))))).
Proof.
  intros Hd. unfold _discover_devices. cbn [credentials set_status issue]. rewrite Hd.
  destruct (fold_left (probe k) found ([], [])) as [working out]. cbn [fst snd].
  match goal with
  | |- context [update_device_list ?x] =>
      pose proof (update_device_list_frame x) as (F & _);
      destruct (update_device_list x) as [g1|e g1]
  end; cbn [final] in *.
  - destruct working; simpl; split; auto.
  - simpl. split; auto.
Qed.

(** C5. When the discovery call returns, the device mapping becomes
    exactly the devices of that pass whose connectivity update
    returned: whatever the mapping held before is gone.  An address
    that is absent from the discovery result is then neither a key of
    the mapping nor a displayed row of the list. *)
Theorem discovery_replaces_mapping :
  forall k g found,
    discover k (auth_of (credentials g)) = Returned found ->
    NoDup (Dict.keys found) ->
    devices (_discover_devices k g) = working_of k found /\
    (forall ip,
       ~ In ip (Dict.keys found) ->
       ~ In ip (Dict.keys (devices (_discover_devices k g))) /\
       (forall t, tree g = Some t -> tree_ok t ->
          exists t', tree (_discover_devices k g) = Some t' /\
                     ~ In ip (get_children t'))).
Proof.
  intros k g found Hd Hnd.
  destruct (discover_result k g found Hd) as [Hdev Htree].
  assert (Hw : devices (_discover_devices k g) = working_of k found).
  { rewrite Hdev. rewrite probe_fold; [reflexivity | intros ip _ [] | assumption]. }
  split; [exact Hw|].
  intros ip Hout. split.
  - rewrite Hw. intros Hin. apply Hout. eapply keys_working_of. exact Hin.
  - intros t Ht Hok. rewrite Htree.
    match goal with
    | |- context [update_device_list ?x] =>
        destruct (update_device_list_visible x t) as (t' & Ht' & _ & Hv);
        [exact Ht | exact Hok |]
    end.
    exists t'. split; [exact Ht'|].
    intros Hin. apply Hv in Hin. cbn [devices set_devices] in Hin.
    rewrite probe_fold in Hin; [| intros ? _ [] | assumption].
    apply Hout. eapply keys_working_of. exact Hin.
Qed.

(** ** Batch control *)

Lemma tally_fold k turn_on ds :
  forall s f out,
    exists out',
      fold_left tally
        (map (fun entry => (fst entry, turn k turn_on (fst entry) (snd entry))) ds)
        (s, f, out) =
      (s + successes k turn_on ds, f + failures k turn_on ds, out').
Proof.
  unfold successes, failures, control_ko, control_ok.
  induction ds as [|[ip d] r IH]; intros s f out.
  - exists out. simpl. rewrite !Nat.add_0_r. reflexivity.
  - cbn [map fold_left fst snd filter tally].
    destruct (turn k turn_on ip d) as [d'|e]; cbn [returns negb].
    + destruct (IH (S s) f out) as [out' E]. exists out'. rewrite E.
      cbn [List.length]. f_equal. f_equal. lia.
    + destruct (IH s (S f) (out ++ [control_error ip e])%list) as [out' E].
      exists out'. rewrite E. cbn [List.length]. f_equal. f_equal. lia.
Qed.

Lemma successes_failures k turn_on ds :
  successes k turn_on ds + failures k turn_on ds = List.length ds.
Proof.
  unfold successes, failures, control_ko.
  induction ds as [|entry r IH]; [reflexivity|].
  simpl. destruct (control_ok k turn_on entry); simpl; lia.
Qed.

Lemma keys_after_control k turn_on ds :
  Dict.keys (after_control k turn_on ds) = Dict.keys ds.
Proof.
  unfold Dict.keys, after_control. rewrite map_map. apply map_ext. reflexivity.
Qed.

Lemma keys_after_refresh k ds : Dict.keys (after_refresh k ds) = Dict.keys ds.
Proof.
  unfold Dict.keys, after_refresh. rewrite map_map. apply map_ext. reflexivity.
Qed.

Lemma calls_after_control k turn_on ds :
  map (fun entry : string * device => CallUpdate (fst entry) 10) (after_control k turn_on ds) =
  map (fun entry => CallUpdate (fst entry) 10) ds.
Proof. unfold after_control. rewrite map_map. apply map_ext. reflexivity. Qed.

Lemma turn_all_unfold k turn_on g :
  exists out,
    _turn_all_devices k turn_on g =
    match update_device_list (before_redraw k turn_on g out) with
    | Raised e g' => control_failed e g'
    | Normal g' =>
        if (failures k turn_on (devices g) =? 0)%nat
        then set_status g' (all_message (successes k turn_on (devices g)) (action_of turn_on))
        else set_status g' (some_message (successes k turn_on (devices g))
                              (failures k turn_on (devices g)) (action_of turn_on))
    end.
Proof.
  destruct (tally_fold k turn_on (devices g) 0 0 []) as [out E].
  exists out. unfold _turn_all_devices, before_redraw.
  cbn [devices set_status issue]. rewrite E. cbn [Nat.add].
  cbn [devices set_devices print issue].
  fold (after_control k turn_on (devices g)).
  rewrite calls_after_control.
  fold (after_refresh k (after_control k turn_on (devices g))).
  reflexivity.
Qed.

(** The batch operation in a state where no device is hidden by the
    filter. *)
Lemma turn_all_normal k turn_on g t :
  tree g = Some t -> tree_ok t -> NoDup (Dict.keys (devices g)) -> no_device_hidden g t ->
  exists out out',
    _turn_all_devices k turn_on g =
    set_status
      (update_statistics
         (print
            (set_tree (before_redraw k turn_on g out)
               {| children := map row_for (after_refresh k (after_control k turn_on (devices g)));
                  detached := detached t |})
            out'))
      (if (failures k turn_on (devices g) =? 0)%nat
       then all_message (successes k turn_on (devices g)) (action_of turn_on)
       else some_message (successes k turn_on (devices g))
              (failures k turn_on (devices g)) (action_of turn_on)).
Proof.
  intros Ht Hok Hnd Hfree.
  destruct (turn_all_unfold k turn_on g) as [out E]. exists out.
  destruct (update_device_list_normal (before_redraw k turn_on g out) t) as [out' E'].
  - exact Ht.
  - exact Hok.
  - cbn [before_redraw devices set_devices].
    rewrite keys_after_refresh, keys_after_control. exact Hnd.
  - cbn [before_redraw devices set_devices].
    rewrite keys_after_refresh, keys_after_control. exact Hfree.
  - exists out'. rewrite E, E'. cbn [before_redraw devices set_devices].
    destruct (failures k turn_on (devices g) =? 0)%nat; reflexivity.
Qed.

Lemma turn_all_frame k turn_on g :
  calls (_turn_all_devices k turn_on g) =
    (calls g ++ map (fun entry => CallTurn turn_on (fst entry) 10) (devices g)
       ++ [Sleep 1000]
       ++ map (fun entry => CallUpdate (fst entry) 10) (devices g))%list /\
  devices (_turn_all_devices k turn_on g) =
    after_refresh k (after_control k turn_on (devices g)).
Proof.
  destruct (turn_all_unfold k turn_on g) as [out E]. rewrite E. clear E.
  destruct (update_device_list_frame (before_redraw k turn_on g out)) as (Fd & Fc & _).
  destruct (update_device_list (before_redraw k turn_on g out)) as [g1|e g1];
    cbn [final] in Fd, Fc.
  - destruct (failures k turn_on (devices g) =? 0)%nat;
      cbn [calls devices set_status]; rewrite Fd, Fc;
      cbn [calls devices before_redraw set_devices issue print set_status];
      rewrite <- !app_assoc; split; reflexivity.
  - cbn [calls devices control_failed showerror print set_status]. rewrite Fd, Fc.
    cbn [calls devices before_redraw set_devices issue print set_status].
    rewrite <- !app_assoc. split; reflexivity.
Qed.

(** C2 (amended). A batch all-on or all-off over the N devices issues
    one control call per device, each under its own 10 second bound,
    then pauses, then issues one update call per device, whatever the
    control calls did; the calls that returned and the calls that
    raised add up to N.  In a state where no device of the mapping is
    hidden by the filter, the list is then redrawn from the refreshed
    handles, and the status line is built from the two counts and the
    action only: [All <n> devices turned <action>] when none failed,
    [<n> devices turned <action>, <m> failed] otherwise. *)
Theorem batch_control_isolated :
  forall k turn_on g,
    successes k turn_on (devices g) + failures k turn_on (devices g) =
      List.length (devices g) /\
    calls (_turn_all_devices k turn_on g) =
      (calls g ++ map (fun entry => CallTurn turn_on (fst entry) 10) (devices g)
         ++ [Sleep 1000]
         ++ map (fun entry => CallUpdate (fst entry) 10) (devices g))%list /\
    devices (_turn_all_devices k turn_on g) =
      after_refresh k (after_control k turn_on (devices g)) /\
    (forall t,
       tree g = Some t -> tree_ok t -> NoDup (Dict.keys (devices g)) ->
       no_device_hidden g t ->
       tree (_turn_all_devices k turn_on g) =
         Some {| children := map row_for (devices (_turn_all_devices k turn_on g));
                 detached := detached t |} /\
       status_var (_turn_all_devices k turn_on g) =
         (if (failures k turn_on (devices g) =? 0)%nat
          then all_message (successes k turn_on (devices g)) (action_of turn_on)
          else some_message (successes k turn_on (devices g))
                 (failures k turn_on (devices g)) (action_of turn_on))).
Proof.
  intros k turn_on g.
  split; [apply successes_failures|].
  destruct (turn_all_frame k turn_on g) as [Hc Hd].
  split; [exact Hc|]. split; [exact Hd|].
  intros t Ht Hok Hnd Hfree. rewrite Hd.
  destruct (turn_all_normal k turn_on g t Ht Hok Hnd Hfree) as (out & out' & E).
  rewrite E. clear E.
  match goal with
  | |- context [update_statistics ?x] =>
      destruct (update_statistics_frame x) as (_ & Ft & _)
  end.
  cbn [tree status_var set_status]. rewrite Ft.
  cbn [tree print set_tree]. split; reflexivity.
Qed.

(** ** Rendering with unreadable attributes *)

Lemma get_status_display_unknown d :
  unreadable (is_on d) -> get_status_display d = status_unknown.
Proof. unfold get_status_display. destruct (is_on d); simpl; tauto. Qed.

Lemma row_tag_unknown d : unreadable (is_on d) -> row_tag d = "unknown".
Proof. unfold row_tag. destruct (is_on d); simpl; tauto. Qed.

Lemma row_for_unknown ip d :
  unreadable (is_on d) ->
  iid (row_for (ip, d)) = ip /\
  state_label (row_for (ip, d)) = status_unknown /\
  tags (row_for (ip, d)) = ["unknown"].
Proof.
  intros H. split; [apply iid_row_for|].
  unfold row_for, row_values, bind, state_label. cbn [fst snd].
  destruct (getattr (alias d) _); [|split; reflexivity].
  destruct (get_device_icon d); [|split; reflexivity].
  cbn [values tags nth]. rewrite get_status_display_unknown, row_tag_unknown by assumption.
  split; reflexivity.
Qed.

Lemma clear_raises_widget_error l t e t' :
  for_each delete_row l t = Raised e t' -> widget_error e.
Proof.
  revert t. induction l as [|i r IH]; intros t; [discriminate|].
  cbn [for_each]. unfold delete_row at 1, tree_delete.
  destruct (tree_exists t i).
  - apply IH.
  - intros H. inversion H. exists i. left. reflexivity.
Qed.

Lemma add_rows_raise_widget_error ds st e st' :
  for_each add_row ds st = Raised e st' -> widget_error e.
Proof.
  revert st. induction ds as [|entry r IH]; intros [t out]; [discriminate|].
  cbn [for_each]. destruct (tree_exists t (fst entry)) eqn:Ex.
  - destruct (add_row_taken t out entry Ex) as [out1 E]. rewrite E.
    intros H. inversion H. exists (fst entry). right. reflexivity.
  - destruct (add_row_free t out entry Ex) as [out1 E]. rewrite E. apply IH.
Qed.

Lemma existsb_has_iid_ids i l l' :
  map iid l = map iid l' -> existsb (has_iid i) l = existsb (has_iid i) l'.
Proof.
  revert l'. induction l as [|it r IH]; intros [|it' r'] H; try discriminate; [reflexivity|].
  simpl in H. injection H as H1 H2. simpl. unfold has_iid at 1 3. rewrite H1.
  f_equal. apply IH. exact H2.
Qed.

Lemma tree_exists_same_ids t t' i :
  same_ids t t' -> tree_exists t i = tree_exists t' i.
Proof.
  intros [Hc Hd]. unfold tree_exists.
  rewrite (existsb_has_iid_ids i _ _ Hc), (existsb_has_iid_ids i _ _ Hd). reflexivity.
Qed.

(** Whether the rendering loop raises, and which identifiers it
    shows, depends on the keys of the mapping and on the identifiers
    in the widget only, not on what the devices are. *)
Lemma add_rows_same_ids ds :
  forall ds' t t' out out',
    Dict.keys ds = Dict.keys ds' -> same_ids t t' ->
    is_normal (for_each add_row ds (t, out)) = is_normal (for_each add_row ds' (t', out')) /\
    same_ids (fst (final (for_each add_row ds (t, out))))
             (fst (final (for_each add_row ds' (t', out')))).
Proof.
  induction ds as [|entry r IH]; intros [|entry' r'] t t' out out' Hk Hs;
    try discriminate; [split; [reflexivity | exact Hs]|].
  unfold Dict.keys in Hk. simpl in Hk. injection Hk as Hk1 Hk2.
  cbn [for_each].
  pose proof (tree_exists_same_ids t t' (fst entry) Hs) as Hex.
  destruct (tree_exists t (fst entry)) eqn:Ex.
  - destruct (add_row_taken t out entry Ex) as [o1 E1].
    destruct (add_row_taken t' out' entry') as [o2 E2];
      [rewrite <- Hk1, <- Hex; reflexivity|].
    rewrite E1, E2. split; [reflexivity | exact Hs].
  - destruct (add_row_free t out entry Ex) as [o1 E1].
    destruct (add_row_free t' out' entry') as [o2 E2];
      [rewrite <- Hk1, <- Hex; reflexivity|].
    rewrite E1, E2. apply IH; [exact Hk2|].
    destruct Hs as [Hc Hd]. split; cbn [children detached]; [|exact Hd].
    rewrite !map_app, Hc. simpl. rewrite !iid_row_for, Hk1. reflexivity.
Qed.

Lemma shown_update_statistics g : shown (update_statistics g) = shown g.
Proof.
  unfold shown. destruct (update_statistics_frame g) as (_ & H & _). rewrite H. reflexivity.
Qed.

Lemma redraw_independent_of_attributes g ds' :
  Dict.keys ds' = Dict.keys (devices g) ->
  is_normal (update_device_list (set_devices g ds')) = is_normal (update_device_list g) /\
  shown (final (update_device_list (set_devices g ds'))) =
  shown (final (update_device_list g)).
Proof.
  intros Hk. unfold update_device_list. cbn [tree devices set_devices].
  destruct (tree g) as [t|]; [|split; reflexivity].
  destruct (for_each delete_row (get_children t) t) as [t1|e t1]; [|split; reflexivity].
  destruct (add_rows_same_ids ds' (devices g) t1 t1 [] [] Hk (conj eq_refl eq_refl))
    as [Hn [Hc _]].
  destruct (for_each add_row ds' (t1, [])) as [[t2 o2]|e2 [t2 o2]];
    destruct (for_each add_row (devices g) (t1, [])) as [[t3 o3]|e3 [t3 o3]];
    cbn [is_normal final fst] in *; try discriminate;
    rewrite ?shown_update_statistics; unfold shown, get_children;
    cbn [tree print set_tree]; split; try reflexivity; exact Hc.
Qed.

(** C6 (amended). A device whose on/off state cannot be read (the
    attribute is absent or raises) gets the label Unknown: [get_status_display]
    returns it, and so does the row the redraw builds for the device,
    also when another attribute access of the row fails (the row is
    then the fall-back row).  Attribute accesses never make the
    redraw raise: whether it raises, and which rows it shows, is the
    same for any devices under the same keys, and an exception it
    raises is an error of the Treeview itself.  In a state with
    unique identifiers where no device of the mapping is hidden by the
    filter, the redraw ends normally with one row per device of the
    mapping, in order. *)
Theorem unreadable_state_renders_unknown :
  (forall d, unreadable (is_on d) ->
     get_status_display d = status_unknown) /\
  (forall ip d, unreadable (is_on d) ->
     iid (row_for (ip, d)) = ip /\
     state_label (row_for (ip, d)) = status_unknown /\
     tags (row_for (ip, d)) = ["unknown"]) /\
  (forall ip d e, row_values ip d = Raise e -> row_for (ip, d) = fallback_row ip) /\
  (forall g ds', Dict.keys ds' = Dict.keys (devices g) ->
     is_normal (update_device_list (set_devices g ds')) = is_normal (update_device_list g) /\
     shown (final (update_device_list (set_devices g ds'))) =
     shown (final (update_device_list g))) /\
  (forall g t e g', tree g = Some t ->
     update_device_list g = Raised e g' -> widget_error e) /\
  (forall g t,
     tree g = Some t -> tree_ok t -> NoDup (Dict.keys (devices g)) ->
     no_device_hidden g t ->
     exists g',
       update_device_list g = Normal g' /\
       tree g' = Some {| children := map row_for (devices g); detached := detached t |} /\
       shown g' = Dict.keys (devices g)).
Proof.
  split; [exact get_status_display_unknown|].
  split; [exact row_for_unknown|].
  split; [intros ip d e H; unfold row_for; cbn [fst snd]; rewrite H; reflexivity|].
  split; [exact redraw_independent_of_attributes|].
  split.
  - intros g t e g' Ht. unfold update_device_list. rewrite Ht.
    destruct (for_each delete_row (get_children t) t) as [t1|e1 t1] eqn:E1.
    + destruct (for_each add_row (devices g) (t1, [])) as [[t2 out]|e2 [t2 out]] eqn:E2;
        [discriminate|].
      intros H. inversion H. subst. eapply add_rows_raise_widget_error. exact E2.
    + intros H. inversion H. subst. eapply clear_raises_widget_error. exact E1.
  - intros g t Ht Hok Hnd Hfree.
    destruct (update_device_list_normal g t Ht Hok Hnd Hfree) as [out E].
    eexists. split; [exact E|].
    rewrite shown_update_statistics.
    match goal with
    | |- context [update_statistics ?x] =>
        destruct (update_statistics_frame x) as (_ & Ft & _)
    end.
    rewrite Ft. unfold shown. cbn [tree print set_tree]. split; [reflexivity|].
    unfold get_children. cbn [children]. rewrite map_map.
    apply map_ext. intros entry. apply iid_row_for.
Qed.

(** ** The search filter *)

Lemma hide_rows query l :
  forall det,
    NoDup (map iid (l ++ det)%list) ->
    (forall it, In it l ->
       values it <> [] /\ PyStr.contains query (row_text it) = false) ->
    for_each (filter_row query) (map iid l) {| children := l; detached := det |} =
    Normal {| children := []; detached := (rev l ++ det)%list |}.
Proof.
  induction l as [|it r IH]; intros det Hnd Hno; [reflexivity|].
  assert (Hnd' : NoDup (map iid (r ++ it :: det)%list)).
  { eapply Permutation_NoDup; [|exact Hnd].
    apply Permutation_map. apply (Permutation_middle r det it). }
  simpl in Hnd. apply NoDup_cons_iff in Hnd as [Hhead _].
  rewrite map_app, in_app_iff in Hhead.
  destruct (Hno it (or_introl eq_refl)) as [Hval Hmiss].
  cbn [map for_each]. unfold filter_row at 1, item_values, tree_find.
  cbn [children detached app find].
  assert (E : has_iid (iid it) it = true) by (apply has_iid_true; reflexivity).
  rewrite E. destruct (values it) as [|v vs] eqn:Ev; [congruence|].
  unfold row_text in Hmiss. rewrite Ev in Hmiss. rewrite Hmiss.
  unfold tree_detach. cbn [children detached find]. rewrite E.
  rewrite remove_iid_head by tauto.
  rewrite IH; [| exact Hnd' | intros it' Hin; apply Hno; right; exact Hin].
  cbn [rev]. rewrite <- app_assoc. reflexivity.
Qed.

(** A query that matches no displayed row hides every row; the rows
    stay in the widget, detached. *)
Lemma search_no_match_hides_all g t query :
  tree g = Some t -> tree_ok t -> matches_no_row query t ->
  type_search query g =
  Normal (set_tree (set_search g query)
            {| children := []; detached := (rev (children t) ++ detached t)%list |}).
Proof.
  intros Ht Hok Hno. unfold type_search, on_search_changed.
  cbn [tree set_search search_var]. rewrite Ht.
  destruct t as [l det]. unfold get_children. cbn [children detached] in *.
  rewrite hide_rows; [reflexivity | exact Hok | exact Hno].
Qed.

(** With no row displayed the filter does nothing, whatever the
    query: it only visits the displayed rows. *)
Lemma search_visits_displayed_only g t query :
  tree g = Some t -> children t = [] ->
  type_search query g = Normal (set_tree (set_search g query) t).
Proof.
  intros Ht Hc. unfold type_search, on_search_changed.
  cbn [tree set_search search_var]. rewrite Ht. unfold get_children. rewrite Hc.
  reflexivity.
Qed.

(** C3 (the code departs from the claim). A query that matches no row
    hides every row, and no device is removed; but clearing the query
    afterwards restores nothing: the filter visits the displayed rows
    only, so in a state without displayed rows it changes nothing for
    any query.  On the list of the three sample devices, typing [zzz]
    hides all three rows, and clearing the box leaves all three
    hidden. *)
Theorem search_clear_keeps_rows_hidden :
  (forall g t query,
     tree g = Some t -> children t = [] ->
     type_search query g = Normal (set_tree (set_search g query) t)) /\
  shown discovered = ["10.0.0.1"; "10.0.0.2"; "10.0.0.3"] /\
  is_normal (type_search "zzz" discovered) = true /\
  shown (final (type_search "zzz" discovered)) = [] /\
  is_normal (type_search EmptyString (final (type_search "zzz" discovered))) = true /\
  shown (final (type_search EmptyString (final (type_search "zzz" discovered)))) = [] /\
  hidden (final (type_search EmptyString (final (type_search "zzz" discovered)))) =
    ["10.0.0.3"; "10.0.0.2"; "10.0.0.1"] /\
  devices (final (type_search EmptyString (final (type_search "zzz" discovered)))) =
    devices discovered.
Proof.
  split; [exact search_visits_displayed_only|].
  vm_compute. repeat split; reflexivity.
Qed.

Lemma search_clear_witness :
  type_search EmptyString (final (type_search "zzz" discovered)) =
  Normal (set_tree (set_search (final (type_search "zzz" discovered)) EmptyString)
            {| children := [];
               detached := rev (map row_for three_devices) |}).
Proof.
  refine (proj1 search_clear_keeps_rows_hidden _ _ EmptyString _ _).
  - vm_compute. reflexivity.
  - reflexivity.
Defined.

(** ** The sample scenario *)

Ltac distinct_strings :=
  repeat (apply NoDup_cons; [simpl; intuition discriminate|]); apply NoDup_nil.

Lemma discovered_tree :
  tree discovered = Some {| children := map row_for three_devices; detached := [] |}.
Proof. vm_compute. reflexivity. Qed.

Lemma discovered_tree_ok :
  tree_ok {| children := map row_for three_devices; detached := [] |}.
Proof. unfold tree_ok. vm_compute. distinct_strings. Qed.

Lemma discovered_keys : NoDup (Dict.keys (devices discovered)).
Proof. vm_compute. distinct_strings. Qed.

Lemma batch_control_witness :
  status_var (_turn_all_devices lab false discovered) =
  (if (failures lab false (devices discovered) =? 0)%nat
   then all_message (successes lab false (devices discovered)) (action_of false)
   else some_message (successes lab false (devices discovered))
          (failures lab false (devices discovered)) (action_of false)).
Proof.
  refine (proj2 (proj2 (proj2 (proj2 (batch_control_isolated lab false discovered))) _
                   discovered_tree discovered_tree_ok discovered_keys _)).
  intros i _ [].
Defined.

(** For three devices of which one control call times out, the status
    line reads [2 devices turned off, 1 failed], which is not the text
    [2 turned off, 1 failed]; and when a row was hidden by the filter
    before the batch, the redraw raises and the status line reports
    that instead of the counts. *)
Lemma batch_status_text :
  status_var (_turn_all_devices lab false discovered) = "2 devices turned off, 1 failed" /\
  String.eqb (status_var (_turn_all_devices lab false discovered))
    "2 turned off, 1 failed" = false /\
  hidden (final (type_search "b" discovered)) = ["10.0.0.3"; "10.0.0.1"] /\
  status_var (_turn_all_devices lab false (final (type_search "b" discovered))) =
    "Failed to control all devices: TclError - Item 10.0.0.1 already exists".
Proof. vm_compute. repeat split; reflexivity. Qed.

Lemma discovery_witness :
  devices discovered = working_of lab three_devices.
Proof.
  refine (proj1 (discovery_replaces_mapping lab (init NoFile) three_devices eq_refl _)).
  vm_compute. distinct_strings.
Defined.

Lemma manual_add_witness :
  Dict.lookup "10.0.0.7" (devices (_manual_add_device lab "10.0.0.7" discovered)) = Some devC /\
  Dict.lookup "10.0.0.1" (devices (_manual_add_device lab "10.0.0.7" discovered)) =
    Dict.lookup "10.0.0.1" (devices discovered).
Proof.
  destruct (manual_add_frame lab "10.0.0.7" discovered) as (H1 & H2 & _).
  destruct (H2 devC) as (_ & H3 & _).
  - exists devC. split; reflexivity.
  - split; [exact H3 | apply H1; discriminate].
Defined.

(** A device is found and updated, but reading its name for the
    status line raises: the add is reported as failed, and the new
    entry is in the mapping and in the list.  Likewise when the
    redraw raises because the filter had hidden a row: the add is
    reported as failed and the new entry is in the mapping. *)
Lemma manual_add_reported_failed :
  status_var (_manual_add_device (steady devY) "10.0.0.7" discovered) =
    "Failed to add device at 10.0.0.7: KasaException - connection lost" /\
  List.length (dialogs (_manual_add_device (steady devY) "10.0.0.7" discovered)) = 1 /\
  Dict.mem "10.0.0.7" (devices discovered) = false /\
  Dict.mem "10.0.0.7" (devices (_manual_add_device (steady devY) "10.0.0.7" discovered)) = true /\
  shown (_manual_add_device (steady devY) "10.0.0.7" discovered) =
    ["10.0.0.1"; "10.0.0.2"; "10.0.0.3"; "10.0.0.7"] /\
  status_var (_manual_add_device lab "10.0.0.9" (final (type_search "b" discovered))) =
    "Failed to add device at 10.0.0.9: TclError - Item 10.0.0.1 already exists" /\
  Dict.keys (devices (_manual_add_device lab "10.0.0.9" (final (type_search "b" discovered)))) =
    ["10.0.0.1"; "10.0.0.2"; "10.0.0.3"; "10.0.0.9"].
Proof. vm_compute. repeat split; reflexivity. Qed.

Lemma with_broken_keys : NoDup (Dict.keys (devices with_broken)).
Proof. vm_compute. distinct_strings. Qed.

Lemma unreadable_state_witness :
  exists g',
    update_device_list with_broken = Normal g' /\
    tree g' = Some {| children := map row_for (devices with_broken); detached := [] |} /\
    shown g' = Dict.keys (devices with_broken).
Proof.
  refine (proj2 (proj2 (proj2 (proj2 (proj2 unreadable_state_renders_unknown))))
            with_broken _ discovered_tree discovered_tree_ok with_broken_keys _).
  intros i _ [].
Defined.

(** C6, counterexample. The third discovered device has no readable
    on/off state.  Once the filter has hidden its row, the redraw
    raises when it comes to that device, in the [try] block and again
    in the [except] block: the redraw is aborted and the list shows no
    row for the device. *)
Lemma hidden_unreadable_device_gets_no_row :
  is_on devC = Missing /\
  Dict.keys (devices unknown_hidden) = ["10.0.0.1"; "10.0.0.2"; "10.0.0.3"] /\
  hidden unknown_hidden = ["10.0.0.3"] /\
  is_normal (update_device_list unknown_hidden) = false /\
  shown (final (update_device_list unknown_hidden)) = ["10.0.0.1"; "10.0.0.2"] /\
  stdout (final (update_device_list unknown_hidden)) =
    (stdout unknown_hidden ++
     ["Error adding device 10.0.0.3: Item 10.0.0.3 already exists"])%list.
Proof. vm_compute. repeat split; reflexivity. Qed.

(** ** Invariants

    The identifiers of a widget stay unique under every operation of
    the program, and the keys of the mapping stay unique: the
    hypotheses of that kind in the statements above hold in every
    state the program reaches from [init]. *)

Lemma for_each_invariant {S X} (P : S -> Prop) (body : S -> X -> outcome S) :
  (forall s x, P s -> P (final (body s x))) ->
  forall l s, P s -> P (final (for_each body l s)).
Proof.
  intros Hbody. induction l as [|x r IH]; intros s Hs; [exact Hs|].
  cbn [for_each]. specialize (Hbody s x Hs).
  destruct (body s x) as [s'|e s']; cbn [final] in *; [apply IH|]; assumption.
Qed.

Lemma NoDup_app_inv {A} (l1 l2 : list A) :
  NoDup (l1 ++ l2) ->
  NoDup l1 /\ NoDup l2 /\ forall a, In a l1 -> ~ In a l2.
Proof.
  intros H. split; [eapply NoDup_app_remove_r; exact H|].
  split; [eapply NoDup_app_remove_l; exact H|].
  induction l1 as [|x r IH]; intros a Ha; [destruct Ha|].
  simpl in H. apply NoDup_cons_iff in H as [Hx Hr].
  destruct Ha as [<-|Ha].
  - intros Hin. apply Hx. apply in_or_app. right. exact Hin.
  - apply IH; assumption.
Qed.

Lemma in_ids_remove i j l :
  In j (map iid (remove_iid i l)) <-> j <> i /\ In j (map iid l).
Proof.
  unfold remove_iid. rewrite !in_map_iff. split.
  - intros (it & Hj & Hin). apply filter_In in Hin as [Hin Hne].
    apply negb_true_iff, has_iid_false in Hne. split; [congruence|].
    exists it. auto.
  - intros (Hne & it & Hj & Hin). exists it. split; [exact Hj|].
    apply filter_In. split; [exact Hin|].
    apply negb_true_iff, has_iid_false. congruence.
Qed.

Lemma NoDup_ids_remove i l :
  NoDup (map iid l) -> NoDup (map iid (remove_iid i l)).
Proof.
  unfold remove_iid. induction l as [|it r IH]; intros H; [constructor|].
  simpl in H. apply NoDup_cons_iff in H as [Hx Hr]. simpl.
  destruct (negb (has_iid i it)); [|apply IH; exact Hr].
  simpl. constructor; [|apply IH; exact Hr].
  intros Hin. apply Hx. apply (in_ids_remove i). exact Hin.
Qed.

Lemma tree_ok_parts t :
  tree_ok t <->
  NoDup (map iid (children t)) /\ NoDup (map iid (detached t)) /\
  forall i, In i (map iid (children t)) -> ~ In i (map iid (detached t)).
Proof.
  unfold tree_ok. rewrite map_app. split.
  - apply NoDup_app_inv.
  - intros (H1 & H2 & H3). apply NoDup_app; assumption.
Qed.

Lemma find_has_iid i l it :
  find (has_iid i) l = Some it -> iid it = i /\ In i (map iid l).
Proof.
  intros H. apply find_some in H as [Hin Hi]. apply has_iid_true in Hi.
  split; [exact Hi|]. subst i. apply in_map. exact Hin.
Qed.

Lemma tree_ok_empty : tree_ok empty_tree.
Proof. constructor. Qed.

Lemma tree_ok_delete t i t' : tree_ok t -> tree_delete t i = Ok t' -> tree_ok t'.
Proof.
  unfold tree_delete. destruct (tree_exists t i); [|discriminate].
  intros H E. injection E as <-. apply tree_ok_parts in H as (H1 & H2 & H3).
  apply tree_ok_parts. cbn [children detached].
  split; [apply NoDup_ids_remove; exact H1|].
  split; [apply NoDup_ids_remove; exact H2|].
  intros j Hj Hj'. apply in_ids_remove in Hj as [_ Hj]. apply in_ids_remove in Hj' as [_ Hj'].
  exact (H3 j Hj Hj').
Qed.

Lemma tree_ok_insert t it t' : tree_ok t -> tree_insert_end t it = Ok t' -> tree_ok t'.
Proof.
  unfold tree_insert_end. destruct (tree_exists t (iid it)) eqn:Ex; [discriminate|].
  intros H E. injection E as <-. apply tree_exists_false in Ex.
  rewrite map_app, in_app_iff in Ex.
  apply tree_ok_parts in H as (H1 & H2 & H3).
  apply tree_ok_parts. cbn [children detached]. rewrite map_app. simpl.
  split; [|split; [exact H2|]].
  - apply NoDup_app; [exact H1 | repeat constructor; intros [] |].
    intros a Ha [<-|[]]. tauto.
  - intros j Hj. apply in_app_iff in Hj as [Hj|[<-|[]]]; [apply H3; exact Hj | tauto].
Qed.

Lemma tree_ok_detach t i t' : tree_ok t -> tree_detach t i = Ok t' -> tree_ok t'.
Proof.
  unfold tree_detach. intros H.
  destruct (find (has_iid i) (children t)) as [it|] eqn:Ef.
  - intros E. injection E as <-. apply find_has_iid in Ef as [Hi Hin].
    apply tree_ok_parts in H as (H1 & H2 & H3).
    apply tree_ok_parts. cbn [children detached map].
    split; [apply NoDup_ids_remove; exact H1|]. split.
    + constructor; [|exact H2]. rewrite Hi. apply H3. exact Hin.
    + intros j Hj. apply in_ids_remove in Hj as [Hne Hj].
      intros [Hj'|Hj']; [congruence | exact (H3 j Hj Hj')].
  - destruct (existsb (has_iid i) (detached t)); [|discriminate].
    intros E. injection E as <-. exact H.
Qed.

Lemma tree_ok_reattach t i t' : tree_ok t -> tree_reattach_end t i = Ok t' -> tree_ok t'.
Proof.
  unfold tree_reattach_end, tree_find. intros H.
  destruct (find (has_iid i) (children t ++ detached t)%list) as [it|] eqn:Ef; [|discriminate].
  intros E. injection E as <-. apply find_has_iid in Ef as [Hi _].
  apply tree_ok_parts in H as (H1 & H2 & H3).
  apply tree_ok_parts. cbn [children detached]. rewrite map_app. simpl.
  split; [|split; [apply NoDup_ids_remove; exact H2|]].
  - apply NoDup_app; [apply NoDup_ids_remove; exact H1 | repeat constructor; intros [] |].
    intros a Ha [<-|[]]. apply in_ids_remove in Ha as [Hne _]. congruence.
  - intros j Hj Hj'. apply in_ids_remove in Hj' as [Hne Hj'].
    apply in_app_iff in Hj as [Hj|[<-|[]]]; [|congruence].
    apply in_ids_remove in Hj as [_ Hj]. exact (H3 j Hj Hj').
Qed.

Lemma tree_ok_delete_row t i : tree_ok t -> tree_ok (final (delete_row t i)).
Proof.
  intros H. unfold delete_row. destruct (tree_delete t i) eqn:E; cbn [final]; [|exact H].
  eapply tree_ok_delete; eassumption.
Qed.

Lemma tree_ok_add_row st entry : tree_ok (fst st) -> tree_ok (fst (final (add_row st entry))).
Proof.
  destruct st as [t out]. destruct entry as [ip d]. cbn [fst]. intros H. unfold add_row.
  destruct (bind (row_values ip d) (fun it => tree_insert_end t it)) as [t'|e] eqn:E.
  - cbn [final fst]. unfold bind in E. destruct (row_values ip d) as [it|]; [|discriminate].
    eapply tree_ok_insert; eassumption.
  - destruct (tree_insert_end t (fallback_row ip)) as [t'|e'] eqn:E'; cbn [final fst];
      [eapply tree_ok_insert; eassumption | exact H].
Qed.

Lemma tree_ok_filter_row q t i : tree_ok t -> tree_ok (final (filter_row q t i)).
Proof.
  intros H. unfold filter_row. destruct (item_values t i) as [[|v vs]|e]; cbn [final];
    try exact H.
  destruct (PyStr.contains q _).
  - destruct (tree_reattach_end t i) eqn:E; cbn [final]; [|exact H].
    eapply tree_ok_reattach; eassumption.
  - destruct (tree_detach t i) eqn:E; cbn [final]; [|exact H].
    eapply tree_ok_detach; eassumption.
Qed.

Lemma widget_ok_init f : widget_ok (init f).
Proof. exact tree_ok_empty. Qed.

Lemma widget_ok_update_device_list g :
  widget_ok g -> widget_ok (final (update_device_list g)).
Proof.
  unfold widget_ok at 1. unfold update_device_list.
  destruct (tree g) as [t|] eqn:Ht;
    [|intros _; unfold widget_ok; cbn [final]; rewrite Ht; exact I].
  intros H.
  pose proof (for_each_invariant tree_ok delete_row tree_ok_delete_row (get_children t) t H)
    as H1.
  destruct (for_each delete_row (get_children t) t) as [t1|e t1]; cbn [final] in *;
    [|exact H1].
  pose proof (for_each_invariant (fun st => tree_ok (fst st)) add_row tree_ok_add_row
                (devices g) (t1, []) H1) as H2.
  destruct (for_each add_row (devices g) (t1, [])) as [[t2 out]|e [t2 out]];
    cbn [final fst] in *; [|exact H2].
  unfold widget_ok.
  destruct (update_statistics_frame (print (set_tree g t2) out)) as (_ & Ft & _).
  rewrite Ft. exact H2.
Qed.

Lemma widget_ok_on_search_changed g :
  widget_ok g -> widget_ok (final (on_search_changed g)).
Proof.
  unfold widget_ok at 1. unfold on_search_changed.
  destruct (tree g) as [t|] eqn:Ht; [|intros _; unfold widget_ok; cbn [final]; rewrite Ht; exact I].
  intros H.
  pose proof (for_each_invariant tree_ok _ (tree_ok_filter_row (search_term_of (search_var g)))
                (get_children t) t H) as H1.
  destruct (for_each _ (get_children t) t) as [t1|e t1]; cbn [final] in *; exact H1.
Qed.

Lemma working_of_unique k found :
  NoDup (Dict.keys found) -> NoDup (Dict.keys (working_of k found)).
Proof.
  unfold Dict.keys. induction found as [|[ip d] r IH]; intros H; [constructor|].
  simpl in H. apply NoDup_cons_iff in H as [Hx Hr].
  unfold working_of. cbn [flat_map fst snd]. fold (working_of k r).
  destruct (update k ip d); cbn [app map fst]; [|apply IH; exact Hr].
  constructor; [|apply IH; exact Hr].
  intros Hin. apply Hx. apply (keys_working_of k r ip). exact Hin.
Qed.

(** * Further properties *)

(** ** The credential loader: keys, line ends, quotes *)

Section StripMore.
Variable p : ascii -> bool.

Lemma lstrip_by_app_stop a c r :
  p c = false ->
  PyStr.lstrip_by p (a ++ String c r) = PyStr.lstrip_by p a ++ String c r.
Proof.
  intros Hc. induction a as [|x a IH]; cbn [String.append PyStr.lstrip_by].
  - rewrite Hc. reflexivity.
  - destruct (p x); [exact IH | reflexivity].
Qed.

Lemma rstrip_by_app_stop a c r :
  p c = false ->
  PyStr.rstrip_by p (a ++ String c r) = a ++ String c (PyStr.rstrip_by p r).
Proof.
  intros Hc. induction a as [|x a IH]; cbn [String.append].
  - apply rstrip_by_cons_keep. exact Hc.
  - rewrite rstrip_by_cons, IH. destruct a; reflexivity.
Qed.

Lemma lstrip_by_idem s : PyStr.lstrip_by p (PyStr.lstrip_by p s) = PyStr.lstrip_by p s.
Proof.
  induction s as [|c r IH]; [reflexivity|].
  cbn [PyStr.lstrip_by]. destruct (p c) eqn:Hc; [exact IH|].
  cbn [PyStr.lstrip_by]. rewrite Hc. reflexivity.
Qed.

Lemma strip_by_lstrip s : PyStr.strip_by p (PyStr.lstrip_by p s) = PyStr.strip_by p s.
Proof. unfold PyStr.strip_by. rewrite lstrip_by_idem. reflexivity. Qed.

Lemma first_is_lstrip s : first_is p (PyStr.lstrip_by p s) = false.
Proof.
  induction s as [|c r IH]; [reflexivity|].
  cbn [PyStr.lstrip_by]. destruct (p c) eqn:Hc; [exact IH|]. simpl. exact Hc.
Qed.

Lemma first_is_rstrip s : first_is p s = false -> first_is p (PyStr.rstrip_by p s) = false.
Proof.
  destruct s as [|c r]; [reflexivity|]. simpl first_is at 1. intros Hc.
  rewrite rstrip_by_cons_keep by exact Hc. exact Hc.
Qed.

Lemma last_is_rstrip s : last_is p (PyStr.rstrip_by p s) = false.
Proof.
  induction s as [|c r IH]; [reflexivity|].
  rewrite rstrip_by_cons. destruct (PyStr.rstrip_by p r) as [|c' r'] eqn:E.
  - destruct (p c) eqn:Hc; [reflexivity|]. simpl. exact Hc.
  - exact IH.
Qed.

(** What [strip] returns neither starts nor ends with a stripped
    character. *)
Lemma strip_by_ends s :
  first_is p (PyStr.strip_by p s) = false /\ last_is p (PyStr.strip_by p s) = false.
Proof.
  unfold PyStr.strip_by. split; [|apply last_is_rstrip].
  apply first_is_rstrip, first_is_lstrip.
Qed.

End StripMore.

Lemma contains_char_lstrip ch q s :
  PyStr.contains_char ch s = false ->
  PyStr.contains_char ch (PyStr.lstrip_by q s) = false.
Proof.
  induction s as [|c r IH]; [reflexivity|].
  cbn [PyStr.lstrip_by]. destruct (q c); [|auto].
  simpl. intros H. apply orb_false_elim in H as [_ H]. apply IH. exact H.
Qed.

Lemma contains_char_app_hit ch a r : PyStr.contains_char ch (a ++ String ch r) = true.
Proof.
  induction a as [|c a IH]; simpl.
  - rewrite Ascii.eqb_refl. reflexivity.
  - rewrite IH. apply orb_true_r.
Qed.

Lemma split_first_app ch a r :
  PyStr.contains_char ch a = false ->
  PyStr.split_first ch (a ++ String ch r) = (a, r).
Proof.
  induction a as [|c a IH]; simpl.
  - rewrite Ascii.eqb_refl. reflexivity.
  - intros H. apply orb_false_elim in H as [Hc H]. rewrite Hc, (IH H). reflexivity.
Qed.

Lemma truthy_app_cons a c r : PyStr.truthy (a ++ String c r) = true.
Proof. destruct a; reflexivity. Qed.

Lemma startswith_app_cons ch a c r :
  PyStr.startswith_char ch a = false -> Ascii.eqb c ch = false ->
  PyStr.startswith_char ch (a ++ String c r) = false.
Proof. destruct a; simpl; auto. Qed.

(** X13. A line [a=w] whose part [a] before the first [=] is not a
    comment start assigns the value [w], stripped and unquoted, to the
    key [a] stripped of surrounding white space: to the user name for
    [KASA_USERNAME], to the password for [KASA_PASSWORD], and to
    nothing for any other key (keys are matched exactly, so a prefix
    such as [export] or another letter case makes the line void).  The
    white space is that of the ASCII range: the statement is for a key
    part and a value that, once stripped of it, neither start nor end
    with a character outside ASCII. *)
Theorem key_value_line :
  forall c a w,
    PyStr.contains_char "=" a = false ->
    PyStr.startswith_char "#" (PyStr.lstrip_by PyStr.is_space a) = false ->
    ascii_ends (PyStr.strip a) ->
    ascii_ends (PyStr.strip w) ->
    load_line c (a ++ "=" ++ w) = assign (PyStr.strip a) (unquote w) c.
Proof.
  intros c a w Heq Hhash _ _. cbn [String.append].
  assert (E : PyStr.strip (a ++ String "=" w) =
              PyStr.lstrip_by PyStr.is_space a ++
              String "=" (PyStr.rstrip_by PyStr.is_space w)).
  { unfold PyStr.strip, PyStr.strip_by.
    rewrite lstrip_by_app_stop by reflexivity. apply rstrip_by_app_stop. reflexivity. }
  unfold load_line. rewrite E, truthy_app_cons.
  rewrite startswith_app_cons by (assumption || reflexivity).
  rewrite contains_char_app_hit. cbn [andb negb].
  rewrite split_first_app by (apply contains_char_lstrip; assumption).
  fold (unquote (PyStr.rstrip_by PyStr.is_space w)).
  replace (unquote (PyStr.rstrip_by PyStr.is_space w)) with (unquote w)
    by (unfold unquote; rewrite strip_after_rstrip; reflexivity).
  unfold PyStr.strip. rewrite !strip_by_lstrip. reflexivity.
Qed.

Lemma key_value_line_witness :
  load_line no_credentials ("  KASA_USERNAME  = 'me' ") =
  assign (PyStr.strip "  KASA_USERNAME  ") (unquote " 'me' ") no_credentials.
Proof.
  exact (key_value_line no_credentials "  KASA_USERNAME  " " 'me' " eq_refl eq_refl
           (conj eq_refl eq_refl) (conj eq_refl eq_refl)).
Defined.

Lemma no_newline_cons c r :
  no_newline (String c r) = true ->
  Ascii.eqb c PyStr.LF = false /\ Ascii.eqb c PyStr.CR = false /\ no_newline r = true.
Proof.
  simpl. intros H. apply andb_prop in H as [H Hr]. apply andb_prop in H as [H1 H2].
  apply negb_true_iff in H1, H2. auto.
Qed.

Lemma universal_newlines_line l rest :
  no_newline l = true ->
  PyStr.universal_newlines (l ++ rest) = l ++ PyStr.universal_newlines rest.
Proof.
  induction l as [|c r IH]; intros H; [reflexivity|].
  apply no_newline_cons in H as (_ & Hcr & Hr).
  cbn [String.append PyStr.universal_newlines]. rewrite Hcr, (IH Hr). reflexivity.
Qed.

(** The text after a line end of a file written from lines does not
    start with a line feed. *)
Lemma unlines_first eol ls last :
  line_end eol -> forallb no_newline ls = true -> no_newline last = true ->
  first_is (fun c => Ascii.eqb c PyStr.LF) (unlines eol ls ++ last) = false \/
  eol <> eol_mac.
Proof.
  intros He Hls Hlast. destruct He as [-> | [-> | ->]]; [right; discriminate ..|].
  left. destruct ls as [|l r]; cbn [unlines fold_right].
  - destruct last as [|c s]; [reflexivity|].
    apply no_newline_cons in Hlast as (H & _). exact H.
  - cbn [forallb] in Hls. apply andb_prop in Hls as [Hl _].
    destruct l as [|c s]; [reflexivity|].
    apply no_newline_cons in Hl as (H & _). exact H.
Qed.

Lemma universal_newlines_eol eol rest :
  line_end eol ->
  first_is (fun c => Ascii.eqb c PyStr.LF) rest = false \/ eol <> eol_mac ->
  PyStr.universal_newlines (eol ++ rest) = String PyStr.LF (PyStr.universal_newlines rest).
Proof.
  intros [-> | [-> | ->]] H; try reflexivity.
  destruct H as [H | H]; [|congruence].
  destruct rest as [|c s]; [reflexivity|].
  simpl in H. cbn [eol_mac String.append PyStr.universal_newlines].
  change (Ascii.eqb PyStr.CR PyStr.CR) with true. cbn iota. rewrite H. reflexivity.
Qed.


Lemma string_app_assoc (a b c : string) : (a ++ b) ++ c = a ++ (b ++ c).
Proof. induction a as [|x a IH]; simpl; [reflexivity|]. rewrite IH. reflexivity. Qed.

Lemma universal_newlines_plain s :
  no_newline s = true -> PyStr.universal_newlines s = s.
Proof.
  induction s as [|c r IH]; intros H; [reflexivity|].
  apply no_newline_cons in H as (_ & Hcr & Hr).
  cbn [PyStr.universal_newlines]. rewrite Hcr, (IH Hr). reflexivity.
Qed.

Lemma universal_newlines_unlines eol ls last :
  line_end eol -> forallb no_newline ls = true -> no_newline last = true ->
  PyStr.universal_newlines (unlines eol ls ++ last) = unlines eol_unix ls ++ last.
Proof.
  intros He Hls Hlast. induction ls as [|l r IH]; cbn [unlines fold_right].
  - apply universal_newlines_plain. exact Hlast.
  - cbn [forallb] in Hls. apply andb_prop in Hls as [Hl Hr].
    fold (unlines eol r). fold (unlines eol_unix r).
    rewrite !string_app_assoc.
    rewrite universal_newlines_line by exact Hl.
    rewrite universal_newlines_eol;
      [| exact He | apply unlines_first; assumption].
    rewrite (IH Hr). reflexivity.
Qed.

Lemma lines_keepends_line l rest :
  no_newline l = true ->
  PyStr.lines_keepends (l ++ String PyStr.LF rest) =
  (l ++ eol_unix) :: PyStr.lines_keepends rest.
Proof.
  induction l as [|c r IH]; intros H; [reflexivity|].
  apply no_newline_cons in H as (Hlf & _ & Hr).
  cbn [String.append PyStr.lines_keepends]. rewrite Hlf, (IH Hr). reflexivity.
Qed.

Lemma lines_keepends_plain s :
  no_newline s = true ->
  PyStr.lines_keepends s = match s with EmptyString => [] | _ => [s] end.
Proof.
  induction s as [|c r IH]; intros H; [reflexivity|].
  apply no_newline_cons in H as (Hlf & _ & Hr).
  cbn [PyStr.lines_keepends]. rewrite Hlf, (IH Hr). destruct r; reflexivity.
Qed.

Lemma lines_keepends_unlines ls last :
  forallb no_newline ls = true -> no_newline last = true ->
  PyStr.lines_keepends (unlines eol_unix ls ++ last) =
  (map (fun l => (l ++ eol_unix)%string) ls ++
   match last with EmptyString => [] | _ => [last] end)%list.
Proof.
  intros Hls Hlast. induction ls as [|l r IH]; cbn [unlines fold_right map app].
  - apply lines_keepends_plain. exact Hlast.
  - cbn [forallb] in Hls. apply andb_prop in Hls as [Hl Hr].
    fold (unlines eol_unix r). rewrite !string_app_assoc.
    cbn [eol_unix String.append].
    rewrite lines_keepends_line by exact Hl. rewrite (IH Hr). reflexivity.
Qed.

Lemma load_line_blank_tail c l tail :
  blank tail = true -> load_line c (l ++ tail) = load_line c l.
Proof. intros H. unfold load_line. rewrite strip_blank_tail by exact H. reflexivity. Qed.

Lemma fold_load_line_eol ls :
  forall c rest,
    fold_left load_line (map (fun l => (l ++ eol_unix)%string) ls ++ rest)%list c =
    fold_left load_line (ls ++ rest)%list c.
Proof.
  induction ls as [|l r IH]; intros c rest; [reflexivity|].
  cbn [map app fold_left]. rewrite load_line_blank_tail by reflexivity. apply IH.
Qed.

(** X14. A readable file written from lines gives the same
    credentials whichever line end it uses (LF, CR LF or a lone CR),
    with or without a line end after the last line: they are the
    credentials obtained by processing the lines one after the other,
    from the empty pair. *)
Theorem line_ends_do_not_matter :
  forall eol ls last,
    line_end eol -> forallb no_newline ls = true -> no_newline last = true ->
    fst (_load_credentials_from_env (Text (unlines eol ls ++ last))) =
    fold_left load_line (ls ++ [last])%list no_credentials.
Proof.
  intros eol ls last He Hls Hlast.
  cbn [_load_credentials_from_env fst]. unfold load_lines.
  rewrite universal_newlines_unlines by assumption.
  rewrite lines_keepends_unlines by assumption.
  rewrite fold_load_line_eol. destruct last as [|c r]; [|reflexivity].
  rewrite app_nil_r, fold_left_app. reflexivity.
Qed.

Lemma line_ends_witness :
  fst (_load_credentials_from_env
         (Text (unlines eol_dos ["KASA_USERNAME=a"; "KASA_USERNAME=b"] ++ "KASA_PASSWORD=p"))) =
  fold_left load_line ["KASA_USERNAME=a"; "KASA_USERNAME=b"; "KASA_PASSWORD=p"] no_credentials.
Proof.
  exact (line_ends_do_not_matter eol_dos ["KASA_USERNAME=a"; "KASA_USERNAME=b"]
           "KASA_PASSWORD=p" (or_intror (or_introl eq_refl)) eq_refl eq_refl).
Defined.

(** Every line leaves the pair as it is or stores an unquoted value
    in one of its two fields. *)
Lemma load_line_cases c line :
  load_line c line = c \/
  (exists v, load_line c line = {| username := unquote v; password := password c |}) \/
  (exists v, load_line c line = {| username := username c; password := unquote v |}).
Proof.
  unfold load_line.
  destruct (PyStr.truthy _ && negb _); [|auto].
  destruct (PyStr.contains_char "=" _); [|auto].
  destruct (PyStr.split_first "=" _) as [key value].
  destruct (String.eqb _ "KASA_USERNAME"); [right; left; exists value; reflexivity|].
  destruct (String.eqb _ "KASA_PASSWORD"); [right; right; exists value; reflexivity|].
  auto.
Qed.

Lemma unquote_ends v : no_apostrophe_ends (unquote v).
Proof. unfold unquote, PyStr.strip_char. apply strip_by_ends. Qed.

Lemma load_line_keeps_ends c line :
  no_apostrophe_ends (username c) /\ no_apostrophe_ends (password c) ->
  no_apostrophe_ends (username (load_line c line)) /\
  no_apostrophe_ends (password (load_line c line)).
Proof.
  intros [Hu Hp].
  destruct (load_line_cases c line) as [-> | [[v ->] | [v ->]]]; cbn [username password];
    auto using unquote_ends.
Qed.

Lemma load_lines_keeps_ends content c :
  no_apostrophe_ends (username c) /\ no_apostrophe_ends (password c) ->
  no_apostrophe_ends (username (load_lines content c)) /\
  no_apostrophe_ends (password (load_lines content c)).
Proof.
  unfold load_lines. generalize (PyStr.lines_keepends (PyStr.universal_newlines content)).
  intros ls. revert c. induction ls as [|l r IH]; intros c H; [exact H|].
  cbn [fold_left]. apply IH. apply load_line_keeps_ends. exact H.
Qed.

(** X15. Whatever [.env] holds, the user name and the password the
    loader returns never begin or end with a single quote: the last
    step of the unquoting strips them all, so a secret that really
    begins or ends with one cannot be loaded. *)
Theorem loaded_values_have_no_apostrophe_ends :
  forall f,
    no_apostrophe_ends (username (fst (_load_credentials_from_env f))) /\
    no_apostrophe_ends (password (fst (_load_credentials_from_env f))).
Proof.
  assert (H0 : no_apostrophe_ends (username no_credentials) /\
               no_apostrophe_ends (password no_credentials))
    by (repeat split; reflexivity).
  intros [|e|content|content e]; cbn [_load_credentials_from_env fst];
    try exact H0; apply load_lines_keeps_ends; exact H0.
Qed.

(** ** Statistics: bounds *)

Lemma sum_online_le ds : sum_over online_inc ds <= List.length ds.
Proof.
  induction ds as [|[ip d] r IH]; simpl; [lia|].
  assert (online_inc d <= 1).
  { unfold online_inc. destruct (reachability d) as [|v|e]; try destruct (truth v); lia. }
  lia.
Qed.

Lemma sum_active_le ds : sum_over active_inc ds <= List.length ds.
Proof.
  induction ds as [|[ip d] r IH]; simpl; [lia|].
  assert (active_inc d <= 1).
  { unfold active_inc. destruct (reachability d); destruct (is_on d) as [|w|e'];
      try destruct (truth w); lia. }
  lia.
Qed.

Lemma sum_counted_le ds :
  sum_over online_inc ds + sum_over offline_inc ds <= 2 * List.length ds.
Proof.
  induction ds as [|[ip d] r IH]; simpl; [lia|].
  assert (online_inc d + offline_inc d <= 2).
  { unfold online_inc, offline_inc, flag_raises.
    destruct (reachability d) as [|v|e]; try destruct (truth v);
      destruct (is_on d); simpl; lia. }
  lia.
Qed.

(** X11. For every mapping the counters satisfy: total is the number
    of devices, online and active are at most total, and online +
    offline lies between total and twice total.  The closing fall-back
    [online = total] of [update_statistics] is dead code: the counters
    and the lines printed are those the loop over the devices leaves. *)
Theorem statistics_bounds :
  forall ds,
    total (fst (count_statistics ds)) = List.length ds /\
    online (fst (count_statistics ds)) <= List.length ds /\
    active (fst (count_statistics ds)) <= List.length ds /\
    List.length ds <=
      online (fst (count_statistics ds)) + offline (fst (count_statistics ds)) /\
    online (fst (count_statistics ds)) + offline (fst (count_statistics ds)) <=
      2 * List.length ds /\
    count_statistics ds =
      fold_left count_device (Dict.vals ds)
        ({| total := List.length ds; online := 0; offline := 0; active := 0 |}, []).
Proof.
  intros ds. rewrite count_statistics_sums. cbn [total online offline active].
  split; [reflexivity|]. split; [apply sum_online_le|]. split; [apply sum_active_le|].
  split; [apply counted_at_least_total|]. split; [apply sum_counted_le|].
  unfold count_statistics.
  pose proof (fold_count_device ds
    {| total := List.length ds; online := 0; offline := 0; active := 0 |} []) as H.
  destruct (fold_left count_device (Dict.vals ds) _) as [c out].
  cbn [fst total online offline active] in H. subst c. cbn [online offline Nat.add].
  pose proof (counted_at_least_total ds) as Hc.
  destruct (sum_over online_inc ds =? 0)%nat eqn:E1; [|reflexivity].
  destruct (sum_over offline_inc ds =? 0)%nat eqn:E2; [|reflexivity].
  destruct (0 <? List.length ds)%nat eqn:E3; [|reflexivity].
  apply Nat.eqb_eq in E1, E2. apply Nat.ltb_lt in E3. lia.
Qed.

(** ** Icons *)

Lemma prefix_app sub post : String.prefix sub (sub ++ post) = true.
Proof.
  induction sub as [|c r IH]; simpl; [destruct post; reflexivity|].
  destruct (ascii_dec c c) as [_|N]; [exact IH | destruct N; reflexivity].
Qed.

Lemma contains_unfold sub s :
  PyStr.contains sub s =
  if String.prefix sub s then true
  else match s with
       | EmptyString => false
       | String _ r => PyStr.contains sub r
       end.
Proof. destruct s; reflexivity. Qed.

Lemma contains_app sub pre post : PyStr.contains sub (pre ++ sub ++ post) = true.
Proof.
  induction pre as [|c r IH].
  - cbn [String.append]. rewrite contains_unfold, prefix_app. reflexivity.
  - cbn [String.append]. rewrite contains_unfold.
    destruct (String.prefix sub (String c (r ++ sub ++ post))); [reflexivity | exact IH].
Qed.

Lemma lower_app a b : PyStr.lower (a ++ b) = PyStr.lower a ++ PyStr.lower b.
Proof. induction a as [|c r IH]; simpl; [reflexivity|]. rewrite IH. reflexivity. Qed.

Lemma contains_lower_word word pre w post :
  PyStr.lower w = word ->
  PyStr.contains word (PyStr.lower (pre ++ w ++ post)) = true.
Proof. intros <-. rewrite !lower_app. apply contains_app. Qed.

(** X12. The icon is chosen by the first category word found in the
    device type, an ASCII text, in any letter case and wherever the
    word stands: [plug] before [bulb] or [light], before [switch],
    before [strip].  So a type that mentions a plug always gets the
    plug icon; a type that mentions a bulb or a light but no plug gets
    the bulb icon even when it also mentions a switch or a strip; a
    type that mentions a switch and none of the words before gets the
    switch icon even when it also mentions a strip; and a type that
    mentions a strip and none of the words before gets the strip
    icon.  Without the attribute the icon is the generic one; it is
    the generic one too when the type mentions none of the words. *)
Theorem icon_by_first_category :
  forall d,
    (device_type d = Missing -> get_device_icon d = Ok icon_device) /\
    (forall pre w post,
       device_type d = Has (PyStr (pre ++ w ++ post)) ->
       ascii_text (pre ++ w ++ post) = true ->
       (PyStr.lower w = "plug" -> get_device_icon d = Ok icon_plug) /\
       (PyStr.lower w = "bulb" \/ PyStr.lower w = "light" ->
        PyStr.contains "plug" (PyStr.lower (pre ++ w ++ post)) = false ->
        get_device_icon d = Ok icon_bulb) /\
       (PyStr.lower w = "switch" ->
        PyStr.contains "plug" (PyStr.lower (pre ++ w ++ post)) = false ->
        PyStr.contains "bulb" (PyStr.lower (pre ++ w ++ post)) = false ->
        PyStr.contains "light" (PyStr.lower (pre ++ w ++ post)) = false ->
        get_device_icon d = Ok icon_switch) /\
       (PyStr.lower w = "strip" ->
        PyStr.contains "plug" (PyStr.lower (pre ++ w ++ post)) = false ->
        PyStr.contains "bulb" (PyStr.lower (pre ++ w ++ post)) = false ->
        PyStr.contains "light" (PyStr.lower (pre ++ w ++ post)) = false ->
        PyStr.contains "switch" (PyStr.lower (pre ++ w ++ post)) = false ->
        get_device_icon d = Ok icon_strip)) /\
    (forall v,
       device_type d = Has v ->
       ascii_text (py_str v) = true ->
       PyStr.contains "plug" (PyStr.lower (py_str v)) = false ->
       PyStr.contains "bulb" (PyStr.lower (py_str v)) = false ->
       PyStr.contains "light" (PyStr.lower (py_str v)) = false ->
       PyStr.contains "switch" (PyStr.lower (py_str v)) = false ->
       PyStr.contains "strip" (PyStr.lower (py_str v)) = false ->
       get_device_icon d = Ok icon_device).
Proof.
  intros d. unfold get_device_icon. split; [intros ->; reflexivity|]. split.
  - intros pre w post -> _. cbn [hasattr bind get py_str]. split; [|split; [|split]].
    + intros H. rewrite (contains_lower_word "plug" pre w post H). reflexivity.
    + intros [H|H] Hp; rewrite Hp.
      * rewrite (contains_lower_word "bulb" pre w post H). reflexivity.
      * rewrite (contains_lower_word "light" pre w post H), orb_true_r. reflexivity.
    + intros H Hp Hb Hl. rewrite Hp, Hb, Hl.
      rewrite (contains_lower_word "switch" pre w post H). reflexivity.
    + intros H Hp Hb Hl Hs. rewrite Hp, Hb, Hl, Hs.
      rewrite (contains_lower_word "strip" pre w post H). reflexivity.
  - intros v -> _ H1 H2 H3 H4 H5. cbn [hasattr bind get].
    rewrite H1, H2, H3, H4, H5. reflexivity.
Qed.

Lemma icon_witness :
  get_device_icon
    {| alias := Has (PyStr "Hall"); is_on := Missing; is_available := Missing;
       available := Missing; device_type := Has (PyStr "DeviceType.WallSwitchStrip") |} =
  Ok icon_switch.
Proof.
  exact (proj1 (proj2 (proj2
           (proj1 (proj2 (icon_by_first_category
              {| alias := Has (PyStr "Hall"); is_on := Missing; is_available := Missing;
                 available := Missing;
                 device_type := Has (PyStr "DeviceType.WallSwitchStrip") |}))
              "DeviceType.Wall" "Switch" "Strip" eq_refl eq_refl)))
           eq_refl eq_refl eq_refl eq_refl).
Defined.

(** ** The search filter: exact effect *)

Lemma find_head_iid x l : find (has_iid (iid x)) (x :: l) = Some x.
Proof. cbn [find]. unfold has_iid. rewrite String.eqb_refl. reflexivity. Qed.

Lemma filter_rows q s :
  forall m det,
    NoDup (map iid (s ++ m ++ det)%list) ->
    (forall it, In it s -> values it <> []) ->
    for_each (filter_row q) (map iid s) {| children := (s ++ m)%list; detached := det |} =
    Normal {| children := (m ++ filter (row_matches q) s)%list;
              detached := (rev (filter (row_misses q) s) ++ det)%list |}.
Proof.
  induction s as [|x s IH]; intros m det Hnd Hval.
  - cbn [map for_each app filter rev]. rewrite app_nil_r. reflexivity.
  - assert (Hx : ~ In (iid x) (map iid (s ++ m)%list) /\ ~ In (iid x) (map iid det)).
    { cbn [app map] in Hnd. apply NoDup_cons_iff in Hnd as [Hx _].
      rewrite app_assoc, map_app, in_app_iff in Hx. tauto. }
    destruct Hx as [Hx1 Hx2].
    destruct (values x) as [|v vs] eqn:Ev;
      [exfalso; apply (Hval x (or_introl eq_refl)); exact Ev|].
    assert (Hfilter : filter (row_matches q) (x :: s) =
                      if row_matches q x then x :: filter (row_matches q) s
                      else filter (row_matches q) s) by reflexivity.
    assert (Hmiss : filter (row_misses q) (x :: s) =
                    if row_matches q x then filter (row_misses q) s
                    else x :: filter (row_misses q) s).
    { cbn [filter]. unfold row_misses at 1. destruct (row_matches q x); reflexivity. }
    rewrite Hfilter, Hmiss. clear Hfilter Hmiss.
    assert (Em : PyStr.contains q (PyStr.join " " (map PyStr.lower (v :: vs))) =
                 row_matches q x).
    { unfold row_matches, row_text. rewrite Ev. reflexivity. }
    cbn [map for_each app].
    unfold filter_row at 1, item_values, tree_find. cbn [children detached app].
    rewrite find_head_iid, Ev, Em.
    destruct (row_matches q x).
    + unfold tree_reattach_end, tree_find. cbn [children detached app].
      rewrite find_head_iid, remove_iid_head by exact Hx1.
      rewrite remove_iid_absent by exact Hx2.
      rewrite <- app_assoc. rewrite IH.
      * rewrite <- app_assoc. reflexivity.
      * eapply Permutation_NoDup; [|exact Hnd]. apply Permutation_map.
        cbn [app]. rewrite <- (app_assoc m [x] det). cbn [app].
        rewrite !app_assoc. apply Permutation_middle.
      * intros it Hin. apply Hval. right. exact Hin.
    + unfold tree_detach. cbn [children detached].
      rewrite find_head_iid, remove_iid_head by exact Hx1.
      rewrite IH.
      * cbn [rev]. rewrite <- app_assoc. reflexivity.
      * eapply Permutation_NoDup; [|exact Hnd]. apply Permutation_map.
        cbn [app]. rewrite !app_assoc. apply Permutation_middle.
      * intros it Hin. apply Hval. right. exact Hin.
Qed.

Lemma type_search_exact g t query :
  tree g = Some t -> tree_ok t ->
  (forall it, In it (children t) -> values it <> []) ->
  type_search query g =
  Normal (set_tree (set_search g query)
            {| children := filter (row_matches (search_term_of query)) (children t);
               detached := (rev (filter (row_misses (search_term_of query)) (children t))
                              ++ detached t)%list |}).
Proof.
  intros Ht Hok Hval. unfold type_search, on_search_changed.
  cbn [tree set_search search_var]. rewrite Ht.
  destruct t as [l det]. unfold get_children. cbn [children detached] in *.
  pose proof (filter_rows (search_term_of query) l [] det) as H.
  rewrite app_nil_r in H. rewrite H; [reflexivity | exact Hok | exact Hval].
Qed.

Lemma contains_empty s : PyStr.contains EmptyString s = true.
Proof. rewrite contains_unfold. destruct s; reflexivity. Qed.

Lemma filter_all {A} (f : A -> bool) l : (forall x, f x = true) -> filter f l = l.
Proof.
  intros H. induction l as [|x r IH]; [reflexivity|]. simpl. rewrite H, IH. reflexivity.
Qed.

Lemma filter_none {A} (f : A -> bool) l : (forall x, f x = false) -> filter f l = [].
Proof.
  intros H. induction l as [|x r IH]; [reflexivity|]. simpl. rewrite H. exact IH.
Qed.

Lemma ascii_text_app a b : ascii_text (a ++ b) = ascii_text a && ascii_text b.
Proof.
  induction a as [|c r IH]; [reflexivity|].
  cbn [String.append ascii_text]. rewrite IH. apply andb_assoc.
Qed.

Lemma get_device_icon_icons d i : get_device_icon d = Ok i -> In i icons.
Proof.
  unfold get_device_icon, icons.
  destruct (device_type d) as [|v|e]; cbn [hasattr bind get]; [| |discriminate].
  - intros H. inversion H. simpl. auto 6.
  - repeat match goal with
           | |- context [if ?b then _ else _] => destruct b
           end; intros H; inversion H; simpl; auto 6.
Qed.

Lemma get_status_display_texts d : In (get_status_display d) status_texts.
Proof.
  unfold get_status_display, status_texts.
  destruct (get "is_on" (is_on d)) as [v|e]; [destruct (truth v)|]; simpl; auto.
Qed.

(** The rows that the redraw writes for devices with ASCII names under
    ASCII addresses are rows of that kind. *)
Lemma row_for_program_row ip d :
  ascii_text ip = true ->
  (forall v, alias d = Has v -> ascii_text (py_str v) = true) ->
  program_row (row_for (ip, d)).
Proof.
  intros Hip Hname.
  assert (Hfall : program_row (fallback_row ip)).
  { exists icon_device, ("Device " ++ ip), status_unknown.
    split; [simpl; auto 6|]. split; [rewrite ascii_text_app, Hip; reflexivity|].
    split; [simpl; auto|]. reflexivity. }
  unfold row_for, row_values. cbn [fst snd].
  destruct (getattr (alias d) (PyStr ("Device at " ++ ip))) as [name|e] eqn:En;
    cbn [bind]; [|exact Hfall].
  destruct (get_device_icon d) as [i|e] eqn:Ei; cbn [bind]; [|exact Hfall].
  exists i, (py_str name), (get_status_display d).
  split; [eapply get_device_icon_icons; exact Ei|].
  split.
  - unfold getattr in En. destruct (alias d) as [|v|e] eqn:Ea.
    + injection En as <-. change (ascii_text ("Device at " ++ ip) = true).
      rewrite ascii_text_app, Hip. reflexivity.
    + injection En as <-. apply Hname. reflexivity.
    + discriminate.
  - split; [apply get_status_display_texts | reflexivity].
Qed.

(** X7. On a list whose displayed rows are rows written by the redraw
    for devices with ASCII names, and for an ASCII query, the filter
    leaves displayed exactly the displayed rows whose text contains
    the lower-cased query, in their former order, and detaches the
    others; rows that were already hidden are not looked at.  An empty
    query, and the placeholder text in any letter case, keep every
    displayed row in place. *)
Theorem filter_shows_matching_rows :
  forall g t query,
    tree g = Some t -> tree_ok t ->
    (forall it, In it (children t) -> program_row it) ->
    ascii_text query = true ->
    type_search query g =
    Normal (set_tree (set_search g query)
              {| children := filter (row_matches (search_term_of query)) (children t);
                 detached := (rev (filter (row_misses (search_term_of query)) (children t))
                                ++ detached t)%list |}) /\
    (PyStr.lower query = EmptyString \/ PyStr.lower query = search_placeholder ->
     type_search query g = Normal (set_tree (set_search g query) t)).
Proof.
  intros g t query Ht Hok Hrows _.
  assert (Hval : forall it, In it (children t) -> values it <> []).
  { intros it Hin. destruct (Hrows it Hin) as (i & n & st & _ & _ & _ & E).
    rewrite E. discriminate. }
  pose proof (type_search_exact g t query Ht Hok Hval) as E.
  split; [exact E|].
  intros Hq. rewrite E.
  assert (Hterm : search_term_of query = EmptyString).
  { unfold search_term_of. destruct Hq as [-> | ->]; reflexivity. }
  rewrite Hterm.
  rewrite filter_all by (intros it; apply contains_empty).
  rewrite filter_none
    by (intros it; unfold row_misses, row_matches; rewrite contains_empty; reflexivity).
  destruct t; reflexivity.
Qed.

Lemma filter_shows_matching_rows_witness :
  type_search "SEARCH devices..." discovered =
  Normal (set_tree (set_search discovered "SEARCH devices...")
            {| children := map row_for three_devices; detached := [] |}).
Proof.
  refine (proj2 (filter_shows_matching_rows discovered _ "SEARCH devices..."
                   discovered_tree discovered_tree_ok _ eq_refl) (or_intror eq_refl)).
  intros it Hin. cbn [children map three_devices] in Hin.
  destruct Hin as [<- | [<- | [<- | []]]];
    apply row_for_program_row; try reflexivity;
    intros v Hv; inversion Hv; reflexivity.
Defined.

(** ** The search filter: sequences of queries *)

Lemma filter_split {A} (f : A -> bool) l :
  Permutation (filter f l ++ filter (fun x => negb (f x)) l) l.
Proof.
  induction l as [|x r IH]; [constructor|].
  cbn [filter]. destruct (f x); cbn [negb app].
  - constructor. exact IH.
  - apply Permutation_sym. eapply Permutation_trans; [|apply Permutation_middle].
    constructor. apply Permutation_sym. exact IH.
Qed.

Lemma type_search_step g t query :
  tree g = Some t -> rows_ok t ->
  exists t',
    tree (final (type_search query g)) = Some t' /\ rows_ok t' /\
    incl (get_children t') (get_children t) /\
    incl (map iid (detached t)) (map iid (detached t')) /\
    Permutation (children t' ++ detached t') (children t ++ detached t).
Proof.
  intros Ht [Hok Hval].
  assert (Hval' : forall it, In it (children t) -> values it <> [])
    by (intros it Hin; apply Hval, in_or_app; left; exact Hin).
  pose proof (type_search_exact g t query Ht Hok Hval') as E.
  pose proof (widget_ok_on_search_changed (set_search g query)) as Hw.
  fold (type_search query g) in Hw. unfold widget_ok at 1 in Hw.
  cbn [tree set_search] in Hw. rewrite Ht in Hw. specialize (Hw Hok).
  rewrite E in *. cbn [final] in *. unfold widget_ok in Hw. cbn [tree set_tree] in *.
  eexists. split; [reflexivity|].
  set (P := row_matches (search_term_of query)) in *.
  set (Q := row_misses (search_term_of query)) in *.
  assert (Hperm : Permutation (filter P (children t) ++ rev (filter Q (children t))
                                 ++ detached t)
                    (children t ++ detached t)).
  { rewrite app_assoc. apply Permutation_app_tail.
    eapply Permutation_trans; [|apply (filter_split P)].
    apply Permutation_app_head. apply Permutation_sym, Permutation_rev. }
  cbn [children detached]. split; [split; [exact Hw|]|split; [|split; [|exact Hperm]]].
  - intros it Hin. apply Hval. eapply Permutation_in; [exact Hperm | exact Hin].
  - unfold get_children. cbn [children]. intros i Hi.
    apply in_map_iff in Hi as (it & <- & Hin). apply filter_In in Hin as [Hin _].
    apply in_map. exact Hin.
  - intros i Hi. rewrite map_app. apply in_or_app. right. exact Hi.
Qed.

(** X8. Whatever queries are typed one after the other, on a list
    whose rows have column values: the filter never brings a hidden
    row back (the rows displayed afterwards were all displayed before,
    the rows hidden before are still hidden) and it never loses a row
    (displayed and hidden rows together are the same rows as
    before). *)
Theorem filter_only_narrows :
  forall queries g t,
    tree g = Some t -> rows_ok t ->
    incl (shown (type_all queries g)) (shown g) /\
    incl (hidden g) (hidden (type_all queries g)) /\
    Permutation (shown (type_all queries g) ++ hidden (type_all queries g))
                (shown g ++ hidden g).
Proof.
  induction queries as [|q r IH]; intros g t Ht Hok.
  - cbn [type_all fold_left]. split; [apply incl_refl|]. split; [apply incl_refl|].
    apply Permutation_refl.
  - cbn [type_all fold_left]. fold (type_all r (final (type_search q g))).
    destruct (type_search_step g t q Ht Hok) as (t' & Ht' & Hok' & H1 & H2 & H3).
    destruct (IH (final (type_search q g)) t' Ht' Hok') as (I1 & I2 & I3).
    assert (S1 : shown (final (type_search q g)) = get_children t')
      by (unfold shown; rewrite Ht'; reflexivity).
    assert (S2 : hidden (final (type_search q g)) = map iid (detached t'))
      by (unfold hidden; rewrite Ht'; reflexivity).
    assert (S3 : shown g = get_children t) by (unfold shown; rewrite Ht; reflexivity).
    assert (S4 : hidden g = map iid (detached t)) by (unfold hidden; rewrite Ht; reflexivity).
    rewrite S1, S2 in *. rewrite S3, S4.
    split; [eapply incl_tran; eassumption|]. split; [eapply incl_tran; eassumption|].
    eapply Permutation_trans; [exact I3|].
    unfold get_children. rewrite <- !map_app. apply Permutation_map. exact H3.
Qed.

Lemma discovered_rows_ok :
  rows_ok {| children := map row_for three_devices; detached := [] |}.
Proof.
  split; [exact discovered_tree_ok|].
  intros it Hin. vm_compute in Hin.
  destruct Hin as [<- | [<- | [<- | []]]]; discriminate.
Qed.

Lemma filter_only_narrows_witness :
  incl (shown (type_all ["zzz"; EmptyString; "a"] discovered)) (shown discovered).
Proof.
  exact (proj1 (filter_only_narrows ["zzz"; EmptyString; "a"] discovered _
                  discovered_tree discovered_rows_ok)).
Defined.

(** ** The redraw: when it raises, and what a second redraw does *)

Lemma for_each_app {S X} (body : S -> X -> outcome S) l1 l2 s :
  for_each body (l1 ++ l2)%list s =
  match for_each body l1 s with
  | Normal s' => for_each body l2 s'
  | Raised e s' => Raised e s'
  end.
Proof.
  revert s. induction l1 as [|x r IH]; intros s; [reflexivity|].
  cbn [app for_each]. destruct (body s x); [apply IH | reflexivity].
Qed.

Lemma stats_labels_update_statistics g :
  stats_labels (update_statistics g) = labels_for (devices g) (stats_labels g).
Proof.
  unfold update_statistics, labels_for.
  destruct (stats_labels g) eqn:E; [|exact E].
  destruct (count_statistics (devices g)). reflexivity.
Qed.

Lemma keys_row_for ds : map iid (map row_for ds) = Dict.keys ds.
Proof.
  unfold Dict.keys. rewrite map_map. apply map_ext. intros entry. apply iid_row_for.
Qed.

Lemma NoDup_app_l_keys {V} (pre post : list (string * V)) :
  NoDup (Dict.keys (pre ++ post)%list) -> NoDup (Dict.keys pre).
Proof. unfold Dict.keys. rewrite map_app. apply NoDup_app_remove_r. Qed.

Lemma first_hidden (hid : list string) (ds : list (string * device)) :
  (exists i, In i (Dict.keys ds) /\ In i hid) ->
  exists pre ip d post,
    ds = (pre ++ (ip, d) :: post)%list /\ In ip hid /\
    forall i, In i (Dict.keys pre) -> ~ In i hid.
Proof.
  induction ds as [|[ip d] r IH]; intros (i & Hi & Hh); [destruct Hi|].
  destruct (in_dec string_dec ip hid) as [Hin|Hout].
  - exists [], ip, d, r. split; [reflexivity|]. split; [exact Hin|]. intros j [].
  - destruct IH as (pre & ip' & d' & post & E & Hin' & Hpre).
    { exists i. split; [|exact Hh]. destruct Hi as [Hi|Hi]; [|exact Hi].
      simpl in Hi. subst. contradiction. }
    exists ((ip, d) :: pre), ip', d', post. split; [rewrite E; reflexivity|].
    split; [exact Hin'|]. intros j [Hj|Hj]; [simpl in Hj; subst; exact Hout | auto].
Qed.

Lemma redraw_raises g t pre ip d post :
  tree g = Some t -> tree_ok t -> NoDup (Dict.keys (devices g)) ->
  devices g = (pre ++ (ip, d) :: post)%list ->
  In ip (map iid (detached t)) ->
  (forall i, In i (Dict.keys pre) -> ~ In i (map iid (detached t))) ->
  exists out,
    update_device_list g =
    Raised (already_exists ip)
      (print (set_tree g {| children := map row_for pre; detached := detached t |}) out).
Proof.
  intros Ht Hok Hnd Hds Hin Hpre. unfold update_device_list. rewrite Ht.
  rewrite clear_tree by assumption. rewrite Hds in *.
  rewrite for_each_app.
  destruct (add_rows_free pre [] (detached t) []) as [out E].
  { eapply NoDup_app_l_keys. exact Hnd. }
  { intros i Hi. simpl. apply Hpre. exact Hi. }
  rewrite E. cbn [app for_each].
  destruct (add_row_taken {| children := map row_for pre; detached := detached t |}
              out (ip, d)) as [out' E'].
  { apply tree_exists_iff. cbn [children detached fst]. rewrite map_app.
    apply in_or_app. right. exact Hin. }
  rewrite E'. exists out'. reflexivity.
Qed.

(** X9. With unique identifiers and keys, the redraw ends normally
    exactly when no device of the mapping is hidden by the filter.
    Otherwise it raises at the first hidden device of the mapping,
    with the widget's error for an identifier that already exists:
    the list then shows the rows of the devices before that one only,
    the hidden rows stay hidden, and the statistics labels, the status
    line and the mapping are as before. *)
Theorem redraw_raises_iff_device_hidden :
  forall g t,
    tree g = Some t -> tree_ok t -> NoDup (Dict.keys (devices g)) ->
    (is_normal (update_device_list g) = true <-> no_device_hidden g t) /\
    (forall pre ip d post,
       devices g = (pre ++ (ip, d) :: post)%list ->
       In ip (map iid (detached t)) ->
       (forall i, In i (Dict.keys pre) -> ~ In i (map iid (detached t))) ->
       exists g',
         update_device_list g = Raised (already_exists ip) g' /\
         shown g' = Dict.keys pre /\
         hidden g' = hidden g /\
         devices g' = devices g /\
         stats_labels g' = stats_labels g /\
         status_var g' = status_var g).
Proof.
  intros g t Ht Hok Hnd.
  assert (R : forall pre ip d post,
             devices g = (pre ++ (ip, d) :: post)%list ->
             In ip (map iid (detached t)) ->
             (forall i, In i (Dict.keys pre) -> ~ In i (map iid (detached t))) ->
             exists g',
               update_device_list g = Raised (already_exists ip) g' /\
               shown g' = Dict.keys pre /\
               hidden g' = hidden g /\
               devices g' = devices g /\
               stats_labels g' = stats_labels g /\
               status_var g' = status_var g).
  { intros pre ip d post Hds Hin Hpre.
    destruct (redraw_raises g t pre ip d post Ht Hok Hnd Hds Hin Hpre) as [out E].
    eexists. split; [exact E|].
    unfold shown, hidden, get_children. cbn [tree print set_tree children detached].
    rewrite Ht, keys_row_for. repeat split; reflexivity. }
  split; [|exact R]. split.
  - intros Hn i Hi Hh.
    destruct (first_hidden (map iid (detached t)) (devices g)) as
      (pre & ip & d & post & E & Hin & Hpre); [exists i; auto|].
    destruct (R pre ip d post E Hin Hpre) as (g' & E' & _).
    rewrite E' in Hn. discriminate.
  - intros Hfree. destruct (update_device_list_normal g t Ht Hok Hnd Hfree) as [out E].
    rewrite E. reflexivity.
Qed.

Lemma redraw_raises_witness :
  is_normal (update_device_list (final (type_search "b" discovered))) = false.
Proof.
  destruct (redraw_raises_iff_device_hidden (final (type_search "b" discovered))
              {| children := [row_for ("10.0.0.2", devB)];
                 detached := [row_for ("10.0.0.3", devC); row_for ("10.0.0.1", devA)] |})
    as [_ R].
  - vm_compute. reflexivity.
  - unfold tree_ok. vm_compute. distinct_strings.
  - vm_compute. distinct_strings.
  - destruct (R [] "10.0.0.1" devA [("10.0.0.2", devB); ("10.0.0.3", devC)])
      as (g' & E & _).
    + reflexivity.
    + vm_compute. auto.
    + intros i [].
    + rewrite E. reflexivity.
Defined.

(** X10. In a state with unique identifiers and keys where no device
    is hidden, the redraw ends normally, shows one row per device in
    the order of the mapping, and sets the statistics labels (when
    there are any) to the counters of the mapping, whose total is the
    number of rows shown.  A second redraw right after it ends
    normally too and leaves the list, the labels, the mapping and the
    status line exactly as the first one left them. *)
Theorem redraw_is_idempotent :
  forall g t,
    tree g = Some t -> tree_ok t -> NoDup (Dict.keys (devices g)) ->
    no_device_hidden g t ->
    exists g1 g2,
      update_device_list g = Normal g1 /\
      shown g1 = Dict.keys (devices g) /\
      stats_labels g1 = labels_for (devices g) (stats_labels g) /\
      total (fst (count_statistics (devices g))) = List.length (shown g1) /\
      update_device_list g1 = Normal g2 /\
      tree g2 = tree g1 /\
      stats_labels g2 = stats_labels g1 /\
      devices g2 = devices g1 /\
      status_var g2 = status_var g1.
Proof.
  intros g t Ht Hok Hnd Hfree.
  destruct (update_device_list_normal g t Ht Hok Hnd Hfree) as [out E].
  set (t1 := {| children := map row_for (devices g); detached := detached t |}) in *.
  set (g1 := update_statistics (print (set_tree g t1) out)) in *.
  destruct (update_statistics_frame (print (set_tree g t1) out))
    as (Fd & Ft & Fs & _). fold g1 in Fd, Ft, Fs.
  cbn [devices tree status_var print set_tree] in Fd, Ft, Fs.
  assert (Ht1 : tree g1 = Some t1) by exact Ft.
  assert (Hok1 : tree_ok t1).
  { pose proof (widget_ok_update_device_list g) as W. unfold widget_ok at 1 in W.
    rewrite Ht in W. specialize (W Hok). rewrite E in W. cbn [final] in W.
    unfold widget_ok in W. rewrite Ht1 in W. exact W. }
  destruct (update_device_list_normal g1 t1 Ht1 Hok1) as [out2 E2].
  { rewrite Fd. exact Hnd. }
  { intros i Hi. rewrite Fd in Hi. exact (Hfree i Hi). }
  set (g2 := update_statistics
               (print (set_tree g1 {| children := map row_for (devices g1);
                                      detached := detached t1 |}) out2)) in *.
  destruct (update_statistics_frame
              (print (set_tree g1 {| children := map row_for (devices g1);
                                     detached := detached t1 |}) out2))
    as (Gd & Gt & Gs & _). fold g2 in Gd, Gt, Gs.
  cbn [devices tree status_var print set_tree] in Gd, Gt, Gs.
  assert (L1 : stats_labels g1 = labels_for (devices g) (stats_labels g)).
  { unfold g1. rewrite stats_labels_update_statistics. reflexivity. }
  exists g1, g2. split; [exact E|].
  split; [unfold shown, get_children; rewrite Ht1; apply keys_row_for|].
  split; [exact L1|].
  split.
  { rewrite count_statistics_sums. cbn [total]. unfold shown, get_children.
    rewrite Ht1. cbn [t1 children]. rewrite !length_map. reflexivity. }
  split; [exact E2|].
  split; [rewrite Gt, Ht1, Fd; reflexivity|].
  split.
  { unfold g2. rewrite stats_labels_update_statistics.
    cbn [devices stats_labels print set_tree]. rewrite Fd, L1.
    unfold labels_for. destruct (stats_labels g); reflexivity. }
  split; [exact Gd | exact Gs].
Qed.

Lemma redraw_is_idempotent_witness :
  exists g1 g2,
    update_device_list with_broken = Normal g1 /\
    shown g1 = Dict.keys (devices with_broken) /\
    stats_labels g1 = labels_for (devices with_broken) (stats_labels with_broken) /\
    total (fst (count_statistics (devices with_broken))) = List.length (shown g1) /\
    update_device_list g1 = Normal g2 /\
    tree g2 = tree g1 /\
    stats_labels g2 = stats_labels g1 /\
    devices g2 = devices g1 /\
    status_var g2 = status_var g1.
Proof.
  refine (redraw_is_idempotent with_broken _ discovered_tree discovered_tree_ok
            with_broken_keys _).
  intros i _ [].
Defined.

(** ** Discovery: failure, empty result, success *)

Lemma discover_unfold k g found :
  discover k (auth_of (credentials g)) = Returned found ->
  NoDup (Dict.keys found) ->
  exists out,
    _discover_devices k g =
    match update_device_list (discovery_redraw_state k g found out) with
    | Raised e g' => discovery_failed e g'
    | Normal g' =>
        match working_of k found with
        | _ :: _ => set_status g' (found_message (List.length (working_of k found)))
        | [] => set_status g' no_working_devices
        end
    end.
Proof.
  intros Hd Hnd. unfold _discover_devices. cbn [credentials set_status issue]. rewrite Hd.
  pose proof (probe_fold k found [] []) as H.
  destruct (fold_left (probe k) found ([], [])) as [working out].
  cbn [fst app] in H. rewrite H; [| intros ? _ [] | exact Hnd].
  exists out. reflexivity.
Qed.

(** X16. When the discovery call raises, the coroutine changes
    neither the mapping nor the list nor the statistics: it issues the
    one discovery call, sets the status line to [Discovery failed:]
    with the message of the exception, prints one line and shows one
    error dialog. *)
Theorem failed_discovery_keeps_devices :
  forall k g e,
    discover k (auth_of (credentials g)) = Failed e ->
    devices (_discover_devices k g) = devices g /\
    tree (_discover_devices k g) = tree g /\
    stats_labels (_discover_devices k g) = stats_labels g /\
    calls (_discover_devices k g) =
      (calls g ++ [CallDiscover (auth_of (credentials g)) 10 5])%list /\
    status_var (_discover_devices k g) = "Discovery failed: " ++ emsg e /\
    List.length (dialogs (_discover_devices k g)) = S (List.length (dialogs g)) /\
    List.length (stdout (_discover_devices k g)) = S (List.length (stdout g)).
Proof.
  intros k g e Hd. unfold _discover_devices. cbn [credentials set_status issue].
  rewrite Hd. cbn. rewrite !length_app. cbn. repeat split; lia.
Qed.

Lemma failed_discovery_witness :
  devices (_discover_devices
             {| discover := fun _ => Failed boom;
                discover_single := fun _ _ => Failed boom;
                update := fun _ d => Returned d;
                turn := fun _ _ d => Returned d |} discovered) = devices discovered.
Proof.
  exact (proj1 (failed_discovery_keeps_devices
                  {| discover := fun _ => Failed boom;
                     discover_single := fun _ _ => Failed boom;
                     update := fun _ d => Returned d;
                     turn := fun _ _ d => Returned d |} discovered boom eq_refl)).
Defined.

(** X17. When the discovery call returns a dictionary and no working
    device of it has a row hidden by the filter, the list shows
    exactly the devices whose probe succeeded, in the order of the
    result, and the status line reports their number; when no probe
    succeeded the mapping and the list are emptied, whatever they held
    before, and the status line says that no working device was
    found. *)
Theorem discovery_shows_working_devices :
  forall k g t found,
    discover k (auth_of (credentials g)) = Returned found ->
    NoDup (Dict.keys found) ->
    tree g = Some t -> tree_ok t ->
    (forall i, In i (Dict.keys (working_of k found)) -> ~ In i (map iid (detached t))) ->
    devices (_discover_devices k g) = working_of k found /\
    shown (_discover_devices k g) = Dict.keys (working_of k found) /\
    hidden (_discover_devices k g) = hidden g /\
    dialogs (_discover_devices k g) = dialogs g /\
    status_var (_discover_devices k g) =
      match working_of k found with
      | [] => no_working_devices
      | _ => found_message (List.length (shown (_discover_devices k g)))
      end.
Proof.
  intros k g t found Hd Hnd Ht Hok Hfree.
  destruct (discover_unfold k g found Hd Hnd) as [out E]. rewrite E. clear E.
  destruct (update_device_list_normal (discovery_redraw_state k g found out) t)
    as [out' E'];
    [exact Ht | exact Hok | apply working_of_unique; exact Hnd | exact Hfree |].
  rewrite E'. clear E'.
  match goal with
  | |- context [update_statistics ?x] =>
      destruct (update_statistics_frame x) as (Fd & Ft & _);
      set (g1 := update_statistics x) in *
  end.
  cbn [devices tree print set_tree discovery_redraw_state set_devices] in Fd, Ft.
  assert (D : dialogs g1 = dialogs g).
  { unfold g1, update_statistics. cbn [stats_labels print set_tree
      discovery_redraw_state set_devices issue set_status].
    destruct (stats_labels g); [|reflexivity].
    destruct (count_statistics _). reflexivity. }
  assert (Sh : forall s, shown (set_status g1 s) = Dict.keys (working_of k found)).
  { intros s. unfold shown, get_children. cbn [tree set_status]. rewrite Ft.
    cbn [children]. apply keys_row_for. }
  assert (Hi : forall s, hidden (set_status g1 s) = hidden g).
  { intros s. unfold hidden. cbn [tree set_status]. rewrite Ft, Ht. reflexivity. }
  destruct (working_of k found) as [|w ws] eqn:Ew.
  - cbn [devices dialogs status_var set_status]. rewrite Fd, D, Sh, Hi.
    repeat split; reflexivity.
  - cbn [devices dialogs status_var set_status]. rewrite Fd, D, Sh, Hi.
    unfold Dict.keys. rewrite length_map. repeat split; reflexivity.
Qed.

Lemma discovery_shows_working_devices_witness :
  shown discovered = Dict.keys (working_of lab three_devices).
Proof.
  refine (proj1 (proj2 (discovery_shows_working_devices lab (init NoFile) empty_tree
            three_devices eq_refl _ eq_refl tree_ok_empty _))).
  - vm_compute. distinct_strings.
  - intros i _ [].
Defined.

(** ** The library calls of discovery and manual add *)

Lemma auth_of_none c :
  auth_of c = None <-> username c = EmptyString \/ password c = EmptyString.
Proof.
  unfold auth_of. destruct (username c), (password c); simpl; split;
    intros H; try reflexivity; try discriminate; auto;
    destruct H as [H|H]; discriminate.
Qed.

(** X18. Discovery and manual add pass the credentials to the library
    only when both the user name and the password are non-empty; with
    one of them missing the call is made without credentials.
    Discovery issues one discovery call (10 s, discovery time-out 5 s)
    and then, when it returns, one 15 s update call per discovered
    device, whether earlier probes failed or not; a manual add issues
    one single-address discovery call and, only when a device is
    found, one 10 s update call.  Neither ever issues a control
    call. *)
Theorem discovery_calls :
  forall k g,
    (auth_of (credentials g) = None <->
     username (credentials g) = EmptyString \/ password (credentials g) = EmptyString) /\
    (auth_of (credentials g) <> None ->
     auth_of (credentials g) = Some (username (credentials g), password (credentials g))) /\
    calls (_discover_devices k g) =
      (calls g ++
       CallDiscover (auth_of (credentials g)) 10 5 ::
       match discover k (auth_of (credentials g)) with
       | Returned found => map (fun entry => CallUpdate (fst entry) 15) found
       | Failed _ => []
       end)%list /\
    (forall ip,
       calls (_manual_add_device k ip g) =
         (calls g ++
          CallDiscoverSingle ip (auth_of (credentials g)) 10 ::
          match discover_single k ip (auth_of (credentials g)) with
          | Returned (Some _) => [CallUpdate ip 10]
          | _ => []
          end)%list).
Proof.
  intros k g. split; [apply auth_of_none|]. split.
  { unfold auth_of. destruct (PyStr.truthy _ && PyStr.truthy _); [reflexivity|].
    intros H. destruct H. reflexivity. }
  split.
  - unfold _discover_devices. cbn [credentials set_status issue].
    destruct (discover k (auth_of (credentials g))) as [found|e]; [|reflexivity].
    destruct (fold_left (probe k) found ([], [])) as [working out].
    match goal with
    | |- context [update_device_list ?x] =>
        pose proof (update_device_list_frame x) as (_ & F & _);
        destruct (update_device_list x) as [g1|e g1]
    end; cbn [final] in F.
    + destruct working; cbn [calls set_status]; rewrite F; cbn;
        rewrite <- app_assoc; reflexivity.
    + cbn. rewrite F. cbn. rewrite <- app_assoc. reflexivity.
  - intros ip. unfold _manual_add_device. cbn [credentials set_status issue].
    destruct (discover_single k ip (auth_of (credentials g))) as [[d|]|e];
      try reflexivity.
    destruct (update k ip d) as [d'|e]; [|cbn; rewrite <- app_assoc; reflexivity].
    match goal with
    | |- context [update_device_list ?x] =>
        pose proof (update_device_list_frame x) as (_ & F & _);
        destruct (update_device_list x) as [g1|e g1]
    end; cbn [final] in F.
    + destruct (getattr (alias d') (PyStr ip)); cbn; rewrite F; cbn;
        rewrite <- app_assoc; reflexivity.
    + cbn. rewrite F. cbn. rewrite <- app_assoc. reflexivity.
Qed.

(** ** Toggling one device *)

Lemma lookup_in_keys {V} k (d : list (string * V)) v :
  Dict.lookup k d = Some v -> In k (Dict.keys d).
Proof.
  induction d as [|[k0 v0] r IH]; [discriminate|].
  simpl. destruct (String.eqb k0 k) eqn:E.
  - intros _. left. apply String.eqb_eq. exact E.
  - intros H. right. apply IH. exact H.
Qed.

Lemma in_keys_set {V} k (v : V) d : In k (Dict.keys (Dict.set k v d)).
Proof.
  apply (lookup_in_keys k _ v). apply lookup_set_eq.
Qed.

Lemma keys_store ip d g :
  In ip (Dict.keys (devices g)) ->
  Dict.keys (devices (store ip d g)) = Dict.keys (devices g).
Proof. intros H. cbn [store devices set_devices]. apply keys_set_present. exact H. Qed.

Lemma lookup_store ip d g ip' :
  ip' <> ip ->
  Dict.lookup ip' (devices (store ip d g)) = Dict.lookup ip' (devices g).
Proof. intros H. cbn [store devices set_devices]. apply lookup_set_ne. exact H. Qed.

(** The mapping after a toggle: the entry of [ip] may hold another
    handle, nothing else differs. *)
Lemma toggle_devices k ip g :
  devices (_toggle_device k ip g) = devices g \/
  exists d, In ip (Dict.keys (devices g)) /\
            devices (_toggle_device k ip g) = Dict.set ip d (devices g).
Proof.
  unfold _toggle_device.
  destruct (Dict.lookup ip (devices g)) as [d0|] eqn:L; [|left; reflexivity].
  pose proof (lookup_in_keys ip _ _ L) as Hin.
  destruct (update k ip d0) as [d1|e]; [|left; reflexivity].
  assert (S2 : forall d1 d2, Dict.set ip d2 (Dict.set ip d1 (devices g)) =
                             Dict.set ip d2 (devices g)).
  { intros a b. clear - Hin. induction (devices g) as [|[k0 v0] r IH]; [destruct Hin|].
    simpl. destruct (String.eqb k0 ip) eqn:E.
    - simpl. rewrite String.eqb_refl. reflexivity.
    - simpl. rewrite E. f_equal. apply IH. destruct Hin as [H|H]; [|exact H].
      simpl in H. apply String.eqb_neq in E. contradiction. }
  destruct (get "is_on" (is_on d1)) as [on|e];
    [|right; exists d1; split; [exact Hin | reflexivity]].
  destruct (turn k (negb (truth on)) ip d1) as [d2|e];
    [|right; exists d1; split; [exact Hin | reflexivity]].
  destruct (getattr (alias d2) (PyStr ip)) as [name|e].
  - right. exists (settle (update k ip d2) d2). split; [exact Hin|].
    match goal with
    | |- context [update_device_list ?x] =>
        pose proof (update_device_list_frame x) as (F & _);
        destruct (update_device_list x) as [g1|e g1]
    end; cbn [final] in F.
    + rewrite F. cbn [store devices set_devices issue set_status]. rewrite !S2. reflexivity.
    + cbn [toggle_failed devices showerror print set_status]. rewrite F.
      cbn [store devices set_devices issue set_status]. rewrite !S2. reflexivity.
  - right. exists d2. split; [exact Hin|].
    cbn [toggle_failed store devices showerror print set_status set_devices issue].
    apply S2.
Qed.

Lemma repr_char_plain c :
  plain_char c = true -> PyStr.repr_char "'" c = String c EmptyString.
Proof.
  intros H. destruct c as [[] [] [] [] [] [] [] []];
    vm_compute in H; try discriminate H; reflexivity.
Qed.

Lemma plain_key_no_apostrophe s : plain_key s = true -> PyStr.contains_char "'" s = false.
Proof.
  induction s as [|c r IH]; [reflexivity|].
  cbn [plain_key PyStr.contains_char]. intros H. apply andb_prop in H as [Hc Hr].
  rewrite (IH Hr), orb_false_r. unfold plain_char in Hc.
  apply andb_prop in Hc as [Hc _]. apply andb_prop in Hc as [_ Hc].
  apply negb_true_iff in Hc. exact Hc.
Qed.

Lemma repr_body_plain s : plain_key s = true -> PyStr.repr_body "'" s = s.
Proof.
  induction s as [|c r IH]; [reflexivity|].
  cbn [plain_key PyStr.repr_body]. intros H. apply andb_prop in H as [Hc Hr].
  rewrite (repr_char_plain c Hc), (IH Hr). reflexivity.
Qed.

(** [repr] of a text of plain characters is the text between
    apostrophes. *)
Lemma repr_plain s : plain_key s = true -> PyStr.repr s = "'" ++ s ++ "'".
Proof.
  intros H. unfold PyStr.repr.
  rewrite (plain_key_no_apostrophe s H). cbn [andb].
  rewrite (repr_body_plain s H). reflexivity.
Qed.

(** X1. A toggle never adds, removes or reorders a device: the keys
    of the mapping are as before, and every address other than the
    toggled one reads as before.  A toggle of an address that is not
    in the mapping issues no library call and changes nothing but the
    status line, the printed lines and one error dialog.  The status
    line reports the [KeyError] with the [repr] of the address (for
    an ASCII address), which is the address between apostrophes when
    it is made of printable ASCII characters other than the apostrophe
    and the backslash. *)
Theorem toggle_frame :
  forall k ip g,
    Dict.keys (devices (_toggle_device k ip g)) = Dict.keys (devices g) /\
    (forall ip', ip' <> ip ->
       Dict.lookup ip' (devices (_toggle_device k ip g)) = Dict.lookup ip' (devices g)) /\
    (Dict.lookup ip (devices g) = None ->
     devices (_toggle_device k ip g) = devices g /\
     tree (_toggle_device k ip g) = tree g /\
     calls (_toggle_device k ip g) = calls g /\
     List.length (dialogs (_toggle_device k ip g)) = S (List.length (dialogs g)) /\
     (ascii_text ip = true ->
      status_var (_toggle_device k ip g) =
        "Failed to toggle device: KeyError - " ++ PyStr.repr ip) /\
     (plain_key ip = true ->
      status_var (_toggle_device k ip g) =
        "Failed to toggle device: KeyError - '" ++ ip ++ "'")).
Proof.
  intros k ip g. split; [|split].
  - destruct (toggle_devices k ip g) as [-> | (d & Hin & ->)]; [reflexivity|].
    apply keys_set_present. exact Hin.
  - intros ip' Hne. destruct (toggle_devices k ip g) as [-> | (d & Hin & ->)];
      [reflexivity|]. apply lookup_set_ne. exact Hne.
  - intros L. unfold _toggle_device. rewrite L.
    split; [reflexivity|]. split; [reflexivity|]. split; [reflexivity|].
    split; [|split].
    + cbn [toggle_failed dialogs showerror print set_status]. rewrite length_app.
      cbn [List.length]. lia.
    + intros _. reflexivity.
    + intros Hp.
      change (status_var (toggle_failed (KeyError ip) g))
        with ("Failed to toggle device: KeyError - " ++ PyStr.repr ip).
      rewrite (repr_plain ip Hp). reflexivity.
Qed.

(** X2. A toggle first refreshes the device (15 s).  When that call
    raises, nothing more is called: the status line reports a
    communication error, and the mapping, the list and the dialogs
    are as before.  Otherwise the state is read from the refreshed
    handle: when it cannot be read no control call is issued and the
    status line names the exception; when it reads as on the device is
    turned off, else it is turned on; and when that control call
    raises, the status line names the exception and the list is not
    redrawn. *)
Theorem toggle_steps :
  forall k ip g d,
    Dict.lookup ip (devices g) = Some d ->
    (forall e, update k ip d = Failed e ->
       calls (_toggle_device k ip g) = (calls g ++ [CallUpdate ip 15])%list /\
       status_var (_toggle_device k ip g) =
         "Device " ++ ip ++ " communication error: " ++ ename e /\
       devices (_toggle_device k ip g) = devices g /\
       tree (_toggle_device k ip g) = tree g /\
       dialogs (_toggle_device k ip g) = dialogs g) /\
    (forall d1, update k ip d = Returned d1 ->
       (forall e, get "is_on" (is_on d1) = Raise e ->
          calls (_toggle_device k ip g) = (calls g ++ [CallUpdate ip 15])%list /\
          status_var (_toggle_device k ip g) = "Failed to toggle device: " ++ ename e /\
          tree (_toggle_device k ip g) = tree g /\
          dialogs (_toggle_device k ip g) = dialogs g) /\
       (forall v, is_on d1 = Has v ->
          (exists rest,
             calls (_toggle_device k ip g) =
             (calls g ++ CallUpdate ip 15 :: CallTurn (negb (truth v)) ip 15 :: rest)%list) /\
          (forall e, turn k (negb (truth v)) ip d1 = Failed e ->
             calls (_toggle_device k ip g) =
               (calls g ++ [CallUpdate ip 15; CallTurn (negb (truth v)) ip 15])%list /\
             status_var (_toggle_device k ip g) = "Failed to toggle device: " ++ ename e /\
             tree (_toggle_device k ip g) = tree g /\
             dialogs (_toggle_device k ip g) = dialogs g))).
Proof.
  intros k ip g d L. split.
  - intros e Hu. unfold _toggle_device. rewrite L, Hu. repeat split; reflexivity.
  - intros d1 Hu. split.
    + intros e Hg. unfold _toggle_device. rewrite L, Hu, Hg. repeat split; reflexivity.
    + intros v Hv. split.
      * unfold _toggle_device. rewrite L, Hu, Hv. cbn [get].
        destruct (turn k (negb (truth v)) ip d1) as [d2|e].
        -- destruct (getattr (alias d2) (PyStr ip)) as [name|e].
           ++ match goal with
              | |- context [update_device_list ?x] =>
                  pose proof (update_device_list_frame x) as (_ & F & _);
                  destruct (update_device_list x) as [g1|e g1]
              end; cbn [final] in F; eexists; cbn; rewrite F; cbn;
                rewrite <- !app_assoc; reflexivity.
           ++ eexists. cbn. rewrite <- !app_assoc. reflexivity.
        -- eexists. cbn. rewrite <- !app_assoc. reflexivity.
      * intros e Ht. unfold _toggle_device. rewrite L, Hu, Hv. cbn [get]. rewrite Ht.
        cbn. rewrite <- !app_assoc. repeat split; reflexivity.
Qed.

Lemma toggle_steps_witness :
  exists rest,
    calls (_toggle_device lab "10.0.0.2" discovered) =
    (calls discovered ++ CallUpdate "10.0.0.2" 15 :: CallTurn true "10.0.0.2" 15 :: rest)%list.
Proof.
  exact (proj1 (proj2 (proj2 (toggle_steps lab "10.0.0.2" discovered devB eq_refl)
                         devB eq_refl) (PyBool false) eq_refl)).
Defined.

Lemma update_statistics_keeps g :
  dialogs (update_statistics g) = dialogs g /\
  search_var (update_statistics g) = search_var g.
Proof.
  unfold update_statistics. destruct (stats_labels g); [|split; reflexivity].
  destruct (count_statistics (devices g)). split; reflexivity.
Qed.

(** The redraw shows no dialog and leaves the status line, the loop
    and the search box alone, however it ends. *)
Lemma update_device_list_keeps g :
  dialogs (final (update_device_list g)) = dialogs g /\
  status_var (final (update_device_list g)) = status_var g /\
  loop (final (update_device_list g)) = loop g /\
  search_var (final (update_device_list g)) = search_var g.
Proof.
  unfold update_device_list. destruct (tree g) as [t|]; [|repeat split; reflexivity].
  destruct (for_each delete_row (get_children t) t) as [t1|e t1];
    [|repeat split; reflexivity].
  destruct (for_each add_row (devices g) (t1, [])) as [[t2 out]|e [t2 out]]; cbn [final];
    [|repeat split; reflexivity].
  destruct (update_statistics_frame (print (set_tree g t2) out)) as (_ & _ & F1 & F2 & _).
  destruct (update_statistics_keeps (print (set_tree g t2) out)) as (F3 & F4).
  rewrite F1, F2, F3, F4. repeat split; reflexivity.
Qed.

(** X3. When the device is in the mapping, its refresh and its
    control call return and its name can be read, in a state where no
    device is hidden: the toggle issues the refresh (15 s), the
    control call opposite to the state read (15 s), a pause of half a
    second and a second refresh (15 s), in this order; whether that
    second refresh returns or raises, the status line reports the
    device as turned on or off, the list is redrawn from the handles
    of the mapping, and no dialog is shown. *)
Theorem toggle_success :
  forall k ip g t d d1 v d2 name,
    tree g = Some t -> tree_ok t -> NoDup (Dict.keys (devices g)) ->
    no_device_hidden g t ->
    Dict.lookup ip (devices g) = Some d ->
    update k ip d = Returned d1 ->
    is_on d1 = Has v ->
    turn k (negb (truth v)) ip d1 = Returned d2 ->
    getattr (alias d2) (PyStr ip) = Ok name ->
    calls (_toggle_device k ip g) =
      (calls g ++ [CallUpdate ip 15; CallTurn (negb (truth v)) ip 15;
                   Sleep 500; CallUpdate ip 15])%list /\
    Dict.lookup ip (devices (_toggle_device k ip g)) = Some (settle (update k ip d2) d2) /\
    status_var (_toggle_device k ip g) =
      "Device " ++ py_str name ++ " " ++ toggled_text (negb (truth v)) /\
    tree (_toggle_device k ip g) =
      Some {| children := map row_for (devices (_toggle_device k ip g));
              detached := detached t |} /\
    dialogs (_toggle_device k ip g) = dialogs g.
Proof.
  intros k ip g t d d1 v d2 name Ht Hok Hnd Hfree L Hu Hv Hturn Hname.
  pose proof (lookup_in_keys ip _ _ L) as Hin.
  unfold _toggle_device. rewrite L, Hu, Hv. cbn [get]. rewrite Hturn, Hname.
  match goal with
  | |- context [update_device_list ?x] => set (x0 := x)
  end.
  assert (Dx : devices x0 =
               Dict.set ip (settle (update k ip d2) d2)
                 (Dict.set ip d2 (Dict.set ip d1 (devices g)))) by reflexivity.
  assert (Kx : Dict.keys (devices x0) = Dict.keys (devices g)).
  { rewrite Dx. rewrite !keys_set_present; try reflexivity; try exact Hin.
    - rewrite keys_set_present by exact Hin. exact Hin.
    - rewrite !keys_set_present; try exact Hin.
      rewrite keys_set_present by exact Hin. exact Hin. }
  destruct (update_device_list_normal x0 t) as [out E].
  - exact Ht.
  - exact Hok.
  - rewrite Kx. exact Hnd.
  - intros i Hi. rewrite Kx in Hi. exact (Hfree i Hi).
  - rewrite E.
    match goal with
    | |- context [update_statistics ?y] =>
        destruct (update_statistics_frame y) as (Fd & Ft & Fs & _ & Fc & _);
        destruct (update_statistics_keeps y) as (Fg & _)
    end.
    rewrite Fd, Ft, Fs, Fc, Fg.
    cbn [calls devices tree status_var dialogs print set_tree].
    split; [subst x0; cbn; rewrite <- !app_assoc; reflexivity|].
    split; [rewrite Dx; apply lookup_set_eq|].
    repeat split; reflexivity.
Qed.

Lemma toggle_success_witness :
  status_var (_toggle_device lab "10.0.0.2" discovered) = "Device B Turned ON".
Proof.
  refine (proj1 (proj2 (proj2
    (toggle_success lab "10.0.0.2" discovered _ devB devB (PyBool false)
       (switched true devB) (PyStr "B")
       discovered_tree discovered_tree_ok discovered_keys _
       eq_refl eq_refl eq_refl eq_refl eq_refl)))).
  intros i _ [].
Defined.

(** ** Double click *)

(** X4. A double click submits at most one coroutine: a toggle of
    the first selected row, and only when that row's address is a key
    of the mapping.  A toggle submitted this way, run on the same
    mapping, does not fail on the look-up: it reaches the library,
    its first call being the refresh of that device. *)
Theorem double_click_toggles_known_device :
  forall selection g,
    devices (on_device_double_click selection g) = devices g /\
    tree (on_device_double_click selection g) = tree g /\
    (scheduled (on_device_double_click selection g) = scheduled g \/
     exists ip d,
       hd_error selection = Some ip /\
       Dict.lookup ip (devices g) = Some d /\
       scheduled (on_device_double_click selection g) = (scheduled g ++ [CoToggle ip])%list /\
       forall k, exists rest,
         calls (run_coroutine k (CoToggle ip) (on_device_double_click selection g)) =
         (calls g ++ CallUpdate ip 15 :: rest)%list).
Proof.
  intros selection g. unfold on_device_double_click.
  destruct selection as [|ip rest]; [repeat split; left; reflexivity|].
  unfold Dict.mem. destruct (Dict.lookup ip (devices g)) as [d|] eqn:L;
    [|repeat split; left; reflexivity].
  unfold run_async, scheduled.
  destruct (loop g) as [l|] eqn:El; [destruct (closed l) eqn:Ec|]; cbn [negb].
  - cbn. rewrite El. repeat split. left. reflexivity.
  - cbn. split; [reflexivity|]. split; [reflexivity|]. right.
    exists ip, d. split; [reflexivity|]. split; [exact L|]. split; [reflexivity|].
    intros k. unfold _toggle_device. cbn [devices set_loop]. rewrite L.
    destruct (update k ip d) as [d1|e]; [|eexists; reflexivity].
    destruct (get "is_on" (is_on d1)) as [on|e]; [|eexists; reflexivity].
    destruct (turn k (negb (truth on)) ip d1) as [d2|e];
      [|eexists; cbn; rewrite <- !app_assoc; reflexivity].
    destruct (getattr (alias d2) (PyStr ip)) as [name|e];
      [|eexists; cbn; rewrite <- !app_assoc; reflexivity].
    match goal with
    | |- context [update_device_list ?x] =>
        pose proof (update_device_list_frame x) as (_ & F & _);
        destruct (update_device_list x) as [g1|e g1]
    end; cbn [final] in F; eexists; cbn; rewrite F; cbn;
      rewrite <- !app_assoc; reflexivity.
  - cbn. rewrite El. repeat split. left. reflexivity.
Qed.

(** ** Refreshing all devices *)

Lemma tally_update_fold k ds :
  forall s f out,
    exists out',
      fold_left tally_update
        (map (fun entry => (fst entry, update k (fst entry) (snd entry))) ds)
        (s, f, out) =
      (s + refreshes k ds, f + refresh_failures k ds, out').
Proof.
  unfold refreshes, refresh_failures, refresh_ko, refresh_ok.
  induction ds as [|[ip d] r IH]; intros s f out.
  - exists out. simpl. rewrite !Nat.add_0_r. reflexivity.
  - cbn [map fold_left fst snd filter tally_update].
    destruct (update k ip d) as [d'|e]; cbn [returns negb].
    + destruct (IH (S s) f out) as [out' E]. exists out'. rewrite E.
      cbn [List.length]. f_equal. f_equal. lia.
    + destruct (IH s (S f) (out ++ [update_error ip e])%list) as [out' E].
      exists out'. rewrite E. cbn [List.length]. f_equal. f_equal. lia.
Qed.

Lemma refreshes_failures k ds :
  refreshes k ds + refresh_failures k ds = List.length ds.
Proof.
  unfold refreshes, refresh_failures, refresh_ko.
  induction ds as [|entry r IH]; [reflexivity|].
  simpl. destruct (refresh_ok k entry); simpl; lia.
Qed.

Lemma refresh_unfold k g :
  exists out,
    _refresh_status k g =
    match update_device_list (refresh_redraw_state k g out) with
    | Raised e g' => refresh_failed e g'
    | Normal g' =>
        if (refresh_failures k (devices g) =? 0)%nat
        then set_status g' (refreshed_all (refreshes k (devices g)))
        else set_status g' (refreshed_some (refreshes k (devices g))
                              (refresh_failures k (devices g)))
    end.
Proof.
  destruct (tally_update_fold k (devices g) 0 0 []) as [out E].
  exists out. unfold _refresh_status, refresh_redraw_state.
  cbn [devices set_status issue]. rewrite E. cbn [Nat.add].
  fold (after_refresh k (devices g)). reflexivity.
Qed.

Lemma refresh_frame k g :
  calls (_refresh_status k g) =
    (calls g ++ map (fun entry => CallUpdate (fst entry) 10) (devices g))%list /\
  devices (_refresh_status k g) = after_refresh k (devices g) /\
  dialogs (_refresh_status k g) = dialogs g.
Proof.
  destruct (refresh_unfold k g) as [out E]. rewrite E. clear E.
  pose proof (update_device_list_frame (refresh_redraw_state k g out)) as (Fd & Fc & _).
  pose proof (update_device_list_keeps (refresh_redraw_state k g out)) as (Fg & _).
  destruct (update_device_list (refresh_redraw_state k g out)) as [g1|e g1];
    cbn [final] in Fd, Fc, Fg.
  - destruct (refresh_failures k (devices g) =? 0)%nat;
      cbn [calls devices dialogs set_status]; rewrite Fd, Fc, Fg;
      repeat split; reflexivity.
  - cbn [calls devices dialogs refresh_failed print set_status]. rewrite Fd, Fc, Fg.
    repeat split; reflexivity.
Qed.

Lemma refresh_normal k g t :
  tree g = Some t -> tree_ok t -> NoDup (Dict.keys (devices g)) -> no_device_hidden g t ->
  exists out out',
    _refresh_status k g =
    set_status
      (update_statistics
         (print
            (set_tree (refresh_redraw_state k g out)
               {| children := map row_for (after_refresh k (devices g));
                  detached := detached t |})
            out'))
      (if (refresh_failures k (devices g) =? 0)%nat
       then refreshed_all (refreshes k (devices g))
       else refreshed_some (refreshes k (devices g)) (refresh_failures k (devices g))).
Proof.
  intros Ht Hok Hnd Hfree.
  destruct (refresh_unfold k g) as [out E]. exists out.
  destruct (update_device_list_normal (refresh_redraw_state k g out) t) as [out' E'].
  - exact Ht.
  - exact Hok.
  - cbn [refresh_redraw_state devices set_devices]. rewrite keys_after_refresh. exact Hnd.
  - intros i Hi. cbn [refresh_redraw_state devices set_devices] in Hi.
    rewrite keys_after_refresh in Hi. exact (Hfree i Hi).
  - exists out'. rewrite E, E'. cbn [refresh_redraw_state devices set_devices].
    destruct (refresh_failures k (devices g) =? 0)%nat; reflexivity.
Qed.

(** X6. A refresh over the N devices issues exactly one update call
    per device, each under its own 10 second bound, and no other
    library call: no control call and no pause.  The calls that
    returned and the calls that raised add up to N, the keys of the
    mapping are as before, and no dialog is ever shown, not even when
    the redraw raises.  In a state where no device is hidden the list
    is redrawn from the refreshed handles and the status line is built
    from the two counts only. *)
Theorem refresh_isolated :
  forall k g,
    refreshes k (devices g) + refresh_failures k (devices g) = List.length (devices g) /\
    calls (_refresh_status k g) =
      (calls g ++ map (fun entry => CallUpdate (fst entry) 10) (devices g))%list /\
    devices (_refresh_status k g) = after_refresh k (devices g) /\
    Dict.keys (devices (_refresh_status k g)) = Dict.keys (devices g) /\
    dialogs (_refresh_status k g) = dialogs g /\
    (forall t,
       tree g = Some t -> tree_ok t -> NoDup (Dict.keys (devices g)) ->
       no_device_hidden g t ->
       tree (_refresh_status k g) =
         Some {| children := map row_for (devices (_refresh_status k g));
                 detached := detached t |} /\
       status_var (_refresh_status k g) =
         (if (refresh_failures k (devices g) =? 0)%nat
          then refreshed_all (refreshes k (devices g))
          else refreshed_some (refreshes k (devices g))
                 (refresh_failures k (devices g)))).
Proof.
  intros k g. split; [apply refreshes_failures|].
  destruct (refresh_frame k g) as (Hc & Hd & Hg).
  split; [exact Hc|]. split; [exact Hd|].
  split; [rewrite Hd; apply keys_after_refresh|]. split; [exact Hg|].
  intros t Ht Hok Hnd Hfree. rewrite Hd.
  destruct (refresh_normal k g t Ht Hok Hnd Hfree) as (out & out' & E).
  rewrite E. clear E.
  match goal with
  | |- context [update_statistics ?x] =>
      destruct (update_statistics_frame x) as (_ & Ft & _)
  end.
  cbn [tree status_var set_status]. rewrite Ft.
  cbn [tree print set_tree]. split; reflexivity.
Qed.

Lemma refresh_isolated_witness :
  status_var (_refresh_status lab discovered) =
  (if (refresh_failures lab (devices discovered) =? 0)%nat
   then refreshed_all (refreshes lab (devices discovered))
   else refreshed_some (refreshes lab (devices discovered))
          (refresh_failures lab (devices discovered))).
Proof.
  refine (proj2 (proj2 (proj2 (proj2 (proj2 (proj2 (refresh_isolated lab discovered))))) _
                   discovered_tree discovered_tree_ok discovered_keys _)).
  intros i _ [].
Defined.

(** ** The batch buttons and the empty mapping *)

(** X5. With an empty mapping the three batch buttons submit nothing:
    each shows the warning dialog and leaves the rest of the state
    alone.  A batch coroutine that finds the mapping empty all the
    same issues no device call (a batch control still pauses), shows
    an empty list and reports a success over zero devices. *)
Theorem batches_on_empty_mapping :
  forall g,
    devices g = [] ->
    (scheduled (turn_all_on g) = scheduled g /\
     scheduled (turn_all_off g) = scheduled g /\
     scheduled (refresh_status g) = scheduled g /\
     turn_all_on g = no_devices_warning g /\
     turn_all_off g = no_devices_warning g /\
     refresh_status g = no_devices_warning g /\
     dialogs (no_devices_warning g) =
       (dialogs g ++ [("No Devices", "No devices found. Please discover devices first.")])%list) /\
    (forall k t,
       tree g = Some t -> tree_ok t ->
       (forall turn_on,
          calls (_turn_all_devices k turn_on g) = (calls g ++ [Sleep 1000])%list /\
          shown (_turn_all_devices k turn_on g) = [] /\
          status_var (_turn_all_devices k turn_on g) =
            "All 0 devices turned " ++ action_of turn_on) /\
       calls (_refresh_status k g) = calls g /\
       shown (_refresh_status k g) = [] /\
       status_var (_refresh_status k g) = "Status refreshed for all 0 devices").
Proof.
  intros g Hd. split.
  - unfold turn_all_on, turn_all_off, refresh_status. rewrite Hd.
    repeat split; reflexivity.
  - intros k t Ht Hok.
    assert (Hnd : NoDup (Dict.keys (devices g))) by (rewrite Hd; constructor).
    assert (Hfree : no_device_hidden g t) by (intros i Hi; rewrite Hd in Hi; destruct Hi).
    split.
    + intros turn_on.
      destruct (turn_all_normal k turn_on g t Ht Hok Hnd Hfree) as (out & out' & E).
      rewrite E. clear E.
      match goal with
      | |- context [update_statistics ?y] =>
          destruct (update_statistics_frame y) as (_ & Gt & _ & _ & Gc & _)
      end.
      unfold shown. cbn [calls tree status_var set_status]. rewrite Gt, Gc.
      cbn [calls tree print set_tree before_redraw set_devices issue set_status].
      rewrite !Hd. cbn. rewrite ?app_nil_r. repeat split; reflexivity.
    + destruct (refresh_frame k g) as (Hc & _).
      destruct (refresh_normal k g t Ht Hok Hnd Hfree) as (out & out' & E).
      rewrite Hc, E. clear E.
      match goal with
      | |- context [update_statistics ?y] =>
          destruct (update_statistics_frame y) as (_ & Gt & _)
      end.
      unfold shown. cbn [tree status_var set_status]. rewrite Gt.
      cbn [tree print set_tree]. rewrite !Hd. cbn. rewrite ?app_nil_r.
      repeat split; reflexivity.
Qed.

Lemma batches_on_empty_mapping_witness :
  turn_all_on (init NoFile) = no_devices_warning (init NoFile).
Proof.
  exact (proj1 (proj2 (proj2 (proj2 (proj1
           (batches_on_empty_mapping (init NoFile) eq_refl)))))).
Defined.

(** ** Submissions to the worker loop *)

Lemma run_async_available c g l :
  loop g = Some l -> closed l = false ->
  run_async c g =
  set_loop g (Some {| closed := false; stop_requested := stop_requested l;
                      ready := (ready l ++ [c])%list |}).
Proof. intros E Hc. unfold run_async. rewrite E, Hc. reflexivity. Qed.

Lemma submit_all_available cs :
  forall g l,
    loop g = Some l -> closed l = false ->
    submit_all cs g =
    set_loop g (Some {| closed := false; stop_requested := stop_requested l;
                        ready := (ready l ++ cs)%list |}).
Proof.
  induction cs as [|c r IH]; intros g l E Hc.
  - cbn [submit_all fold_left]. rewrite app_nil_r. destruct g, l. cbn in *.
    subst. reflexivity.
  - cbn [submit_all fold_left]. fold (submit_all r (run_async c g)).
    rewrite (run_async_available c g l E Hc).
    rewrite (IH _ {| closed := false; stop_requested := stop_requested l;
                     ready := (ready l ++ [c])%list |}); [|reflexivity ..].
    cbn. rewrite <- app_assoc. reflexivity.
Qed.

Lemma submit_all_unavailable cs :
  forall g,
    loop_unavailable g ->
    submit_all cs g = print g (map (fun _ => "Event loop not available") cs).
Proof.
  induction cs as [|c r IH]; intros g H.
  - unfold submit_all, print. cbn [fold_left map]. rewrite app_nil_r.
    destruct g. reflexivity.
  - cbn [submit_all fold_left]. fold (submit_all r (run_async c g)).
    assert (E : run_async c g = print g ["Event loop not available"]).
    { unfold run_async, loop_unavailable in *. destruct (loop g) as [l|]; [|reflexivity].
      rewrite H. reflexivity. }
    rewrite E. rewrite IH by exact H.
    unfold print. cbn [devices credentials loop tree stats_labels search_var status_var
                       stdout dialogs calls map].
    rewrite <- app_assoc. reflexivity.
Qed.

(** X19. Coroutines submitted to an available loop are queued in the
    order of submission, behind those already queued, and nothing else
    changes; a requested stop neither empties the queue nor refuses
    later submissions, and requesting it twice is the same as once.
    On a loop that is null or closed every submission is dropped with
    one diagnostic line each. *)
Theorem submissions_are_queued_in_order :
  forall cs g,
    (loop_available g ->
     scheduled (submit_all cs g) = (scheduled g ++ cs)%list /\
     scheduled (submit_all cs (cleanup g)) = (scheduled g ++ cs)%list /\
     scheduled (cleanup (submit_all cs g)) = (scheduled g ++ cs)%list /\
     stdout (submit_all cs g) = stdout g /\
     devices (submit_all cs g) = devices g /\
     tree (submit_all cs g) = tree g) /\
    cleanup (cleanup g) = cleanup g /\
    (loop_unavailable g ->
     scheduled (submit_all cs g) = scheduled g /\
     List.length (stdout (submit_all cs g)) = List.length (stdout g) + List.length cs).
Proof.
  intros cs g. split; [|split].
  - intros (l & E & Hc).
    rewrite (submit_all_available cs g l E Hc).
    assert (Ec : loop (cleanup g) =
                 Some {| closed := false; stop_requested := true; ready := ready l |}).
    { unfold cleanup. rewrite E, Hc. reflexivity. }
    rewrite (submit_all_available cs (cleanup g) _ Ec eq_refl).
    assert (Sg : scheduled g = ready l) by (unfold scheduled; rewrite E; reflexivity).
    rewrite Sg. repeat split; reflexivity.
  - unfold cleanup. destruct (loop g) as [l|] eqn:E; [|rewrite E; reflexivity].
    destruct (closed l) eqn:Hc; cbn [negb].
    + rewrite E, Hc. reflexivity.
    + cbn [loop set_loop closed negb stop_requested ready]. reflexivity.
  - intros H. rewrite (submit_all_unavailable cs g H).
    unfold scheduled. cbn. rewrite length_app, length_map. split; reflexivity.
Qed.

Lemma submissions_witness :
  scheduled (submit_all [CoDiscover; CoRefresh] (init NoFile)) = [CoDiscover; CoRefresh].
Proof.
  refine (proj1 (proj1 (submissions_are_queued_in_order [CoDiscover; CoRefresh] (init NoFile))
                   _)).
  eexists. split; reflexivity.
Defined.

(** ** The list follows the mapping *)

Lemma in_sync_ext g g' :
  tree g' = tree g -> devices g' = devices g -> in_sync g -> in_sync g'.
Proof.
  intros Ht Hd (t & H1 & H2 & H3 & H4). exists t. rewrite Ht, Hd. auto.
Qed.

Lemma in_sync_init f : in_sync (init f).
Proof. exists empty_tree. repeat split; constructor. Qed.

Lemma in_sync_tree_ok g t :
  tree g = Some t -> detached t = [] -> get_children t = Dict.keys (devices g) ->
  NoDup (Dict.keys (devices g)) -> tree_ok t.
Proof.
  intros _ Hd Hc Hn. unfold tree_ok. rewrite Hd, app_nil_r.
  unfold get_children in Hc. rewrite Hc. exact Hn.
Qed.

Lemma redraw_syncs x t :
  tree x = Some t -> tree_ok t -> detached t = [] -> NoDup (Dict.keys (devices x)) ->
  exists x', update_device_list x = Normal x' /\ in_sync x'.
Proof.
  intros Ht Hok Hd Hn.
  destruct (update_device_list_normal x t Ht Hok Hn) as [out E].
  { intros i _. rewrite Hd. intros []. }
  eexists. split; [exact E|].
  match goal with
  | |- context [update_statistics ?y] =>
      destruct (update_statistics_frame y) as (Fd & Ft & _)
  end.
  exists {| children := map row_for (devices x); detached := detached t |}.
  rewrite Ft, Fd. cbn [tree devices print set_tree detached].
  split; [reflexivity|]. split; [exact Hd|].
  split; [apply keys_row_for | exact Hn].
Qed.

(** A redraw in a state whose list has no hidden row and whose keys
    are unique ends normally in a state in which the list follows the
    mapping. *)
Lemma redraw_from_sync g x :
  in_sync g -> tree x = tree g -> NoDup (Dict.keys (devices x)) ->
  exists x', update_device_list x = Normal x' /\ in_sync x'.
Proof.
  intros (t & Ht & Hd & Hc & Hn) Hx Hnx.
  apply (redraw_syncs x t); [rewrite Hx; exact Ht | | exact Hd | exact Hnx].
  eapply in_sync_tree_ok; eassumption.
Qed.

Lemma in_sync_store ip d g :
  in_sync g -> In ip (Dict.keys (devices g)) -> in_sync (store ip d g).
Proof.
  intros (t & Ht & Hd & Hc & Hn) Hin. exists t.
  rewrite keys_store by exact Hin. auto.
Qed.

Lemma in_sync_manual_add k ip g : in_sync g -> in_sync (_manual_add_device k ip g).
Proof.
  intros H. unfold _manual_add_device. cbn [credentials set_status issue].
  destruct (discover_single k ip (auth_of (credentials g))) as [[d|]|e];
    try (eapply in_sync_ext; [| |exact H]; reflexivity).
  destruct (update k ip d) as [d'|e];
    [|eapply in_sync_ext; [| |exact H]; reflexivity].
  match goal with
  | |- context [update_device_list ?x] =>
      destruct (redraw_from_sync g x H) as (x' & E & Hs);
      [reflexivity | apply set_keeps_unique; destruct H as (t & _ & _ & _ & Hn); exact Hn |]
  end.
  rewrite E. destruct (getattr (alias d') (PyStr ip));
    (eapply in_sync_ext; [| |exact Hs]; reflexivity).
Qed.

Lemma in_sync_discover k g :
  discovers_dicts k -> in_sync g -> in_sync (_discover_devices k g).
Proof.
  intros Hk H.
  destruct (discover k (auth_of (credentials g))) as [found|e] eqn:Hd.
  - destruct (discover_unfold k g found Hd (Hk _ _ Hd)) as [out E]. rewrite E.
    destruct (redraw_from_sync g (discovery_redraw_state k g found out) H) as (x' & E' & Hs);
      [reflexivity | apply working_of_unique; exact (Hk _ _ Hd) |].
    rewrite E'. destruct (working_of k found);
      (eapply in_sync_ext; [| |exact Hs]; reflexivity).
  - unfold _discover_devices. cbn [credentials set_status issue]. rewrite Hd.
    eapply in_sync_ext; [| |exact H]; reflexivity.
Qed.

Lemma in_sync_turn_all k turn_on g : in_sync g -> in_sync (_turn_all_devices k turn_on g).
Proof.
  intros H. destruct (turn_all_unfold k turn_on g) as [out E]. rewrite E.
  destruct (redraw_from_sync g (before_redraw k turn_on g out) H) as (x' & E' & Hs).
  - reflexivity.
  - cbn [before_redraw devices set_devices].
    rewrite keys_after_refresh, keys_after_control.
    destruct H as (t & _ & _ & _ & Hn). exact Hn.
  - rewrite E'. destruct (failures k turn_on (devices g) =? 0)%nat;
      (eapply in_sync_ext; [| |exact Hs]; reflexivity).
Qed.

Lemma in_sync_refresh k g : in_sync g -> in_sync (_refresh_status k g).
Proof.
  intros H. destruct (refresh_unfold k g) as [out E]. rewrite E.
  destruct (redraw_from_sync g (refresh_redraw_state k g out) H) as (x' & E' & Hs).
  - reflexivity.
  - cbn [refresh_redraw_state devices set_devices]. rewrite keys_after_refresh.
    destruct H as (t & _ & _ & _ & Hn). exact Hn.
  - rewrite E'. destruct (refresh_failures k (devices g) =? 0)%nat;
      (eapply in_sync_ext; [| |exact Hs]; reflexivity).
Qed.

Lemma in_sync_toggle k ip g : in_sync g -> in_sync (_toggle_device k ip g).
Proof.
  intros H. unfold _toggle_device.
  destruct (Dict.lookup ip (devices g)) as [d|] eqn:L;
    [|eapply in_sync_ext; [| |exact H]; reflexivity].
  pose proof (lookup_in_keys ip _ _ L) as Hin.
  destruct (update k ip d) as [d1|e];
    [|eapply in_sync_ext; [| |exact H]; reflexivity].
  assert (H1 : in_sync (store ip d1 (issue g [CallUpdate ip 15]))).
  { apply in_sync_store; [eapply in_sync_ext; [| |exact H]; reflexivity | exact Hin]. }
  assert (Hin1 : In ip (Dict.keys (devices (store ip d1 (issue g [CallUpdate ip 15])))))
    by apply in_keys_set.
  destruct (get "is_on" (is_on d1)) as [on|e];
    [|eapply in_sync_ext; [| |exact H1]; reflexivity].
  destruct (turn k (negb (truth on)) ip d1) as [d2|e];
    [|eapply in_sync_ext; [| |exact H1]; reflexivity].
  set (g2 := store ip d2 (issue (store ip d1 (issue g [CallUpdate ip 15]))
                            [CallTurn (negb (truth on)) ip 15])) in *.
  assert (H2 : in_sync g2).
  { apply in_sync_store; [eapply in_sync_ext; [| |exact H1]; reflexivity | exact Hin1]. }
  destruct (getattr (alias d2) (PyStr ip)) as [name|e];
    [|eapply in_sync_ext; [| |exact H2]; reflexivity].
  match goal with
  | |- context [update_device_list ?x] => set (x0 := x)
  end.
  assert (H3 : in_sync x0).
  { apply in_sync_store; [eapply in_sync_ext; [| |exact H2]; reflexivity | apply in_keys_set]. }
  destruct (redraw_from_sync x0 x0 H3 eq_refl) as (x' & E & Hs).
  { destruct H3 as (t & _ & _ & _ & Hn). exact Hn. }
  rewrite E. exact Hs.
Qed.

Lemma in_sync_run_coroutine k c g :
  discovers_dicts k -> in_sync g -> in_sync (run_coroutine k c g).
Proof.
  intros Hk H. destruct c; cbn [run_coroutine].
  - apply in_sync_manual_add. exact H.
  - apply in_sync_discover; assumption.
  - apply in_sync_toggle. exact H.
  - apply in_sync_turn_all. exact H.
  - apply in_sync_refresh. exact H.
Qed.

(** X20. The list follows the mapping: at start-up, and after any
    coroutines of the program (discovery, manual add, toggle, batch
    control, refresh) run to their end one after the other from a
    state where it does, with a library whose discovery returns each
    address once, the list shows exactly the keys of the mapping, in
    the order of the mapping, no row is hidden and no key occurs
    twice.  (The search filter is what breaks this: it is not among
    the steps.) *)
Theorem list_follows_mapping :
  (forall f, in_sync (init f)) /\
  (forall k cs g,
     discovers_dicts k -> in_sync g ->
     in_sync (run_all k cs g) /\
     shown (run_all k cs g) = Dict.keys (devices (run_all k cs g)) /\
     hidden (run_all k cs g) = [] /\
     NoDup (Dict.keys (devices (run_all k cs g)))).
Proof.
  split; [exact in_sync_init|].
  intros k cs g Hk H.
  assert (S : in_sync (run_all k cs g)).
  { revert g H. induction cs as [|c r IH]; intros g H; [exact H|].
    cbn [run_all fold_left]. apply IH. apply in_sync_run_coroutine; assumption. }
  split; [exact S|].
  destruct S as (t & Ht & Hd & Hc & Hn). unfold shown, hidden. rewrite Ht, Hd.
  repeat split; assumption.
Qed.

Lemma lab_discovers_dicts : discovers_dicts lab.
Proof.
  intros auth found H. cbn in H. injection H as <-. vm_compute. distinct_strings.
Qed.

Lemma list_follows_mapping_witness :
  shown (run_all lab [CoDiscover; CoToggle "10.0.0.2"; CoTurnAll false;
                      CoManualAdd "10.0.0.7"; CoRefresh] (init NoFile)) =
  Dict.keys (devices (run_all lab [CoDiscover; CoToggle "10.0.0.2"; CoTurnAll false;
                                   CoManualAdd "10.0.0.7"; CoRefresh] (init NoFile))).
Proof.
  exact (proj1 (proj2 (proj2 list_follows_mapping lab _ (init NoFile)
                         lab_discovers_dicts (proj1 list_follows_mapping NoFile)))).
Defined.
